(** * Fleur Fragrances storefront backend: cart, checkout and payment reconciliation

    A shallow embedding of the request handlers of [backend/server.py] that
    touch the cart, the payment ledger, the order store and the review
    aggregate, together with the properties the specification states about
    them.

    Layout:
    - [PyFloat]   Python's [float] (IEEE 754 binary64, as Rocq's primitive
                  floats) and the mixed int/float arithmetic the handlers
                  use, [round] and [int] included;
    - [Sha256]    [hashlib.sha256] and [hmac.new(...).hexdigest()];
    - [Mongo]     the query and update operators the handlers call, on
                  collections kept as lists of documents in store order;
    - documents (and which of them BSON can encode), gateways,
      [os.environ] and the [World] they make up;
    - [Server]    the handlers, written as programs that await one store or
                  gateway command at a time, with their sequential and
                  interleaved semantics;
    - the specification's notions (priced total, triggers, cart invariant,
      review aggregate) and sample data;
    - facts and theorems, grouped as checkout, reconciliation, cart and
      reviews; each theorem that settles a specification claim names it
      (C1 to C10).

    Values the handlers draw from their environment ([uuid.uuid4()],
    [datetime.now()]) are arguments of the handlers; what the payment
    gateways answer is a [Gateway] record of functions, [None] standing for
    a raised exception.  A store command answers or raises: an insert of a
    document that holds an integer beyond 8 bytes raises [OverflowError]
    and the handler ends there, with what it wrote before left in place. *)

From Stdlib Require Import ZArith List String Ascii Bool Lia Floats.
Import ListNotations.

Set Implicit Arguments.
Set Warnings "-inexact-float".

(* ================================================================== *)
(** ** Python floats *)
(* ================================================================== *)

Module PyFloat.

Local Open Scope Z_scope.

(** [float(n)] for a Python [int]: the nearest binary64 value (ties to
    even), or [OverflowError] ([None]) when [n] is out of range. *)
Definition of_int (n : Z) : option float :=
  match binary_normalize prec emax n 0 false with
  | S754_infinity _ => None
  | sf => Some (SF2Prim sf)
  end.

(** An integer as an exact, not yet rounded, operand of a division. *)
Definition exact (n : Z) : spec_float :=
  match n with
  | Z0 => S754_zero false
  | Zpos m => S754_finite false m 0
  | Zneg m => S754_finite true m 0
  end.

(** [a / b] on two Python [int]s: the correctly rounded quotient.
    [None] stands for [ZeroDivisionError] and for the [OverflowError] of
    a quotient too large for a float. *)
Definition int_true_div (a b : Z) : option float :=
  if b =? 0 then None
  else match SFdiv prec emax (exact a) (exact b) with
       | S754_infinity _ => None
       | sf => Some (SF2Prim sf)
       end.

(** Round the non-negative rational [num / den] to an integer, ties to
    the even neighbour. *)
Definition round_half_even (num den : Z) : Z :=
  let q := num / den in
  let r := num mod den in
  match 2 * r ?= den with
  | Lt => q
  | Gt => q + 1
  | Eq => if Z.even q then q else q + 1
  end.

(** [round(x, ndigits)] for a float [x] and [0 <= ndigits]: the exact
    binary value of [x] is rounded to [ndigits] decimals (ties to even)
    and the decimal is converted back to the nearest float; infinities,
    NaN and zeros round to themselves and the sign of [x] is kept. *)
Definition round (x : float) (ndigits : Z) : float :=
  match Prim2SF x with
  | S754_finite s m e =>
      let p := 10 ^ ndigits in
      let d := if 0 <=? e
               then round_half_even (Zpos m * 2 ^ e * p) 1
               else round_half_even (Zpos m * p) (2 ^ (- e)) in
      match d with
      | Zpos d' =>
          SF2Prim (SFdiv prec emax (S754_finite s d' 0) (exact p))
      | _ => if s then neg_zero else zero
      end
  | _ => x
  end.

(** [int(x)]: truncation towards zero; [None] is the [OverflowError] of
    an infinity or the [ValueError] of a NaN. *)
Definition to_int (x : float) : option Z :=
  match Prim2SF x with
  | S754_zero _ => Some 0
  | S754_finite s m e =>
      let a := if 0 <=? e then Zpos m * 2 ^ e else Zpos m / 2 ^ (- e) in
      Some (if s then - a else a)
  | _ => None
  end.

(** [x <= 0] and [0 < x] as the handlers test them. *)
Definition le0 (x : float) : bool := PrimFloat.leb x zero.
Definition pos (x : float) : bool := PrimFloat.ltb zero x.

(** Left-to-right sum starting from [0.0], the order of the handlers'
    accumulation loops. *)
Definition sum (xs : list float) : float := fold_left PrimFloat.add xs zero.

End PyFloat.

(* ================================================================== *)
(** ** SHA-256 and HMAC, as [hashlib] and [hmac] compute them *)
(* ================================================================== *)

Module Sha256.

Local Open Scope Z_scope.

(** Bytes are integers in [0, 256); a [str] is taken with its UTF-8
    encoding, one [ascii] per byte. *)
Definition encode (s : string) : list Z :=
  map (fun c => Z.of_N (N_of_ascii c)) (list_ascii_of_string s).

Definition word (x : Z) : Z := x mod 2 ^ 32.
Definition plus (x y : Z) : Z := word (x + y).
Definition rotr (n x : Z) : Z :=
  Z.lor (Z.shiftr x n) (word (Z.shiftl x (32 - n))).
Definition complement (x : Z) : Z := Z.lxor x (2 ^ 32 - 1).

Definition choose (x y z : Z) : Z :=
  Z.lxor (Z.land x y) (Z.land (complement x) z).
Definition majority (x y z : Z) : Z :=
  Z.lxor (Z.lxor (Z.land x y) (Z.land x z)) (Z.land y z).
Definition big_sigma0 (x : Z) : Z :=
  Z.lxor (Z.lxor (rotr 2 x) (rotr 13 x)) (rotr 22 x).
Definition big_sigma1 (x : Z) : Z :=
  Z.lxor (Z.lxor (rotr 6 x) (rotr 11 x)) (rotr 25 x).
Definition small_sigma0 (x : Z) : Z :=
  Z.lxor (Z.lxor (rotr 7 x) (rotr 18 x)) (Z.shiftr x 3).
Definition small_sigma1 (x : Z) : Z :=
  Z.lxor (Z.lxor (rotr 17 x) (rotr 19 x)) (Z.shiftr x 10).

(** The round constants and the initial state are the leading fractional
    bits of the cube and square roots of the first primes. *)
Fixpoint primes_from (fuel : nat) (n : Z) (found : list Z) (want : nat)
  : list Z :=
  match fuel, want with
  | O, _ | _, O => rev found
  | S fuel', S want' =>
      if forallb (fun p => negb (n mod p =? 0)) found
      then primes_from fuel' (n + 1) (n :: found) want'
      else primes_from fuel' (n + 1) found want
  end.

Definition first_primes (k : nat) : list Z := primes_from 400 2 [] k.

Fixpoint cube_root_bits (bits : nat) (n r : Z) : Z :=
  match bits with
  | O => r
  | S b =>
      let r' := r + 2 ^ Z.of_nat b in
      cube_root_bits b n (if r' * r' * r' <=? n then r' else r)
  end.

Definition cube_root (n : Z) : Z := cube_root_bits 40 n 0.

Definition round_constants : list Z :=
  Eval vm_compute in
    map (fun p => word (cube_root (p * 2 ^ 96))) (first_primes 64).

Definition initial_state : list Z :=
  Eval vm_compute in
    map (fun p => word (Z.sqrt (p * 2 ^ 64))) (first_primes 8).

(** Big-endian packing. *)
Fixpoint be_bytes (n : nat) (x : Z) : list Z :=
  match n with
  | O => []
  | S n' => (Z.shiftr x (8 * Z.of_nat n')) mod 256 :: be_bytes n' x
  end.

Definition be_word (bs : list Z) : Z :=
  fold_left (fun acc b => acc * 256 + b) bs 0.

Definition pad (msg : list Z) : list Z :=
  let len := Z.of_nat (List.length msg) in
  msg ++ [128] ++ repeat 0 (Z.to_nat ((55 - len) mod 64))
      ++ be_bytes 8 (8 * len).

Fixpoint chunks (fuel size : nat) (bs : list Z) : list (list Z) :=
  match fuel, bs with
  | O, _ | _, [] => []
  | S fuel', _ => firstn size bs :: chunks fuel' size (skipn size bs)
  end.

Definition block_words (block : list Z) : list Z :=
  map be_word (chunks 16 4 block).

(** Message schedule: the sixteen block words extended to sixty-four. *)
Definition schedule (block : list Z) : list Z :=
  fold_left
    (fun ws t =>
       let at_ i := nth (t - i)%nat ws 0 in
       ws ++ [plus (plus (small_sigma1 (at_ 2%nat)) (at_ 7%nat))
                   (plus (small_sigma0 (at_ 15%nat)) (at_ 16%nat))])
    (seq 16 48) (block_words block).

Record registers := Regs { ra : Z; rb : Z; rc : Z; rd : Z;
                           re : Z; rf : Z; rg : Z; rh : Z }.

Definition round_step (r : registers) (kw : Z * Z) : registers :=
  let t1 := plus (plus (plus (rh r) (big_sigma1 (re r)))
                       (plus (choose (re r) (rf r) (rg r)) (fst kw)))
                 (snd kw) in
  let t2 := plus (big_sigma0 (ra r)) (majority (ra r) (rb r) (rc r)) in
  Regs (plus t1 t2) (ra r) (rb r) (rc r) (plus (rd r) t1) (re r) (rf r) (rg r).

Definition compress (h : registers) (block : list Z) : registers :=
  let r := fold_left round_step (combine round_constants (schedule block)) h in
  Regs (plus (ra h) (ra r)) (plus (rb h) (rb r)) (plus (rc h) (rc r))
       (plus (rd h) (rd r)) (plus (re h) (re r)) (plus (rf h) (rf r))
       (plus (rg h) (rg r)) (plus (rh h) (rh r)).

Definition start : registers :=
  let v i := nth i initial_state 0 in
  Regs (v 0%nat) (v 1%nat) (v 2%nat) (v 3%nat)
       (v 4%nat) (v 5%nat) (v 6%nat) (v 7%nat).

(** [hashlib.sha256(msg).digest()] *)
Definition digest (msg : list Z) : list Z :=
  let padded := pad msg in
  let r := fold_left compress (chunks (List.length padded) 64 padded) start in
  flat_map (be_bytes 4)
           [ra r; rb r; rc r; rd r; re r; rf r; rg r; rh r].

Definition hex_digit (n : Z) : ascii :=
  ascii_of_N (Z.to_N (if n <? 10 then 48 + n else 87 + n)).

Fixpoint hex (bs : list Z) : string :=
  match bs with
  | [] => EmptyString
  | b :: rest => String (hex_digit (b / 16)) (String (hex_digit (b mod 16)) (hex rest))
  end.

(** [hmac.new(key, msg, hashlib.sha256).digest()] *)
Definition hmac (key msg : list Z) : list Z :=
  let key' := if (64 <? Z.of_nat (List.length key)) then digest key else key in
  let block := key' ++ repeat 0 (64 - List.length key')%nat in
  let inner := digest (map (Z.lxor 54) block ++ msg) in
  digest (map (Z.lxor 92) block ++ inner).

(** [hmac.new(key.encode(), msg.encode(), hashlib.sha256).hexdigest()] *)
Definition hmac_hexdigest (key msg : string) : string :=
  hex (hmac (encode key) (encode msg)).

End Sha256.

Arguments Sha256.hmac_hexdigest : simpl never.
Arguments Sha256.digest : simpl never.

(* ================================================================== *)
(** ** The document store *)
(* ================================================================== *)

Module Mongo.

Section Collection.
Variable Doc : Type.

(** [collection.find_one(query)]: the first matching document. *)
Fixpoint find_one (query : Doc -> bool) (coll : list Doc) : option Doc :=
  match coll with
  | [] => None
  | d :: rest => if query d then Some d else find_one query rest
  end.

(** [collection.update_one(query, update)]: the update is applied to the
    first matching document and to no other; nothing happens when no
    document matches. *)
Fixpoint update_one (query : Doc -> bool) (update : Doc -> Doc)
         (coll : list Doc) : list Doc :=
  match coll with
  | [] => []
  | d :: rest =>
      if query d then update d :: rest
      else d :: update_one query update rest
  end.

(** [collection.insert_one(doc)] *)
Definition insert_one (doc : Doc) (coll : list Doc) : list Doc :=
  coll ++ [doc].

(** [collection.find(query).to_list(limit)] *)
Definition find (query : Doc -> bool) (coll : list Doc) : list Doc :=
  filter query coll.
Definition to_list (limit : nat) (cursor : list Doc) : list Doc :=
  firstn limit cursor.
End Collection.

Section ArrayOperators.
Variable Elt : Type.

(** [$push] *)
Definition push (x : Elt) (arr : list Elt) : list Elt := arr ++ [x].

(** [$pull]: every element matching the condition is removed. *)
Definition pull (cond : Elt -> bool) (arr : list Elt) : list Elt :=
  filter (fun x => negb (cond x)) arr.

(** The positional operator [$]: the first element matching the array
    condition of the query is the one updated. *)
Definition positional (cond : Elt -> bool) (update : Elt -> Elt)
           (arr : list Elt) : list Elt :=
  update_one cond update arr.
End ArrayOperators.

End Mongo.

Arguments Mongo.to_list : simpl never.

(** *** Documents

    One module per document shape, so that fields keep the keys the
    handlers use.  A document carries the keys the modelled handlers read
    or write. *)

Module Product.
Record t := Make
  { id : string; name : string; price : float;
    rating : float; reviews_count : Z }.
End Product.

(** The request model [CartItem]; a cart line has the same two keys. *)
Module CartItem.
Record t := Make { product_id : string; quantity : Z }.
End CartItem.

Module Cart.
Record t := Make { user_id : string; items : list CartItem.t }.
End Cart.

(** An entry of [items_details]. *)
Module Line.
Record t := Make
  { product_id : string; name : string; price : float; quantity : Z }.
End Line.

Module Transaction.
Record t := Make
  { id : string;
    session_id : option string;          (* Stripe rows *)
    razorpay_order_id : option string;   (* Razorpay rows *)
    user_id : string;
    amount : float;
    currency : string;
    payment_method : string;
    payment_status : string;
    items : list Line.t;
    created_at : string;
    updated_at : option string;
    razorpay_payment_id : option string }.
End Transaction.

Module Order.
Record t := Make
  { id : string;
    user_id : string;
    items : list Line.t;
    total_amount : float;
    payment_method : string;
    payment_status : string;
    payment_session_id : option string;
    razorpay_order_id : option string;
    razorpay_payment_id : option string;
    order_status : string;
    shipping_address : list (string * string);
    created_at : string }.
End Order.

Module Review.
Record t := Make
  { id : string; product_id : string; user_id : string;
    user_name : string; rating : Z; title : string; comment : string;
    created_at : string }.
End Review.

(** The authenticated user, as [get_current_user] hands it to a route. *)
Module User.
Record t := Make { id : string; name : string }.
End User.

Module CheckoutRequest.
Record t := Make { items : list CartItem.t; origin_url : string }.
End CheckoutRequest.

Module ReviewCreate.
Record t := Make
  { product_id : string; rating : Z; title : string; comment : string }.
End ReviewCreate.

(** *** What the store can encode

    [insert_one] encodes the document as BSON, whose integers have at most
    8 bytes: for a document that holds a larger one the driver raises
    [OverflowError] and nothing is stored.  The integers of the documents
    the handlers insert are the quantities of cart lines and of priced
    lines, and the rating of a review. *)
Module Bson.
Local Open Scope Z_scope.
Definition int64 (n : Z) : bool := (- 2 ^ 63 <=? n) && (n <? 2 ^ 63).
Definition cart (c : Cart.t) : bool :=
  forallb (fun i => int64 (CartItem.quantity i)) (Cart.items c).
Definition lines (ls : list Line.t) : bool :=
  forallb (fun l => int64 (Line.quantity l)) ls.
Definition transaction (t : Transaction.t) : bool :=
  lines (Transaction.items t).
Definition review (r : Review.t) : bool := int64 (Review.rating r).
End Bson.

(** *** The payment gateways (external collaborators) *)

Module Stripe.
Record CheckoutSessionRequest := Request
  { amount : float; currency : string;
    success_url : string; cancel_url : string;
    metadata_user_id : string; metadata_items : list Line.t }.
Record CheckoutSession := Session { session_id : string; url : string }.
Record CheckoutStatus := Status
  { status : string; payment_status : string;
    amount_total : Z; status_currency : string }.
Record WebhookResponse := Webhook
  { webhook_session_id : string; webhook_payment_status : string }.
End Stripe.

Module Razorpay.
Record OrderData := Data
  { amount : Z; currency : string; payment_capture : Z }.
Record RpOrder := Created
  { id : string; order_amount : Z; order_currency : string }.
End Razorpay.

(** What the gateways answer; [None] is a raised exception. *)
Record Gateway := MkGateway
  { create_checkout_session :
      string -> Stripe.CheckoutSessionRequest -> option Stripe.CheckoutSession;
    get_checkout_status_of : string -> option Stripe.CheckoutStatus;
    handle_webhook : string -> string -> option Stripe.WebhookResponse;
    order_create : Razorpay.OrderData -> option Razorpay.RpOrder }.

(** [os.environ] *)
Record Environ := MkEnviron
  { STRIPE_API_KEY : option string;
    RAZORPAY_KEY_ID : option string;
    RAZORPAY_KEY_SECRET : option string }.

(** The collections of [db], and what has been created at the gateways. *)
Record World := MkWorld
  { products : list Product.t;
    carts : list Cart.t;
    payment_transactions : list Transaction.t;
    orders : list Order.t;
    reviews : list Review.t;
    stripe_sessions : list Stripe.CheckoutSessionRequest;
    razorpay_orders : list Razorpay.OrderData }.

Definition with_products (f : list Product.t -> list Product.t) (w : World) :=
  MkWorld (f (products w)) (carts w) (payment_transactions w) (orders w)
          (reviews w) (stripe_sessions w) (razorpay_orders w).
Definition with_carts (f : list Cart.t -> list Cart.t) (w : World) :=
  MkWorld (products w) (f (carts w)) (payment_transactions w) (orders w)
          (reviews w) (stripe_sessions w) (razorpay_orders w).
Definition with_payment_transactions
           (f : list Transaction.t -> list Transaction.t) (w : World) :=
  MkWorld (products w) (carts w) (f (payment_transactions w)) (orders w)
          (reviews w) (stripe_sessions w) (razorpay_orders w).
Definition with_orders (f : list Order.t -> list Order.t) (w : World) :=
  MkWorld (products w) (carts w) (payment_transactions w) (f (orders w))
          (reviews w) (stripe_sessions w) (razorpay_orders w).
Definition with_reviews (f : list Review.t -> list Review.t) (w : World) :=
  MkWorld (products w) (carts w) (payment_transactions w) (orders w)
          (f (reviews w)) (stripe_sessions w) (razorpay_orders w).
Definition with_stripe_sessions
           (f : list Stripe.CheckoutSessionRequest ->
                list Stripe.CheckoutSessionRequest) (w : World) :=
  MkWorld (products w) (carts w) (payment_transactions w) (orders w)
          (reviews w) (f (stripe_sessions w)) (razorpay_orders w).
Definition with_razorpay_orders
           (f : list Razorpay.OrderData -> list Razorpay.OrderData)
           (w : World) :=
  MkWorld (products w) (carts w) (payment_transactions w) (orders w)
          (reviews w) (stripe_sessions w) (f (razorpay_orders w)).

(* ================================================================== *)
(** ** The request handlers *)
(* ================================================================== *)

Module Server.

Local Open Scope string_scope.

(** *** What a handler awaits

    Every [await db....] and every gateway call is one command; between
    two commands of a handler, commands of other requests may run. *)
Inductive cmd : Type -> Type :=
| products_find_one (query : Product.t -> bool) : cmd (option Product.t)
| products_update_one (query : Product.t -> bool)
                      (update : Product.t -> Product.t) : cmd unit
| carts_find_one (query : Cart.t -> bool) : cmd (option Cart.t)
| carts_insert_one (doc : Cart.t) : cmd unit
| carts_update_one (query : Cart.t -> bool)
                   (update : Cart.t -> Cart.t) : cmd unit
| payment_transactions_find_one (query : Transaction.t -> bool)
  : cmd (option Transaction.t)
| payment_transactions_update_one (query : Transaction.t -> bool)
                                  (update : Transaction.t -> Transaction.t)
  : cmd unit
| payment_transactions_insert_one (doc : Transaction.t) : cmd unit
| orders_insert_one (doc : Order.t) : cmd unit
| reviews_insert_one (doc : Review.t) : cmd unit
| reviews_find_to_list (query : Review.t -> bool) (limit : nat)
  : cmd (list Review.t)
| stripe_create_checkout_session (webhook_url : string)
                                 (request : Stripe.CheckoutSessionRequest)
  : cmd (option Stripe.CheckoutSession)
| stripe_get_checkout_status (session_id : string)
  : cmd (option Stripe.CheckoutStatus)
| stripe_handle_webhook (body signature : string)
  : cmd (option Stripe.WebhookResponse)
| razorpay_order_create (data : Razorpay.OrderData)
  : cmd (option Razorpay.RpOrder).

(** What a handler can raise; [GatewayError] stands for whatever a gateway
    client raises when a call fails. *)
Inductive exn :=
| HTTPException (status_code : Z) (detail : string)
| OverflowError
| ValueError
| AttributeError
| GatewayError.

(** A handler: it returns, raises, or awaits a command and goes on with
    the answer. *)
Inductive prog (A : Type) : Type :=
| Return (a : A)
| Raise (e : exn)
| Await (R : Type) (c : cmd R) (k : R -> prog A).

Arguments Return {A} a.
Arguments Raise {A} e.
Arguments Await {A R} c k.

Fixpoint bind {A B} (p : prog A) (f : A -> prog B) : prog B :=
  match p with
  | Return a => f a
  | Raise e => Raise e
  | Await c k => Await c (fun r => bind (k r) f)
  end.

Notation "x <- 'await' c ;; k" := (Await c (fun x => k))
  (at level 61, c at next level, right associativity).
Notation "'await' c ;; k" := (Await c (fun _ => k))
  (at level 61, c at next level, right associativity).
Notation "x <~ p ;; k" := (bind p (fun x => k))
  (at level 61, p at next level, right associativity).

(** *** Commands on the world *)

Inductive result (A : Type) : Type :=
| Ok (a : A)
| Err (e : exn).
Arguments Ok {A} a.
Arguments Err {A} e.

(** A command answers, or raises and leaves the world as it is.  The
    inserts of a cart, of a ledger row and of a review raise
    [OverflowError] for a document BSON cannot encode.  An order is built
    from a ledger row, whose integers the store holds already. *)
Definition exec (g : Gateway) {R} (c : cmd R) (w : World)
  : result R * World :=
  match c in cmd R return result R * World with
  | products_find_one q => (Ok (Mongo.find_one q (products w)), w)
  | products_update_one q u =>
      (Ok tt, with_products (Mongo.update_one q u) w)
  | carts_find_one q => (Ok (Mongo.find_one q (carts w)), w)
  | carts_insert_one d =>
      if Bson.cart d then (Ok tt, with_carts (Mongo.insert_one d) w)
      else (Err OverflowError, w)
  | carts_update_one q u => (Ok tt, with_carts (Mongo.update_one q u) w)
  | payment_transactions_find_one q =>
      (Ok (Mongo.find_one q (payment_transactions w)), w)
  | payment_transactions_update_one q u =>
      (Ok tt, with_payment_transactions (Mongo.update_one q u) w)
  | payment_transactions_insert_one d =>
      if Bson.transaction d
      then (Ok tt, with_payment_transactions (Mongo.insert_one d) w)
      else (Err OverflowError, w)
  | orders_insert_one d => (Ok tt, with_orders (Mongo.insert_one d) w)
  | reviews_insert_one d =>
      if Bson.review d then (Ok tt, with_reviews (Mongo.insert_one d) w)
      else (Err OverflowError, w)
  | reviews_find_to_list q limit =>
      (Ok (Mongo.to_list limit (Mongo.find q (reviews w))), w)
  | stripe_create_checkout_session hook req =>
      match create_checkout_session g hook req with
      | Some s =>
          (Ok (Some s), with_stripe_sessions (fun l => (l ++ [req])%list) w)
      | None => (Ok None, w)
      end
  | stripe_get_checkout_status sid => (Ok (get_checkout_status_of g sid), w)
  | stripe_handle_webhook body sig => (Ok (handle_webhook g body sig), w)
  | razorpay_order_create data =>
      match order_create g data with
      | Some o =>
          (Ok (Some o), with_razorpay_orders (fun l => (l ++ [data])%list) w)
      | None => (Ok None, w)
      end
  end.

(** A handler run to its end with no other request in between; what a
    command raises, the handler raises. *)
Fixpoint run (g : Gateway) {A} (p : prog A) (w : World) : result A * World :=
  match p with
  | Return a => (Ok a, w)
  | Raise e => (Err e, w)
  | Await c k =>
      match exec g c w with
      | (Ok r, w') => run g (k r) w'
      | (Err e, w') => (Err e, w')
      end
  end.

(** One command of a handler; a finished handler stays as it is. *)
Definition step (g : Gateway) {A} (pw : prog A * World) : prog A * World :=
  match fst pw with
  | Await c k =>
      match exec g c (snd pw) with
      | (Ok r, w') => (k r, w')
      | (Err e, w') => (Raise e, w')
      end
  | _ => pw
  end.

Fixpoint steps (g : Gateway) {A} (n : nat) (pw : prog A * World)
  : prog A * World :=
  match n with
  | O => pw
  | S n' => steps g n' (step g pw)
  end.

(** Two requests in flight: the schedule says whose command runs next
    ([false] the first request, [true] the second). *)
Fixpoint interleave (g : Gateway) {A B} (schedule : list bool)
         (p : prog A) (q : prog B) (w : World) : prog A * prog B * World :=
  match schedule with
  | [] => (p, q, w)
  | false :: rest =>
      let (p', w') := step g (p, w) in interleave g rest p' q w'
  | true :: rest =>
      let (q', w') := step g (q, w) in interleave g rest p q' w'
  end.

Definition finished {A} (p : prog A) : bool :=
  match p with
  | Await _ _ => false
  | _ => true
  end.

(** *** Queries and updates the handlers build *)

Definition has (key : option string) (value : string) : bool :=
  match key with
  | Some v => String.eqb v value
  | None => false
  end.

Definition truthy (v : option string) : bool :=
  match v with
  | Some s => negb (String.eqb s "")
  | None => false
  end.

Definition cart_of (uid : string) (c : Cart.t) : bool :=
  String.eqb (Cart.user_id c) uid.
Definition line_of (pid : string) (i : CartItem.t) : bool :=
  String.eqb (CartItem.product_id i) pid.
(** [{"user_id": uid, "items.product_id": pid}] *)
Definition cart_with_line (uid pid : string) (c : Cart.t) : bool :=
  cart_of uid c && existsb (line_of pid) (Cart.items c).

Definition set_items (f : list CartItem.t -> list CartItem.t) (c : Cart.t)
  : Cart.t :=
  Cart.Make (Cart.user_id c) (f (Cart.items c)).
Definition inc_quantity (by_ : Z) (i : CartItem.t) : CartItem.t :=
  CartItem.Make (CartItem.product_id i) (CartItem.quantity i + by_).
Definition set_quantity (q : Z) (i : CartItem.t) : CartItem.t :=
  CartItem.Make (CartItem.product_id i) q.

Definition product_of (pid : string) (p : Product.t) : bool :=
  String.eqb (Product.id p) pid.
Definition set_rating (r : float) (n : Z) (p : Product.t) : Product.t :=
  Product.Make (Product.id p) (Product.name p) (Product.price p) r n.

Definition by_session_id (sid : string) (t : Transaction.t) : bool :=
  has (Transaction.session_id t) sid.
Definition by_razorpay_order_id (oid : string) (t : Transaction.t) : bool :=
  has (Transaction.razorpay_order_id t) oid.

(** [{"$set": {"payment_status": "paid", "updated_at": now}}] *)
Definition set_paid_at (now : string) (t : Transaction.t) : Transaction.t :=
  Transaction.Make
    (Transaction.id t) (Transaction.session_id t)
    (Transaction.razorpay_order_id t) (Transaction.user_id t)
    (Transaction.amount t) (Transaction.currency t)
    (Transaction.payment_method t) "paid" (Transaction.items t)
    (Transaction.created_at t) (Some now)
    (Transaction.razorpay_payment_id t).

(** [{"$set": {"payment_status": "paid"}}] *)
Definition set_paid (t : Transaction.t) : Transaction.t :=
  Transaction.Make
    (Transaction.id t) (Transaction.session_id t)
    (Transaction.razorpay_order_id t) (Transaction.user_id t)
    (Transaction.amount t) (Transaction.currency t)
    (Transaction.payment_method t) "paid" (Transaction.items t)
    (Transaction.created_at t) (Transaction.updated_at t)
    (Transaction.razorpay_payment_id t).

(** [{"$set": {"payment_status": "paid", "razorpay_payment_id": pid,
               "updated_at": now}}] *)
Definition set_paid_razorpay (pid now : string) (t : Transaction.t)
  : Transaction.t :=
  Transaction.Make
    (Transaction.id t) (Transaction.session_id t)
    (Transaction.razorpay_order_id t) (Transaction.user_id t)
    (Transaction.amount t) (Transaction.currency t)
    (Transaction.payment_method t) "paid" (Transaction.items t)
    (Transaction.created_at t) (Some now) (Some pid).

Definition review_of (pid : string) (r : Review.t) : bool :=
  String.eqb (Review.product_id r) pid.

(** [transaction.get("payment_status") != "paid"] *)
Definition not_paid (t : Transaction.t) : bool :=
  negb (String.eqb (Transaction.payment_status t) "paid").

(** *** Cart routes *)

(** [POST /cart/add] *)
Definition add_to_cart (item : CartItem.t) (user : User.t) : prog string :=
  cart <- await carts_find_one (cart_of (User.id user)) ;;
  match cart with
  | None =>
      await carts_insert_one
        (Cart.Make (User.id user)
           [CartItem.Make (CartItem.product_id item)
                          (CartItem.quantity item)]) ;;
      Return "Item added to cart"
  | Some cart =>
      let existing :=
        List.find (line_of (CartItem.product_id item)) (Cart.items cart) in
      match existing with
      | Some _ =>
          await carts_update_one
            (cart_with_line (User.id user) (CartItem.product_id item))
            (set_items
               (Mongo.positional (line_of (CartItem.product_id item))
                                 (inc_quantity (CartItem.quantity item)))) ;;
          Return "Item added to cart"
      | None =>
          await carts_update_one
            (cart_of (User.id user))
            (set_items
               (Mongo.push (CartItem.Make (CartItem.product_id item)
                                          (CartItem.quantity item)))) ;;
          Return "Item added to cart"
      end
  end.

(** [PUT /cart/update] *)
Definition update_cart_item (item : CartItem.t) (user : User.t)
  : prog string :=
  if (CartItem.quantity item <=? 0)%Z then
    await carts_update_one
      (cart_of (User.id user))
      (set_items (Mongo.pull (line_of (CartItem.product_id item)))) ;;
    Return "Cart updated"
  else
    await carts_update_one
      (cart_with_line (User.id user) (CartItem.product_id item))
      (set_items
         (Mongo.positional (line_of (CartItem.product_id item))
                           (set_quantity (CartItem.quantity item)))) ;;
    Return "Cart updated".

(** [DELETE /cart/remove/{product_id}] *)
Definition remove_from_cart (product_id : string) (user : User.t)
  : prog string :=
  await carts_update_one
    (cart_of (User.id user))
    (set_items (Mongo.pull (line_of product_id))) ;;
  Return "Item removed from cart".

(** [DELETE /cart/clear] *)
Definition clear_cart (user : User.t) : prog string :=
  await carts_update_one (cart_of (User.id user))
                         (set_items (fun _ => [])) ;;
  Return "Cart cleared".

(** *** Payment routes *)

(** The pricing loop both checkout routes start with:
    [for item in request.items: ...], entered with [total = 0.0] and
    [items_details = []]. *)
Fixpoint price_items (items : list CartItem.t) (total : float)
         (items_details : list Line.t) : prog (float * list Line.t) :=
  match items with
  | [] => Return (total, items_details)
  | item :: rest =>
      product <- await products_find_one
                   (product_of (CartItem.product_id item)) ;;
      match product with
      | Some product =>
          match PyFloat.of_int (CartItem.quantity item) with
          | Some quantity =>
              price_items rest
                (total + Product.price product * quantity)%float
                (items_details ++
                   [Line.Make (Product.id product) (Product.name product)
                              (Product.price product)
                              (CartItem.quantity item)])%list
          | None => Raise OverflowError
          end
      | None => price_items rest total items_details
      end
  end.

(** [POST /checkout/stripe]; [uuid4] and [now] are the values
    [uuid.uuid4()] and [datetime.now(...)] take in this call. *)
Definition create_stripe_checkout (request : CheckoutRequest.t)
           (user : User.t) (uuid4 now : string)
  : prog Stripe.CheckoutSession :=
  priced <~ price_items (CheckoutRequest.items request) 0%float [] ;;
  let '(total, items_details) := priced in
  if PyFloat.le0 total then Raise (HTTPException 400 "Cart is empty")
  else
    let host_url := CheckoutRequest.origin_url request in
    let webhook_url := host_url ++ "/api/webhook/stripe" in
    let success_url :=
      host_url ++ "/checkout/success?session_id={CHECKOUT_SESSION_ID}" in
    let cancel_url := host_url ++ "/cart" in
    let amount_usd := PyFloat.round (total / 83)%float 2 in
    session <- await stripe_create_checkout_session webhook_url
                 (Stripe.Request amount_usd "usd" success_url cancel_url
                                 (User.id user) items_details) ;;
    match session with
    | None => Raise GatewayError
    | Some session =>
        await payment_transactions_insert_one
          (Transaction.Make uuid4 (Some (Stripe.session_id session)) None
             (User.id user) total "INR" "stripe" "pending" items_details
             now None None) ;;
        Return session
    end.

(** [GET /checkout/status/{session_id}] *)
Definition get_checkout_status (session_id : string) (user : User.t)
           (uuid4 updated_at created_at : string)
  : prog Stripe.CheckoutStatus :=
  status <- await stripe_get_checkout_status session_id ;;
  match status with
  | None => Raise GatewayError
  | Some status =>
      if String.eqb (Stripe.payment_status status) "paid" then
        transaction <- await payment_transactions_find_one
                         (by_session_id session_id) ;;
        match transaction with
        | Some transaction =>
            if not_paid transaction then
              await payment_transactions_update_one
                (by_session_id session_id) (set_paid_at updated_at) ;;
              await orders_insert_one
                (Order.Make uuid4 (Transaction.user_id transaction)
                   (Transaction.items transaction)
                   (Transaction.amount transaction)
                   "stripe" "paid" (Some session_id) None None
                   "confirmed" [] created_at) ;;
              await carts_update_one
                (cart_of (Transaction.user_id transaction))
                (set_items (fun _ => [])) ;;
              Return status
            else Return status
        | None => Return status
        end
      else Return status
  end.

(** [POST /webhook/stripe]; the [try]/[except] turns a failed signature
    check into the answer ["error"]. *)
Definition stripe_webhook (body signature : string) : prog string :=
  webhook_response <- await stripe_handle_webhook body signature ;;
  match webhook_response with
  | Some webhook_response =>
      if String.eqb (Stripe.webhook_payment_status webhook_response) "paid"
      then
        await payment_transactions_update_one
          (by_session_id (Stripe.webhook_session_id webhook_response))
          set_paid ;;
        Return "processed"
      else Return "processed"
  | None => Return "error"
  end.

(** The answer of [POST /checkout/razorpay]. *)
Record RazorpayHandle := Handle
  { order_id : string; handle_amount : Z; handle_currency : string;
    key_id : option string }.

(** [POST /checkout/razorpay] *)
Definition create_razorpay_order (env : Environ)
           (request : CheckoutRequest.t) (user : User.t)
           (uuid4 now : string) : prog RazorpayHandle :=
  let razorpay_key := RAZORPAY_KEY_ID env in
  let razorpay_secret := RAZORPAY_KEY_SECRET env in
  if negb (truthy razorpay_key) || negb (truthy razorpay_secret) then
    Raise (HTTPException 500 "Razorpay not configured")
  else
    priced <~ price_items (CheckoutRequest.items request) 0%float [] ;;
    let '(total, items_details) := priced in
    if PyFloat.le0 total then Raise (HTTPException 400 "Cart is empty")
    else
      match PyFloat.to_int (total * 100)%float with
      | None =>
          Raise (if PrimFloat.is_nan (total * 100)%float
                 then ValueError else OverflowError)
      | Some paise =>
          rp_order <- await razorpay_order_create
                        (Razorpay.Data paise "INR" 1) ;;
          match rp_order with
          | None => Raise GatewayError
          | Some rp_order =>
              await payment_transactions_insert_one
                (Transaction.Make uuid4 None
                   (Some (Razorpay.id rp_order)) (User.id user) total
                   "INR" "razorpay" "pending" items_details now
                   None None) ;;
              Return (Handle (Razorpay.id rp_order)
                             (Razorpay.order_amount rp_order)
                             (Razorpay.order_currency rp_order)
                             razorpay_key)
          end
      end.

(** [hmac.new(secret.encode(), f"{order_id}|{payment_id}".encode(),
    hashlib.sha256).hexdigest()] *)
Definition generated_signature (razorpay_secret razorpay_order_id
                                razorpay_payment_id : string) : string :=
  Sha256.hmac_hexdigest razorpay_secret
                        (razorpay_order_id ++ "|" ++ razorpay_payment_id).

Arguments generated_signature : simpl never.

(** [POST /checkout/razorpay/verify] *)
Definition verify_razorpay_payment (env : Environ)
           (razorpay_order_id razorpay_payment_id razorpay_signature : string)
           (user : User.t) (uuid4 updated_at created_at : string)
  : prog (string * string) :=
  match RAZORPAY_KEY_SECRET env with
  | None => Raise AttributeError
  | Some razorpay_secret =>
      if negb (String.eqb
                 (generated_signature razorpay_secret razorpay_order_id
                                      razorpay_payment_id)
                 razorpay_signature)
      then Raise (HTTPException 400 "Invalid payment signature")
      else
        transaction <- await payment_transactions_find_one
                         (by_razorpay_order_id razorpay_order_id) ;;
        match transaction with
        | Some transaction =>
            if not_paid transaction then
              await payment_transactions_update_one
                (by_razorpay_order_id razorpay_order_id)
                (set_paid_razorpay razorpay_payment_id updated_at) ;;
              await orders_insert_one
                (Order.Make uuid4 (Transaction.user_id transaction)
                   (Transaction.items transaction)
                   (Transaction.amount transaction)
                   "razorpay" "paid" None (Some razorpay_order_id)
                   (Some razorpay_payment_id) "confirmed" [] created_at) ;;
              await carts_update_one
                (cart_of (Transaction.user_id transaction))
                (set_items (fun _ => [])) ;;
              Return ("success", "Payment verified")
            else Return ("success", "Payment verified")
        | None => Return ("success", "Payment verified")
        end
  end.

(** *** Review routes *)

(** [sum(r["rating"] for r in reviews) / len(reviews) if reviews else 0];
    the [0] of the empty case is kept as the float zero (the case does not
    arise: the query runs after the insertion of a review it matches). *)
Definition avg_rating (reviews : list Review.t) : option float :=
  match reviews with
  | [] => Some 0%float
  | _ => PyFloat.int_true_div
           (fold_left Z.add (map Review.rating reviews) 0%Z)
           (Z.of_nat (List.length reviews))
  end.

(** [POST /reviews].  The insert raises for a rating beyond 8 bytes and
    the handler ends there.  The division raises only for a sum beyond the
    range of a float, which the ratings a store holds, 8 bytes each and at
    most a thousand of them, do not reach. *)
Definition create_review (review : ReviewCreate.t) (user : User.t)
           (uuid4 now : string) : prog Review.t :=
  let review_doc :=
    Review.Make uuid4 (ReviewCreate.product_id review) (User.id user)
                (User.name user) (ReviewCreate.rating review)
                (ReviewCreate.title review) (ReviewCreate.comment review)
                now in
  await reviews_insert_one review_doc ;;
  reviews <- await reviews_find_to_list
               (review_of (ReviewCreate.product_id review)) 1000 ;;
  match avg_rating reviews with
  | None => Raise OverflowError
  | Some avg =>
      await products_update_one
        (product_of (ReviewCreate.product_id review))
        (set_rating (PyFloat.round avg 1)
                    (Z.of_nat (List.length reviews))) ;;
      Return review_doc
  end.

End Server.

Import Server.

(* ================================================================== *)
(** ** Specification-level definitions *)
(* ================================================================== *)

(** *** The priced total, in the specification's words

    "total = sum of (catalog price at call time x quantity) over cart items
    present in the catalog; items no longer present are skipped". *)

(** The priced line of one requested item: none when the catalog has no
    such product. *)
Definition catalog_line (catalog : list Product.t) (item : CartItem.t)
  : list Line.t :=
  match Mongo.find_one (product_of (CartItem.product_id item)) catalog with
  | Some p => [Line.Make (Product.id p) (Product.name p) (Product.price p)
                         (CartItem.quantity item)]
  | None => []
  end.

Definition priced_lines (catalog : list Product.t) (items : list CartItem.t)
  : list Line.t :=
  flat_map (catalog_line catalog) items.

(** Unit price times quantity; undefined when the quantity does not fit a
    float. *)
Definition line_amount (l : Line.t) : option float :=
  option_map (PrimFloat.mul (Line.price l)) (PyFloat.of_int (Line.quantity l)).

Fixpoint amounts (lines : list Line.t) : option (list float) :=
  match lines with
  | [] => Some []
  | l :: rest =>
      match line_amount l, amounts rest with
      | Some a, Some xs => Some (a :: xs)
      | _, _ => None
      end
  end.

Definition lines_total (lines : list Line.t) : option float :=
  option_map PyFloat.sum (amounts lines).

(** [RAZORPAY_KEY_ID] and [RAZORPAY_KEY_SECRET] are set and not empty. *)
Definition razorpay_configured (env : Environ) : Prop :=
  truthy (RAZORPAY_KEY_ID env) = true /\
  truthy (RAZORPAY_KEY_SECRET env) = true.

(** The request [create_stripe_checkout] sends for a total and its lines. *)
Definition stripe_request (request : CheckoutRequest.t) (user : User.t)
           (total : float) (lines : list Line.t)
  : Stripe.CheckoutSessionRequest :=
  Stripe.Request
    (PyFloat.round (total / 83)%float 2) "usd"
    (CheckoutRequest.origin_url request ++
       "/checkout/success?session_id={CHECKOUT_SESSION_ID}")%string
    (CheckoutRequest.origin_url request ++ "/cart")%string
    (User.id user) lines.

(** The webhook address the Stripe client is built with. *)
Definition stripe_hook (request : CheckoutRequest.t) : string :=
  (CheckoutRequest.origin_url request ++ "/api/webhook/stripe")%string.

(** The order [create_razorpay_order] asks Razorpay to create for a total
    in paise. *)
Definition razorpay_request (paise : Z) : Razorpay.OrderData :=
  Razorpay.Data paise "INR" 1.


(** *** Reconciliation triggers

    A polled status check and a client-supplied proof, each with the
    values [uuid.uuid4()] and [datetime.now(...)] take while it runs. *)
Inductive trigger :=
| Poll (session_id : string) (user : User.t)
       (uuid4 updated_at created_at : string)
| Verify (razorpay_order_id razorpay_payment_id razorpay_signature : string)
         (user : User.t) (uuid4 updated_at created_at : string).

(** The session reference a trigger carries. *)
Definition reference (tr : trigger) : string :=
  match tr with
  | Poll sid _ _ _ _ => sid
  | Verify oid _ _ _ _ _ _ => oid
  end.

(** The ledger query a trigger resolves its reference with. *)
Definition target (tr : trigger) : Transaction.t -> bool :=
  match tr with
  | Poll sid _ _ _ _ => by_session_id sid
  | Verify oid _ _ _ _ _ _ => by_razorpay_order_id oid
  end.

Definition same_gateway (a b : trigger) : bool :=
  match a, b with
  | Poll _ _ _ _ _, Poll _ _ _ _ _ => true
  | Verify _ _ _ _ _ _ _, Verify _ _ _ _ _ _ _ => true
  | _, _ => false
  end.

(** The route a trigger requests, its response body dropped. *)
Definition fire (env : Environ) (tr : trigger) : prog unit :=
  match tr with
  | Poll sid user uuid4 updated_at created_at =>
      _ <~ get_checkout_status sid user uuid4 updated_at created_at ;;
      Return tt
  | Verify oid pid sig user uuid4 updated_at created_at =>
      _ <~ verify_razorpay_payment env oid pid sig user uuid4
                                   updated_at created_at ;;
      Return tt
  end.

(** The trigger carries a confirmation: the gateway reports the session
    paid, or the signature is the one the shared secret gives. *)
Definition confirms (g : Gateway) (env : Environ) (tr : trigger) : Prop :=
  match tr with
  | Poll sid _ _ _ _ =>
      exists st, get_checkout_status_of g sid = Some st /\
                 Stripe.payment_status st = "paid"%string
  | Verify oid pid sig _ _ _ _ =>
      exists secret, RAZORPAY_KEY_SECRET env = Some secret /\
                     sig = generated_signature secret oid pid
  end.

(** The order a trigger inserts for the transaction it found. *)
Definition order_for (tr : trigger) (t : Transaction.t) : Order.t :=
  match tr with
  | Poll sid _ uuid4 _ created_at =>
      Order.Make uuid4 (Transaction.user_id t) (Transaction.items t)
                 (Transaction.amount t) "stripe" "paid" (Some sid) None None
                 "confirmed" [] created_at
  | Verify oid pid _ _ uuid4 _ created_at =>
      Order.Make uuid4 (Transaction.user_id t) (Transaction.items t)
                 (Transaction.amount t) "razorpay" "paid" None (Some oid)
                 (Some pid) "confirmed" [] created_at
  end.

(** The ledger update a trigger writes. *)
Definition mark_paid (tr : trigger) : Transaction.t -> Transaction.t :=
  match tr with
  | Poll _ _ _ updated_at _ => set_paid_at updated_at
  | Verify _ pid _ _ _ updated_at _ => set_paid_razorpay pid updated_at
  end.

(** The three writes of the pending-to-paid transition, in the order the
    handlers issue them. *)
Definition ledger_written (tr : trigger) (w : World) : World :=
  with_payment_transactions (Mongo.update_one (target tr) (mark_paid tr)) w.
Definition order_inserted (tr : trigger) (t : Transaction.t) (w : World)
  : World :=
  with_orders (Mongo.insert_one (order_for tr t)) (ledger_written tr w).
Definition settled (tr : trigger) (t : Transaction.t) (w : World) : World :=
  with_carts (Mongo.update_one (cart_of (Transaction.user_id t))
                               (set_items (fun _ => [])))
             (order_inserted tr t w).

(** What is left of a trigger once its guard has passed: the three writes. *)
Definition transition (tr : trigger) (t : Transaction.t) : prog unit :=
  await payment_transactions_update_one (target tr) (mark_paid tr) ;;
  await orders_insert_one (order_for tr t) ;;
  await carts_update_one (cart_of (Transaction.user_id t))
                         (set_items (fun _ => [])) ;;
  Return tt.

(** Commands a trigger issues up to and including its read of the ledger,
    and the writes that follow it. *)
Definition reads (tr : trigger) : nat :=
  match tr with
  | Poll _ _ _ _ _ => 2
  | Verify _ _ _ _ _ _ _ => 1
  end.
Definition writes : nat := 3.

(** Two requests one after the other, and two requests whose reads both
    come before the first write. *)
Definition one_after_the_other (a b : trigger) : list bool :=
  repeat false (reads a + writes) ++ repeat true (reads b + writes).
Definition reads_before_writes (a b : trigger) : list bool :=
  repeat false (reads a) ++ repeat true (reads b) ++
  repeat false writes ++ repeat true writes.

(** *** The duplicate-order guard, as the specification states it

    Whatever the order in which the commands of two triggers run, at most
    one order is added. *)
Definition guard_excludes_duplicates (g : Gateway) (env : Environ)
           (a b : trigger) (w : World) : Prop :=
  forall schedule,
    let '(_, _, w') := interleave g schedule (fire env a) (fire env b) w in
    (List.length (orders w') <= List.length (orders w) + 1)%nat.

(** *** Cart invariant *)

(** Every stored line of every cart has a quantity of at least one. *)
Definition quantities_positive (cs : list Cart.t) : Prop :=
  forall c i, In c cs -> In i (Cart.items c) -> (1 <= CartItem.quantity i)%Z.

(** The same invariant, cart by cart. *)
Definition lines_positive (c : Cart.t) : Prop :=
  Forall (fun i => (1 <= CartItem.quantity i)%Z) (Cart.items c).

(** *** Review aggregate, in the specification's words *)

(** All reviews of a product, in store order. *)
Definition reviews_of (product_id : string) (w : World) : list Review.t :=
  Mongo.find (review_of product_id) (reviews w).

(** The arithmetic mean of integer ratings, as a float. *)
Definition mean (ratings : list Z) : option float :=
  PyFloat.int_true_div (fold_left Z.add ratings 0%Z)
                       (Z.of_nat (List.length ratings)).

(** The mean rounded to one decimal place. *)
Definition displayed_rating (ratings : list Z) : option float :=
  option_map (fun m => PyFloat.round m 1) (mean ratings).

(** The aggregate as the specification states it: after a review is
    created, the product shows the rounded mean of all its reviews and
    their number. *)
Definition aggregate_covers_all_reviews (g : Gateway) (w : World)
           (review : ReviewCreate.t) (user : User.t) (uuid4 now : string)
  : Prop :=
  let pid := ReviewCreate.product_id review in
  let w' := snd (run g (create_review review user uuid4 now) w) in
  forall p,
    Mongo.find_one (product_of pid) (products w') = Some p ->
    Some (Product.rating p)
    = displayed_rating (map Review.rating (reviews_of pid w')) /\
    Product.reviews_count p = Z.of_nat (List.length (reviews_of pid w')).

(** *** Sample data: two products of the seeded catalog, one customer *)

Module Sample.

Local Open Scope string_scope.

Definition white_rose_musk : Product.t :=
  Product.Make "prod_white_rose_musk" "White Rose Musk" 520 4.8 124.
Definition victoria_royale : Product.t :=
  Product.Make "prod_victoria_royale" "Victoria Royale" 300 4.8 167.

Definition priya : User.t := User.Make "user-1" "Priya".

Definition env : Environ :=
  MkEnviron (Some "sk_test") (Some "rzp_test_key") (Some "rzp_test_secret").

(** A gateway that accepts everything and reports every session paid. *)
Definition gateway : Gateway :=
  MkGateway
    (fun _ _ => Some (Stripe.Session "cs_test_1" "https://pay.example/cs_test_1"))
    (fun _ => Some (Stripe.Status "complete" "paid" 723 "usd"))
    (fun _ _ => Some (Stripe.Webhook "cs_test_1" "paid"))
    (fun data => Some (Razorpay.Created "order_1" (Razorpay.amount data)
                                        (Razorpay.currency data))).

(** The store after registration and seeding, with two bottles of
    Victoria Royale in the customer's cart. *)
Definition shop : World :=
  MkWorld [white_rose_musk; victoria_royale]
          [Cart.Make "user-1" [CartItem.Make "prod_victoria_royale" 2]]
          [] [] [] [] [].

(** The same cart as a checkout request, with one product the catalog
    does not have. *)
Definition request : CheckoutRequest.t :=
  CheckoutRequest.Make
    [CartItem.Make "prod_victoria_royale" 2; CartItem.Make "prod_gone" 5]
    "https://shop.example".

Definition at_ten : string := "2025-01-01T10:00:00+00:00".

(** The priced lines of that request. *)
Definition lines : list Line.t :=
  [Line.Make "prod_victoria_royale" "Victoria Royale" 300 2].

Definition pending_stripe : Transaction.t :=
  Transaction.Make "txn-1" (Some "cs_test_1") None "user-1" 600 "INR"
    "stripe" "pending"
    lines at_ten None None.

Definition pending_razorpay : Transaction.t :=
  Transaction.Make "txn-2" None (Some "order_1") "user-1" 600 "INR"
    "razorpay" "pending"
    lines at_ten None None.

(** The store once a Stripe checkout is pending. *)
Definition awaiting_stripe : World :=
  with_payment_transactions (fun _ => [pending_stripe]) shop.

(** The store once a Razorpay checkout is pending. *)
Definition awaiting_razorpay : World :=
  with_payment_transactions (fun _ => [pending_razorpay]) shop.

(** The store right after registration: the customer's cart is empty. *)
Definition registered : World :=
  MkWorld [white_rose_musk; victoria_royale] [Cart.Make "user-1" []]
          [] [] [] [] [].

Definition at_noon : string := "2025-01-01T12:00:00+00:00".

(** Two polls of the pending Stripe session. *)
Definition poll_a : trigger := Poll "cs_test_1" priya "order-a" at_noon at_noon.
Definition poll_b : trigger := Poll "cs_test_1" priya "order-b" at_noon at_noon.

(** A five-star review of Victoria Royale, and the shop with a thousand
    of them. *)
Definition five_stars : Review.t :=
  Review.Make "rev-0" "prod_victoria_royale" "user-2" "Asha" 5
              "Lovely" "A bright floral." "2024-12-24T09:00:00+00:00".
Definition much_reviewed : World :=
  with_reviews (fun _ => repeat five_stars 1000) shop.

(** The shop once Victoria Royale has two five-star reviews. *)
Definition twice_reviewed : World :=
  with_reviews
    (fun _ =>
       [five_stars;
        Review.Make "rev-1" "prod_victoria_royale" "user-3" "Ravi" 5
                    "Elegant" "Lasts all day." "2024-12-25T09:00:00+00:00"])
    shop.

End Sample.

(* ================================================================== *)
(** ** Further notions, for the properties read off the code *)
(* ================================================================== *)

(** *** Cart lookups *)

(** The quantity a customer's cart stores for a product: the first cart
    document of the customer, its first line for the product. *)
Definition stored_quantity (uid pid : string) (w : World) : option Z :=
  match Mongo.find_one (cart_of uid) (carts w) with
  | Some c =>
      option_map CartItem.quantity (List.find (line_of pid) (Cart.items c))
  | None => None
  end.

(** The same read from one cart document. *)
Definition quantity_in (pid : string) (c : Cart.t) : option Z :=
  option_map CartItem.quantity (Mongo.find_one (line_of pid) (Cart.items c)).

(** No cart holds two lines for one product. *)
Definition lines_unique (cs : list Cart.t) : Prop :=
  Forall (fun c => NoDup (map CartItem.product_id (Cart.items c))) cs.

(** The carts of everybody else. *)
Definition carts_of_others (uid : string) (w : World) : list Cart.t :=
  filter (fun c => negb (cart_of uid c)) (carts w).

(** Two worlds that differ at most in the carts of one customer. *)
Definition same_outside_cart (uid : string) (w w' : World) : Prop :=
  carts_of_others uid w' = carts_of_others uid w /\
  products w' = products w /\
  payment_transactions w' = payment_transactions w /\
  orders w' = orders w /\
  reviews w' = reviews w /\
  stripe_sessions w' = stripe_sessions w /\
  razorpay_orders w' = razorpay_orders w.

(** *** Ledger rows over time *)

(** A ledger row seen again later: the same row (ids, owner, amount,
    currency, method, items, creation time), and still paid if it was. *)
Definition snapshot_kept (t t' : Transaction.t) : Prop :=
  Transaction.id t' = Transaction.id t /\
  Transaction.session_id t' = Transaction.session_id t /\
  Transaction.razorpay_order_id t' = Transaction.razorpay_order_id t /\
  Transaction.user_id t' = Transaction.user_id t /\
  Transaction.amount t' = Transaction.amount t /\
  Transaction.currency t' = Transaction.currency t /\
  Transaction.payment_method t' = Transaction.payment_method t /\
  Transaction.items t' = Transaction.items t /\
  Transaction.created_at t' = Transaction.created_at t /\
  (not_paid t = false -> not_paid t' = false).

(** The ledger seen again later: the same rows in the same order. *)
Definition ledger_kept (w w' : World) : Prop :=
  Forall2 snapshot_kept (payment_transactions w) (payment_transactions w').

(** *** Order inserts a handler may still issue *)

Definition is_order_insert {R} (c : cmd R) : bool :=
  match c with
  | orders_insert_one _ => true
  | _ => false
  end.

(** [inserts_at_most n p]: whatever the store and the gateways answer, the
    rest [p] of a handler issues at most [n] inserts into the order store. *)
Fixpoint inserts_at_most {A} (n : nat) (p : prog A) : Prop :=
  match p with
  | Await c k =>
      if is_order_insert c
      then match n with
           | S n' => forall r, inserts_at_most n' (k r)
           | O => False
           end
      else forall r, inserts_at_most n (k r)
  | _ => True
  end.

(* ================================================================== *)
(** ** Further routes of the server *)
(* ================================================================== *)

(** [get_cart] is a handler over the commands above.  The routes on the
    collections outside the payment flow (users, wishlists, newsletter)
    and [get_order] are functions of the database, each served with no
    other request in between; values drawn inside a route (uuid, clock,
    password hash, token) are arguments. *)

(** *** [GET /cart] *)

(** The loop of [get_cart], [for item in cart.get("items", []): ...],
    entered with [total = 0] and [items_with_details = []].  An entry of
    [items_with_details] copies keys of the product document ([id],
    [name], [price], [image], [size]) and takes the quantity of the cart
    line: it is kept as that pair. *)
Fixpoint cart_details (items : list CartItem.t) (total : float)
         (items_with_details : list (Product.t * Z))
  : prog (list (Product.t * Z) * float) :=
  match items with
  | [] => Return (items_with_details, total)
  | item :: rest =>
      product <- await products_find_one
                   (product_of (CartItem.product_id item)) ;;
      match product with
      | Some product =>
          match PyFloat.of_int (CartItem.quantity item) with
          | Some quantity =>
              cart_details rest
                (total + Product.price product * quantity)%float
                (items_with_details
                   ++ [(product, CartItem.quantity item)])%list
          | None => Raise OverflowError
          end
      | None => cart_details rest total items_with_details
      end
  end.

(** [GET /cart]: the items with their details and [round(total, 2)]; the
    integer [0] of an empty answer is the float zero here. *)
Definition get_cart (user : User.t) : prog (list (Product.t * Z) * float) :=
  cart <- await carts_find_one (cart_of (User.id user)) ;;
  match cart with
  | None => Return ([], 0%float)
  | Some cart =>
      priced <~ cart_details (Cart.items cart) 0%float [] ;;
      let '(items_with_details, total) := priced in
      Return (items_with_details, PyFloat.round total 2)
  end.

(** The entry of [items_details] a checkout writes for the same product
    and quantity. *)
Definition line_shown (entry : Product.t * Z) : Line.t :=
  Line.Make (Product.id (fst entry)) (Product.name (fst entry))
            (Product.price (fst entry)) (snd entry).

(** *** Collections outside the payment flow *)

(** A document of [db.wishlists]. *)
Module Wishlist.
Record t := Make { user_id : string; product_ids : list string }.
End Wishlist.

(** A document of [db.newsletter]. *)
Module Subscriber.
Record t := Make { id : string; email : string; subscribed_at : string }.
End Subscriber.

(** A document of [db.users]; [password] holds the bcrypt hash. *)
Module Account.
Record t := Make
  { id : string; email : string; password : string; name : string;
    phone : option string; created_at : string }.
End Account.

(** The request models [UserCreate] and [UserLogin]. *)
Module UserCreate.
Record t := Make
  { email : string; password : string; name : string;
    phone : option string }.
End UserCreate.

Module UserLogin.
Record t := Make { email : string; password : string }.
End UserLogin.

(** The answer of [register] and [login]: the token and the public keys
    of the user document. *)
Module Session.
Record t := Make
  { token : string; id : string; email : string; name : string;
    phone : option string }.
End Session.

(** The database: the collections of the payment flow and the three
    others these routes use. *)
Record Db := MkDb
  { world : World;
    users : list Account.t;
    wishlists : list Wishlist.t;
    newsletter : list Subscriber.t }.

Definition with_world (f : World -> World) (db : Db) : Db :=
  MkDb (f (world db)) (users db) (wishlists db) (newsletter db).
Definition with_users (f : list Account.t -> list Account.t) (db : Db) : Db :=
  MkDb (world db) (f (users db)) (wishlists db) (newsletter db).
Definition with_wishlists (f : list Wishlist.t -> list Wishlist.t) (db : Db)
  : Db :=
  MkDb (world db) (users db) (f (wishlists db)) (newsletter db).
Definition with_newsletter (f : list Subscriber.t -> list Subscriber.t)
           (db : Db) : Db :=
  MkDb (world db) (users db) (wishlists db) (f (newsletter db)).

(** A handler of the payment flow, run on the database. *)
Definition on_world (g : Gateway) {A} (p : prog A) (db : Db)
  : result A * Db :=
  (fst (run g p (world db)), with_world (fun _ => snd (run g p (world db))) db).

(** [$addToSet] *)
Definition add_to_set (x : string) (arr : list string) : list string :=
  if existsb (String.eqb x) arr then arr else (arr ++ [x])%list.

(** [{"$in": values}] *)
Definition in_ (values : list string) (x : string) : bool :=
  existsb (String.eqb x) values.

(** [update_one(query, update, upsert=True)]: without a matching document
    the one built from the query and the update, [fresh], is inserted. *)
Definition update_one_upsert {Doc} (query : Doc -> bool) (update : Doc -> Doc)
           (fresh : Doc) (coll : list Doc) : list Doc :=
  match Mongo.find_one query coll with
  | Some _ => Mongo.update_one query update coll
  | None => Mongo.insert_one fresh coll
  end.

Definition wishlist_of (uid : string) (d : Wishlist.t) : bool :=
  String.eqb (Wishlist.user_id d) uid.
Definition set_product_ids (f : list string -> list string) (d : Wishlist.t)
  : Wishlist.t :=
  Wishlist.Make (Wishlist.user_id d) (f (Wishlist.product_ids d)).
Definition on_wishlist (ids : list string) (p : Product.t) : bool :=
  in_ ids (Product.id p).
Definition by_email (email : string) (u : Account.t) : bool :=
  String.eqb (Account.email u) email.
Definition subscribed (email : string) (s : Subscriber.t) : bool :=
  String.eqb (Subscriber.email s) email.
(** [{"id": order_id, "user_id": user["id"]}] *)
Definition order_of (order_id uid : string) (o : Order.t) : bool :=
  String.eqb (Order.id o) order_id && String.eqb (Order.user_id o) uid.

(** *** Wishlist routes *)

(** [GET /wishlist] *)
Definition get_wishlist (user : User.t) (db : Db)
  : result (list Product.t) * Db :=
  match Mongo.find_one (wishlist_of (User.id user)) (wishlists db) with
  | None => (Ok [], db)
  | Some wishlist =>
      (Ok (Mongo.to_list 100
             (Mongo.find (on_wishlist (Wishlist.product_ids wishlist))
                         (products (world db)))),
       db)
  end.

(** [POST /wishlist/add/{product_id}] *)
Definition add_to_wishlist (product_id : string) (user : User.t) (db : Db)
  : result string * Db :=
  (Ok "Added to wishlist"%string,
   with_wishlists
     (update_one_upsert (wishlist_of (User.id user))
                        (set_product_ids (add_to_set product_id))
                        (Wishlist.Make (User.id user) [product_id]))
     db).

(** [DELETE /wishlist/remove/{product_id}] *)
Definition remove_from_wishlist (product_id : string) (user : User.t)
           (db : Db) : result string * Db :=
  (Ok "Removed from wishlist"%string,
   with_wishlists
     (Mongo.update_one (wishlist_of (User.id user))
                       (set_product_ids (Mongo.pull (String.eqb product_id))))
     db).

(** *** Order routes *)

(** [GET /orders/{order_id}] *)
Definition get_order (order_id : string) (user : User.t) (db : Db)
  : result Order.t * Db :=
  match Mongo.find_one (order_of order_id (User.id user))
                       (orders (world db)) with
  | None => (Err (HTTPException 404 "Order not found"), db)
  | Some order => (Ok order, db)
  end.

(** *** Newsletter *)

(** [POST /newsletter/subscribe] *)
Definition subscribe_newsletter (email uuid4 now : string) (db : Db)
  : result string * Db :=
  match Mongo.find_one (subscribed email) (newsletter db) with
  | Some _ => (Ok "Already subscribed"%string, db)
  | None =>
      (Ok "Successfully subscribed to newsletter"%string,
       with_newsletter
         (Mongo.insert_one (Subscriber.Make uuid4 email now)) db)
  end.

(** *** Registration and login *)

(** [POST /auth/register]; [uuid4], [hashed], [now] and [token] are the
    values [uuid.uuid4()], [hash_password(user.password)],
    [datetime.now(...)] and [create_token(...)] take in this call. *)
Definition register (user : UserCreate.t) (uuid4 hashed now token : string)
           (db : Db) : result Session.t * Db :=
  match Mongo.find_one (by_email (UserCreate.email user)) (users db) with
  | Some _ => (Err (HTTPException 400 "Email already registered"), db)
  | None =>
      let user_doc :=
        Account.Make uuid4 (UserCreate.email user) hashed
                     (UserCreate.name user) (UserCreate.phone user) now in
      let db1 := with_users (Mongo.insert_one user_doc) db in
      let db2 :=
        with_world
          (with_carts (Mongo.insert_one (Cart.Make (Account.id user_doc) [])))
          db1 in
      let db3 :=
        with_wishlists
          (Mongo.insert_one (Wishlist.Make (Account.id user_doc) [])) db2 in
      (Ok (Session.Make token (Account.id user_doc) (Account.email user_doc)
                        (Account.name user_doc) (Account.phone user_doc)),
       db3)
  end.

(** [POST /auth/login]; [checkpw] is [bcrypt.checkpw] on the encoded
    strings, [None] where it raises (a stored value that is no bcrypt
    hash); [token] is the value of [create_token(...)] in this call. *)
Definition login (checkpw : string -> string -> option bool)
           (credentials : UserLogin.t) (token : string) (db : Db)
  : result Session.t * Db :=
  match Mongo.find_one (by_email (UserLogin.email credentials)) (users db) with
  | None => (Err (HTTPException 401 "Invalid email or password"), db)
  | Some user =>
      match checkpw (UserLogin.password credentials) (Account.password user)
      with
      | None => (Err ValueError, db)
      | Some false => (Err (HTTPException 401 "Invalid email or password"), db)
      | Some true =>
          (Ok (Session.Make token (Account.id user) (Account.email user)
                            (Account.name user) (Account.phone user)),
           db)
      end
  end.

(** *** Notions the properties of these routes use *)

(** The product ids on a customer's wishlist: those of the first wishlist
    document of the customer. *)
Definition wished (uid : string) (db : Db) : list string :=
  match Mongo.find_one (wishlist_of uid) (wishlists db) with
  | Some d => Wishlist.product_ids d
  | None => []
  end.

(** No wishlist lists a product twice. *)
Definition wishlists_unique (db : Db) : Prop :=
  Forall (fun d => NoDup (Wishlist.product_ids d)) (wishlists db).

(** The wishlists of everybody else. *)
Definition wishlists_of_others (uid : string) (db : Db) : list Wishlist.t :=
  filter (fun d => negb (wishlist_of uid d)) (wishlists db).

(** No address is subscribed twice; no address is registered twice. *)
Definition subscribers_unique (db : Db) : Prop :=
  NoDup (map Subscriber.email (newsletter db)).
Definition emails_unique (db : Db) : Prop :=
  NoDup (map Account.email (users db)).

(** The characters of a lower-case hexadecimal string. *)
Definition is_hex_digit (c : ascii) : bool :=
  let n := N_of_ascii c in
  ((48 <=? n) && (n <=? 57) || (97 <=? n) && (n <=? 102))%N.
Definition is_hexdigest (s : string) : bool :=
  (String.length s =? 64)%nat && forallb is_hex_digit (list_ascii_of_string s).


(** The entries [get_cart] shows for the lines of a cart: one for each
    line whose product the catalog has. *)
Definition cart_entry (catalog : list Product.t) (item : CartItem.t)
  : list (Product.t * Z) :=
  match Mongo.find_one (product_of (CartItem.product_id item)) catalog with
  | Some p => [(p, CartItem.quantity item)]
  | None => []
  end.
Definition cart_entries (catalog : list Product.t) (items : list CartItem.t)
  : list (Product.t * Z) :=
  flat_map (cart_entry catalog) items.

(** A product seen again after a review: the same product, and the very
    same document unless it is the reviewed one. *)
Definition product_kept (pid : string) (p p' : Product.t) : Prop :=
  Product.id p' = Product.id p /\
  Product.name p' = Product.name p /\
  Product.price p' = Product.price p /\
  (product_of pid p = false -> p' = p).

(** A visitor signing up, with a stand-in for bcrypt that accepts a
    password when the stored value is the password behind a prefix. *)
Definition asha_signs_up : UserCreate.t :=
  UserCreate.Make "asha@example.com" "s3cret" "Asha" None.
Definition prefix_checkpw (password hashed : string) : option bool :=
  Some (String.eqb hashed ("$2b$" ++ password)).
Definition empty_site : Db := MkDb Sample.shop [] [] [].

(* ================================================================== *)
(** ** Facts about floats, collections and handler runs *)
(* ================================================================== *)

Section FloatFacts.


(** NaN is neither positive nor [<= 0]: it slips through the test. *)
Lemma nan_passes_the_test :
  PyFloat.le0 nan = false /\ PyFloat.pos nan = false.
Proof. split; reflexivity. Qed.

End FloatFacts.

Section CollectionFacts.
Variable Doc : Type.
Implicit Types (q : Doc -> bool) (u : Doc -> Doc) (c : list Doc).

Lemma find_one_some_matches q c d :
  Mongo.find_one q c = Some d -> q d = true.
Proof.
  induction c as [|x c IH]; simpl; [discriminate|].
  destruct (q x) eqn:E; [intros [= <-]; exact E | exact IH].
Qed.

Lemma update_one_no_match q u c :
  Mongo.find_one q c = None -> Mongo.update_one q u c = c.
Proof.
  induction c as [|x c IH]; simpl; [reflexivity|].
  destruct (q x); [discriminate|]. intros H. now rewrite IH.
Qed.

(** After [update_one], the same query finds the updated document,
    provided the update leaves the queried key alone. *)
Lemma find_one_update_one q u c d :
  Mongo.find_one q c = Some d -> q (u d) = true ->
  Mongo.find_one q (Mongo.update_one q u c) = Some (u d).
Proof.
  induction c as [|x c IH]; simpl; [discriminate|].
  destruct (q x) eqn:E.
  - intros [= <-] H. simpl. now rewrite H.
  - intros H1 H2. simpl. rewrite E. now apply IH.
Qed.

(** A query that found nothing still finds nothing after an update that
    does not touch its key. *)
Lemma find_one_none_update_one q q' u c :
  (forall d, q' (u d) = q' d) ->
  Mongo.find_one q' c = None ->
  Mongo.find_one q' (Mongo.update_one q u c) = None.
Proof.
  intros Hkey. induction c as [|x c IH]; simpl; [reflexivity|].
  destruct (q' x) eqn:E; [discriminate|]. intros H.
  destruct (q x); simpl.
  - now rewrite Hkey, E.
  - rewrite E. now apply IH.
Qed.

Lemma update_one_length q u c :
  List.length (Mongo.update_one q u c) = List.length c.
Proof.
  induction c as [|x c IH]; simpl; [reflexivity|].
  destruct (q x); simpl; [reflexivity | now rewrite IH].
Qed.

Lemma find_one_insert_one q c d x :
  Mongo.find_one q c = Some d ->
  Mongo.find_one q (Mongo.insert_one x c) = Some d.
Proof.
  unfold Mongo.insert_one.
  induction c as [|y c IH]; simpl; [discriminate|].
  destruct (q y); [trivial | exact IH].
Qed.

End CollectionFacts.

Section RunFacts.
Variable g : Gateway.

Lemma run_bind {A B} (p : prog A) (f : A -> prog B) (w : World) :
  run g (bind p f) w =
  match run g p w with
  | (Ok a, w') => run g (f a) w'
  | (Err e, w') => (Err e, w')
  end.
Proof.
  revert w. induction p as [a | e | R c k IH]; intros w; simpl;
    try reflexivity.
  destruct (exec g c w) as [[r|e] w']; [apply IH|reflexivity].
Qed.

(** A finished handler takes no further step. *)
Lemma steps_finished {A} (p : prog A) (w : World) (n : nat) :
  finished p = true -> steps g n (p, w) = (p, w).
Proof.
  intros H. induction n as [|n IH]; simpl; [reflexivity|].
  destruct p; try discriminate; exact IH.
Qed.

Lemma steps_add {A} (n m : nat) (pw : prog A * World) :
  steps g (n + m) pw = steps g m (steps g n pw).
Proof.
  revert pw. induction n as [|n IH]; intros pw; simpl; [reflexivity|].
  apply IH.
Qed.

End RunFacts.

(* ================================================================== *)
(** ** Checkout initiation *)
(* ================================================================== *)

Section Checkout.
Variable g : Gateway.
Variable env : Environ.

(** The pricing loop reads the catalog only, and computes the
    left-to-right sum of the present lines. *)
Lemma price_items_run (items : list CartItem.t) (w : World) :
  forall total details,
    run g (price_items items total details) w =
    match amounts (priced_lines (products w) items) with
    | Some xs =>
        (Ok (fold_left PrimFloat.add xs total,
             details ++ priced_lines (products w) items), w)
    | None => (Err OverflowError, w)
    end.
Proof.
  induction items as [|item rest IH]; intros total details; simpl.
  - now rewrite app_nil_r.
  - unfold catalog_line.
    destruct (Mongo.find_one (product_of (CartItem.product_id item))
                             (products w)) as [p|]; simpl.
    + unfold line_amount; simpl.
      destruct (PyFloat.of_int (CartItem.quantity item)) as [q|]; simpl;
        [|reflexivity].
      rewrite IH.
      destruct (amounts (priced_lines (products w) rest)); simpl;
        [|reflexivity].
      now rewrite <- app_assoc.
    + apply IH.
Qed.

Lemma price_items_total (items : list CartItem.t) (w : World) (T : float) :
  lines_total (priced_lines (products w) items) = Some T ->
  run g (price_items items 0%float []) w =
  (Ok (T, priced_lines (products w) items), w).
Proof.
  unfold lines_total. rewrite price_items_run.
  destruct (amounts (priced_lines (products w) items)); simpl;
    [|discriminate].
  now intros [= <-].
Qed.

(** What [POST /checkout/stripe] does once the total is known. *)
Lemma create_stripe_checkout_run request user uuid4 now w T :
  let lines := priced_lines (products w) (CheckoutRequest.items request) in
  lines_total lines = Some T ->
  run g (create_stripe_checkout request user uuid4 now) w =
  if PyFloat.le0 T then (Err (HTTPException 400 "Cart is empty"), w)
  else
    match create_checkout_session g (stripe_hook request)
                                  (stripe_request request user T lines) with
    | Some session =>
        let sent :=
          with_stripe_sessions
            (fun l => l ++ [stripe_request request user T lines]) w in
        if Bson.lines lines
        then (Ok session,
              with_payment_transactions
                (Mongo.insert_one
                   (Transaction.Make uuid4 (Some (Stripe.session_id session))
                      None (User.id user) T "INR" "stripe" "pending" lines
                      now None None))
                sent)
        else (Err OverflowError, sent)
    | None => (Err GatewayError, w)
    end.
Proof.
  intros lines HT. unfold create_stripe_checkout.
  rewrite run_bind, (price_items_total _ _ HT).
  destruct (PyFloat.le0 T); [reflexivity|].
  simpl. fold lines. unfold stripe_hook, stripe_request.
  destruct (create_checkout_session g _ _); [|reflexivity].
  simpl. unfold Bson.transaction. simpl.
  destruct (Bson.lines lines); reflexivity.
Qed.

(** What [POST /checkout/razorpay] does once the total is known. *)
Lemma create_razorpay_order_run request user uuid4 now w T :
  let lines := priced_lines (products w) (CheckoutRequest.items request) in
  razorpay_configured env ->
  lines_total lines = Some T ->
  run g (create_razorpay_order env request user uuid4 now) w =
  if PyFloat.le0 T then (Err (HTTPException 400 "Cart is empty"), w)
  else
    match PyFloat.to_int (T * 100)%float with
    | None =>
        (Err (if PrimFloat.is_nan (T * 100)%float
              then ValueError else OverflowError), w)
    | Some paise =>
        match order_create g (razorpay_request paise) with
        | Some rp_order =>
            let sent :=
              with_razorpay_orders
                (fun l => l ++ [razorpay_request paise]) w in
            if Bson.lines lines
            then (Ok (Handle (Razorpay.id rp_order)
                             (Razorpay.order_amount rp_order)
                             (Razorpay.order_currency rp_order)
                             (RAZORPAY_KEY_ID env)),
                  with_payment_transactions
                    (Mongo.insert_one
                       (Transaction.Make uuid4 None
                          (Some (Razorpay.id rp_order)) (User.id user) T
                          "INR" "razorpay" "pending" lines now None None))
                    sent)
            else (Err OverflowError, sent)
        | None => (Err GatewayError, w)
        end
    end.
Proof.
  intros lines [Hk Hs] HT. unfold create_razorpay_order.
  rewrite Hk, Hs. simpl negb. simpl orb. cbv iota.
  rewrite run_bind, (price_items_total _ _ HT).
  destruct (PyFloat.le0 T); [reflexivity|].
  destruct (PyFloat.to_int (T * 100)%float) as [paise|]; [|reflexivity].
  simpl. fold lines. unfold razorpay_request.
  destruct (order_create g _); [|reflexivity].
  simpl. unfold Bson.transaction. simpl.
  destruct (Bson.lines lines); reflexivity.
Qed.

(** A request none of whose items is in the catalog, the empty request
    among them, is priced at [0.0], which fails the [total <= 0] test. *)
Lemma nothing_priced_totals_zero (items : list CartItem.t) (w : World) :
  priced_lines (products w) items = [] ->
  lines_total (priced_lines (products w) items) = Some 0%float /\
  PyFloat.le0 0%float = true.
Proof. intros ->. split; reflexivity. Qed.

End Checkout.

Section CheckoutClaims.

Local Open Scope string_scope.
Local Open Scope list_scope.


(** C5. A checkout request (Stripe or Razorpay, the latter configured)
    whose priced total is [<= 0] is answered with the 400 "Cart is empty"
    error, and the world is left as it was: no gateway session or order, no
    ledger row. *)
Theorem empty_checkout_is_rejected_without_effect
        (g : Gateway) (env : Environ) (w : World)
        (request : CheckoutRequest.t) (user : User.t) (uuid4 now : string)
        (T : float) :
  lines_total (priced_lines (products w) (CheckoutRequest.items request))
  = Some T ->
  PyFloat.le0 T = true ->
  run g (create_stripe_checkout request user uuid4 now) w
  = (Err (HTTPException 400 "Cart is empty"), w) /\
  (razorpay_configured env ->
   run g (create_razorpay_order env request user uuid4 now) w
   = (Err (HTTPException 400 "Cart is empty"), w)).
Proof.
  intros HT Hle. split.
  - now rewrite (create_stripe_checkout_run g request user uuid4 now w HT),
      Hle.
  - intros Hconf.
    now rewrite
      (create_razorpay_order_run g request user uuid4 now w Hconf HT), Hle.
Qed.


End CheckoutClaims.

Section CheckoutWitnesses.

Local Open Scope string_scope.
Local Open Scope list_scope.


(** C5 at a request naming only a product the catalog does not have. *)
Lemma empty_checkout_is_rejected_without_effect_witness :
  let request :=
    CheckoutRequest.Make [CartItem.Make "prod_gone" 5] "https://shop.example"
  in
  run Sample.gateway
      (create_stripe_checkout request Sample.priya "txn-1" Sample.at_ten) Sample.shop
  = (Err (HTTPException 400 "Cart is empty"), Sample.shop) /\
  (razorpay_configured Sample.env ->
   run Sample.gateway
       (create_razorpay_order Sample.env request Sample.priya "txn-1" Sample.at_ten)
       Sample.shop
   = (Err (HTTPException 400 "Cart is empty"), Sample.shop)).
Proof.
  intros request.
  refine (@empty_checkout_is_rejected_without_effect
            Sample.gateway Sample.env Sample.shop request Sample.priya
            "txn-1" Sample.at_ten 0%float _ _).
  - vm_compute. reflexivity.
  - vm_compute. reflexivity.
Defined.


End CheckoutWitnesses.

(** 600 INR are submitted as 7.23 USD. *)
Example six_hundred_rupees_in_dollars :
  PyFloat.round (600 / 83)%float 2 = 7.23%float.
Proof. vm_compute. reflexivity. Qed.

(* ================================================================== *)
(** ** Reconciliation *)
(* ================================================================== *)

Section Reconciliation.

Variable g : Gateway.
Variable env : Environ.

Local Open Scope string_scope.
Local Open Scope list_scope.

(** The updates of the ledger leave both gateway keys alone. *)
Lemma mark_paid_keeps_keys (a b : trigger) (d : Transaction.t) :
  target b (mark_paid a d) = target b d.
Proof. destruct a, b; reflexivity. Qed.

Lemma mark_paid_is_paid (a : trigger) (d : Transaction.t) :
  Transaction.payment_status (mark_paid a d) = "paid" /\
  not_paid (mark_paid a d) = false.
Proof. destruct a; split; reflexivity. Qed.

(** Triggers of one gateway with one reference resolve it alike. *)
Lemma same_target (a b : trigger) :
  same_gateway a b = true -> reference a = reference b ->
  target a = target b.
Proof. destruct a, b; simpl; congruence. Qed.

(** What a confirming trigger does when nothing runs in between: it
    settles the transaction its reference resolves to, if that one is not
    paid yet, and answers normally in every case. *)
Lemma fire_run (tr : trigger) (w : World) :
  confirms g env tr ->
  run g (fire env tr) w =
  (Ok tt,
   match Mongo.find_one (target tr) (payment_transactions w) with
   | Some t => if not_paid t then settled tr t w else w
   | None => w
   end).
Proof.
  destruct tr as [sid user uuid4 ua ca | oid pid sig user uuid4 ua ca];
    simpl.
  - intros (st & Hst & Hpaid). rewrite Hst, Hpaid. simpl.
    destruct (Mongo.find_one (by_session_id sid) (payment_transactions w))
      as [t|]; [|reflexivity].
    destruct (not_paid t); reflexivity.
  - intros (secret & Hsecret & ->).
    unfold verify_razorpay_payment. rewrite Hsecret, String.eqb_refl. simpl.
    destruct (Mongo.find_one (by_razorpay_order_id oid)
                             (payment_transactions w)) as [t|];
      [|reflexivity].
    destruct (not_paid t); reflexivity.
Qed.

(** Once settled, the reference resolves to a paid transaction. *)
Lemma settled_is_paid (tr : trigger) (t : Transaction.t) (w : World) :
  Mongo.find_one (target tr) (payment_transactions w) = Some t ->
  Mongo.find_one (target tr) (payment_transactions (settled tr t w))
  = Some (mark_paid tr t).
Proof.
  intros H. simpl. apply find_one_update_one; [exact H|].
  rewrite mark_paid_keeps_keys. exact (find_one_some_matches _ _ H).
Qed.

End Reconciliation.

Section Interleavings.

Variable g : Gateway.
Variable env : Environ.

Local Open Scope string_scope.
Local Open Scope list_scope.

(** A run of consecutive turns of one request is a run of its steps. *)
Lemma interleave_first {A B} (k : nat) (rest : list bool)
      (p : prog A) (q : prog B) (w : World) :
  interleave g (repeat false k ++ rest) p q w =
  let (p', w') := steps g k (p, w) in interleave g rest p' q w'.
Proof.
  revert p w. induction k as [|k IH]; intros p w; simpl; [reflexivity|].
  destruct (step g (p, w)) as [p1 w1]. apply IH.
Qed.

Lemma interleave_second {A B} (k : nat) (rest : list bool)
      (p : prog A) (q : prog B) (w : World) :
  interleave g (repeat true k ++ rest) p q w =
  let (q', w') := steps g k (q, w) in interleave g rest p q' w'.
Proof.
  revert q w. induction k as [|k IH]; intros q w; simpl; [reflexivity|].
  destruct (step g (q, w)) as [q1 w1]. apply IH.
Qed.

(** Runs a confirming trigger up to its status test, with the answers of
    the gateway and of the ledger taken from the hypotheses. *)
Ltac through_the_reads tr :=
  destruct tr as [sid user uuid4 ua ca | oid pid sig user uuid4 ua ca];
  simpl;
  [ intros (st & Hst & Hpaid) Hfind Hpending; unfold step; simpl;
    rewrite Hst; simpl; rewrite Hpaid; simpl; rewrite Hfind; simpl;
    now rewrite Hpending
  | intros (secret & Hsecret & ->) Hfind Hpending;
    unfold verify_razorpay_payment; rewrite Hsecret, String.eqb_refl;
    unfold step; simpl; rewrite Hfind; simpl; now rewrite Hpending ].

(** The guard: after its reads, a confirming trigger that saw an unpaid
    transaction has its three writes left, whatever happens to the ledger
    from then on ... *)
Lemma guard_passes (tr : trigger) (t : Transaction.t) (w : World) :
  confirms g env tr ->
  Mongo.find_one (target tr) (payment_transactions w) = Some t ->
  not_paid t = true ->
  steps g (reads tr) (fire env tr, w) = (transition tr t, w).
Proof. through_the_reads tr. Qed.

(** ... and one that saw a paid transaction is done. *)
Lemma guard_stops (tr : trigger) (t : Transaction.t) (w : World) :
  confirms g env tr ->
  Mongo.find_one (target tr) (payment_transactions w) = Some t ->
  not_paid t = false ->
  steps g (reads tr) (fire env tr, w) = (Return tt, w).
Proof. through_the_reads tr. Qed.

(** The writes are unconditional: they apply to the world as it is when
    they run. *)
Lemma transition_steps (tr : trigger) (t : Transaction.t) (w : World) :
  steps g writes (transition tr t, w) = (Return tt, settled tr t w).
Proof. reflexivity. Qed.

End Interleavings.

Section ReconciliationClaims.

Local Open Scope string_scope.
Local Open Scope list_scope.

(** C1. Reconciliation is idempotent.  Let a reference resolve to a
    transaction that is not paid yet, and fire two confirming triggers for
    that reference one after the other (poll twice, verify twice, or one of
    each; in the mixed case no row of the other gateway carries the
    reference).  Then both answer normally, exactly one order, built from
    the transaction, is added, the transaction is paid after the first
    trigger, and the second trigger changes nothing. *)
Theorem reconciliation_is_idempotent
        (g : Gateway) (env : Environ) (w : World)
        (first second : trigger) (t : Transaction.t) :
  reference first = reference second ->
  confirms g env first ->
  confirms g env second ->
  Mongo.find_one (target first) (payment_transactions w) = Some t ->
  not_paid t = true ->
  (same_gateway first second = false ->
   Mongo.find_one (target second) (payment_transactions w) = None) ->
  exists w1,
    run g (fire env first) w = (Ok tt, w1) /\
    run g (fire env second) w1 = (Ok tt, w1) /\
    orders w1 = orders w ++ [order_for first t] /\
    exists t',
      Mongo.find_one (target first) (payment_transactions w1) = Some t' /\
      Transaction.payment_status t' = "paid".
Proof.
  intros Href Hc1 Hc2 Hfind Hpending Hother.
  exists (settled first t w).
  rewrite (fire_run g env first w Hc1), Hfind, Hpending.
  rewrite (fire_run g env second (settled first t w) Hc2).
  assert (Hpaid := settled_is_paid first w Hfind).
  repeat split.
  - destruct (same_gateway first second) eqn:Hsame.
    + rewrite <- (same_target first second Hsame Href), Hpaid.
      now rewrite (proj2 (mark_paid_is_paid first t)).
    + simpl.
      rewrite (@find_one_none_update_one _ (target first) (target second)
                 (mark_paid first) (payment_transactions w)
                 (mark_paid_keeps_keys first second) (Hother eq_refl)).
      reflexivity.
  - exists (mark_paid first t). split; [exact Hpaid|].
    apply mark_paid_is_paid.
Qed.

(** C6. The client-proof route recomputes the hex HMAC-SHA256 of
    "order_id|payment_id" under the shared secret and compares it with the
    supplied signature as strings: any other signature is answered with the
    400 "Invalid payment signature" error and the world is untouched, and
    the matching one is answered with success. *)
Theorem verify_rejects_any_other_signature
        (g : Gateway) (env : Environ) (w : World) (secret : string)
        (razorpay_order_id razorpay_payment_id razorpay_signature : string)
        (user : User.t) (uuid4 updated_at created_at : string) :
  RAZORPAY_KEY_SECRET env = Some secret ->
  let expected :=
    Sha256.hmac_hexdigest secret
      (razorpay_order_id ++ "|" ++ razorpay_payment_id)%string in
  let answer :=
    run g (verify_razorpay_payment env razorpay_order_id razorpay_payment_id
             razorpay_signature user uuid4 updated_at created_at) w in
  (razorpay_signature <> expected ->
   answer = (Err (HTTPException 400 "Invalid payment signature"), w)) /\
  (razorpay_signature = expected ->
   fst answer = Ok ("success", "Payment verified")).
Proof.
  intros Hsecret expected answer. subst answer.
  unfold verify_razorpay_payment. rewrite Hsecret.
  fold (generated_signature secret razorpay_order_id razorpay_payment_id).
  change (generated_signature secret razorpay_order_id razorpay_payment_id)
    with expected.
  split.
  - intros Hneq.
    destruct (String.eqb_spec expected razorpay_signature) as [E|_];
      [now elim Hneq | reflexivity].
  - intros ->. rewrite String.eqb_refl. simpl.
    destruct (Mongo.find_one _ _) as [t|]; [|reflexivity].
    destruct (not_paid t); reflexivity.
Qed.

(** One more command of the handler under scrutiny, unless the count of
    commands is used up; and a handler that has returned or raised. *)
Ltac tick n :=
  destruct n as [|n]; [now left|]; simpl; unfold step; simpl.
Ltac halted :=
  rewrite steps_finished by reflexivity; left; reflexivity.

(** C8. Within one trigger the cart is cleared only after the order has
    been inserted: after any number of commands of the trigger, either the
    carts are still as they were, or the order for the transaction is
    already in the order store. *)
Theorem cart_is_cleared_only_after_the_order_exists
        (g : Gateway) (env : Environ) (w : World) (tr : trigger) (n : nat) :
  let w_n := snd (steps g n (fire env tr, w)) in
  carts w_n = carts w \/
  exists t,
    Mongo.find_one (target tr) (payment_transactions w) = Some t /\
    orders w_n = orders w ++ [order_for tr t].
Proof.
  destruct tr as [sid user uuid4 ua ca | oid pid sig user uuid4 ua ca];
    simpl.
  - tick n.
    destruct (get_checkout_status_of g sid) as [st|]; simpl;
      [|halted].
    destruct (String.eqb (Stripe.payment_status st) "paid"); simpl;
      [|halted].
    tick n.
    destruct (Mongo.find_one (by_session_id sid) (payment_transactions w))
      as [t|] eqn:Hfind; simpl; [|halted].
    destruct (not_paid t); simpl; [|halted].
    tick n. tick n. tick n.
    rewrite steps_finished by reflexivity. right. now exists t.
  - unfold verify_razorpay_payment.
    destruct (RAZORPAY_KEY_SECRET env) as [secret|];
      [|simpl; halted].
    generalize (generated_signature secret oid pid). intros expected.
    destruct (String.eqb expected sig); simpl; [|halted].
    tick n.
    destruct (Mongo.find_one (by_razorpay_order_id oid)
                             (payment_transactions w))
      as [t|] eqn:Hfind; simpl; [|halted].
    destruct (not_paid t); simpl; [|halted].
    tick n. tick n. tick n.
    rewrite steps_finished by reflexivity. right. now exists t.
Qed.

End ReconciliationClaims.

Section GuardClaims.

Local Open Scope string_scope.
Local Open Scope list_scope.

(** C3, as the code has it.  The pending-to-paid guard is a read of the
    transaction ([find_one] by session reference, then a status test in the
    handler) followed by writes keyed on the session reference alone.  For
    two confirming triggers of one gateway and one reference resolving to an
    unpaid transaction: run one after the other, only the first passes the
    guard and one order is added; run so that both reads come before the
    first write, both pass it, the second ledger write lands on the already
    paid row, and two orders are added. *)
Theorem guard_is_a_read_followed_by_unconditional_writes
        (g : Gateway) (env : Environ) (w : World) (a b : trigger)
        (t : Transaction.t) :
  same_gateway a b = true ->
  reference a = reference b ->
  confirms g env a ->
  confirms g env b ->
  Mongo.find_one (target a) (payment_transactions w) = Some t ->
  not_paid t = true ->
  interleave g (one_after_the_other a b) (fire env a) (fire env b) w
  = (Return tt, Return tt, settled a t w) /\
  orders (settled a t w) = orders w ++ [order_for a t] /\
  interleave g (reads_before_writes a b) (fire env a) (fire env b) w
  = (Return tt, Return tt, settled b t (settled a t w)) /\
  orders (settled b t (settled a t w))
  = orders w ++ [order_for a t; order_for b t] /\
  payment_transactions (settled b t (settled a t w))
  = Mongo.update_one (target b) (mark_paid b)
      (Mongo.update_one (target a) (mark_paid a) (payment_transactions w)).
Proof.
  intros Hsame Href Ha Hb Hfind Hpending.
  assert (Htarget := same_target a b Hsame Href).
  split; [|split; [|split; [|split]]].
  - unfold one_after_the_other.
    rewrite interleave_first, steps_add, (guard_passes g env a w Ha Hfind Hpending).
    rewrite transition_steps.
    rewrite <- (app_nil_r (repeat true _)), interleave_second, steps_add.
    assert (Hpaid := settled_is_paid a w Hfind). rewrite Htarget in Hpaid.
    rewrite (guard_stops g env b (settled a t w) Hb Hpaid
               (proj2 (mark_paid_is_paid a t))).
    reflexivity.
  - reflexivity.
  - unfold reads_before_writes.
    rewrite interleave_first, (guard_passes g env a w Ha Hfind Hpending).
    rewrite Htarget in Hfind.
    rewrite interleave_second, (guard_passes g env b w Hb Hfind Hpending).
    rewrite interleave_first, transition_steps.
    rewrite <- (app_nil_r (repeat true _)), interleave_second.
    rewrite transition_steps. reflexivity.
  - simpl. unfold Mongo.insert_one. now rewrite <- app_assoc.
  - reflexivity.
Qed.

End GuardClaims.

Section ReconciliationWitnesses.

Local Open Scope string_scope.
Local Open Scope list_scope.

(** C1 at the sample shop: the pending Stripe session is polled twice. *)
Lemma reconciliation_is_idempotent_witness :
  exists w1,
    run Sample.gateway (fire Sample.env Sample.poll_a) Sample.awaiting_stripe
    = (Ok tt, w1) /\
    run Sample.gateway (fire Sample.env Sample.poll_b) w1 = (Ok tt, w1) /\
    orders w1
    = orders Sample.awaiting_stripe
      ++ [order_for Sample.poll_a Sample.pending_stripe] /\
    exists t',
      Mongo.find_one (target Sample.poll_a) (payment_transactions w1)
      = Some t' /\
      Transaction.payment_status t' = "paid".
Proof.
  refine (@reconciliation_is_idempotent
            Sample.gateway Sample.env Sample.awaiting_stripe
            Sample.poll_a Sample.poll_b Sample.pending_stripe _ _ _ _ _ _).
  - reflexivity.
  - simpl. eexists. split; reflexivity.
  - simpl. eexists. split; reflexivity.
  - reflexivity.
  - reflexivity.
  - simpl. discriminate.
Defined.

(** C6 at the sample shop: the signature of "order_1|pay_1" with its last
    character changed from 5 to 6. *)
Lemma verify_rejects_any_other_signature_witness :
  run Sample.gateway
      (verify_razorpay_payment Sample.env "order_1" "pay_1"
         "07a74f0d54ff0d49f7e8c6670ee30f6854f5b787d46475823b38bec4e41ed8c6"
         Sample.priya "order-a" Sample.at_noon Sample.at_noon)
      Sample.awaiting_razorpay
  = (Err (HTTPException 400 "Invalid payment signature"),
     Sample.awaiting_razorpay).
Proof.
  refine (proj1 (@verify_rejects_any_other_signature
                   Sample.gateway Sample.env Sample.awaiting_razorpay
                   "rzp_test_secret" "order_1" "pay_1" _ Sample.priya
                   "order-a" Sample.at_noon Sample.at_noon _) _).
  - reflexivity.
  - vm_compute. discriminate.
Defined.

(** C3 (amended) at the sample shop: the two polls, run in sequence and
    interleaved. *)
Lemma guard_is_a_read_followed_by_unconditional_writes_witness :
  let a := Sample.poll_a in
  let b := Sample.poll_b in
  let w := Sample.awaiting_stripe in
  let t := Sample.pending_stripe in
  interleave Sample.gateway (one_after_the_other a b)
             (fire Sample.env a) (fire Sample.env b) w
  = (Return tt, Return tt, settled a t w) /\
  orders (settled a t w) = orders w ++ [order_for a t] /\
  interleave Sample.gateway (reads_before_writes a b)
             (fire Sample.env a) (fire Sample.env b) w
  = (Return tt, Return tt, settled b t (settled a t w)) /\
  orders (settled b t (settled a t w))
  = orders w ++ [order_for a t; order_for b t] /\
  payment_transactions (settled b t (settled a t w))
  = Mongo.update_one (target b) (mark_paid b)
      (Mongo.update_one (target a) (mark_paid a) (payment_transactions w)).
Proof.
  intros a b w t.
  refine (@guard_is_a_read_followed_by_unconditional_writes
            Sample.gateway Sample.env w a b t _ _ _ _ _ _).
  - reflexivity.
  - reflexivity.
  - simpl. eexists. split; reflexivity.
  - simpl. eexists. split; reflexivity.
  - reflexivity.
  - reflexivity.
Defined.

End ReconciliationWitnesses.

Section GuardCounterexample.

Local Open Scope string_scope.
Local Open Scope list_scope.

(** C3, as stated, fails: two polls of one pending session whose reads both
    come before the first write both pass the guard, and two orders for the
    one session are inserted. *)
Lemma racing_polls_insert_two_orders :
  ~ guard_excludes_duplicates Sample.gateway Sample.env
      Sample.poll_a Sample.poll_b Sample.awaiting_stripe.
Proof.
  intros H.
  specialize (H (reads_before_writes Sample.poll_a Sample.poll_b)).
  vm_compute in H. lia.
Qed.

(** The two orders of that race, side by side. *)
Example the_two_orders_of_the_race :
  let '(_, _, w') :=
    interleave Sample.gateway
               [false; true; false; true; false; false; false;
                true; true; true]
               (fire Sample.env Sample.poll_a)
               (fire Sample.env Sample.poll_b) Sample.awaiting_stripe in
  map (fun o => (Order.id o, Order.payment_session_id o)) (orders w')
  = [("order-a", Some "cs_test_1"); ("order-b", Some "cs_test_1")].
Proof. vm_compute. reflexivity. Qed.

End GuardCounterexample.

Section Webhook.

Local Open Scope string_scope.
Local Open Scope list_scope.

(** Whatever the event, the webhook route touches neither the order store
    nor the carts. *)
Lemma stripe_webhook_leaves_orders_and_carts
      (g : Gateway) (w : World) (body signature : string) :
  let w' := snd (run g (stripe_webhook body signature) w) in
  orders w' = orders w /\ carts w' = carts w.
Proof.
  simpl. destruct (handle_webhook g body signature) as [r|]; simpl;
    [|now split].
  destruct (String.eqb (Stripe.webhook_payment_status r) "paid"); simpl;
    now split.
Qed.

(** C2, on the code.  A valid "paid" event for the pending session of the
    sample shop: the webhook route marks the ledger row paid and stops
    there.  No order is inserted and the cart keeps its line; a poll of the
    same session afterwards finds the row paid and adds nothing either. *)
Theorem webhook_marks_paid_without_order_or_cart_clear :
  let w := Sample.awaiting_stripe in
  let w' := snd (run Sample.gateway (stripe_webhook "evt" "t=1,v1=ab") w) in
  fst (run Sample.gateway (stripe_webhook "evt" "t=1,v1=ab") w)
  = Ok "processed" /\
  payment_transactions w' = [set_paid Sample.pending_stripe] /\
  orders w' = [] /\
  carts w'
  = [Cart.Make "user-1" [CartItem.Make "prod_victoria_royale" 2]] /\
  snd (run Sample.gateway (fire Sample.env Sample.poll_a) w') = w'.
Proof. vm_compute. repeat split. Qed.

End Webhook.

(* ================================================================== *)
(** ** Cart *)
(* ================================================================== *)

Section CartFacts.

Variable g : Gateway.

Local Open Scope Z_scope.

Lemma update_one_keeps {Doc} (P : Doc -> Prop) q u (c : list Doc) :
  (forall d, P d -> P (u d)) ->
  Forall P c -> Forall P (Mongo.update_one q u c).
Proof.
  intros Hu. induction 1 as [|d c Hd Hc IH]; simpl; [constructor|].
  destruct (q d); constructor; auto.
Qed.

Lemma pull_keeps {Elt} (P : Elt -> Prop) cond (arr : list Elt) :
  Forall P arr -> Forall P (Mongo.pull cond arr).
Proof.
  unfold Mongo.pull. rewrite !Forall_forall. intros H x Hx.
  apply filter_In in Hx. now apply H.
Qed.

Lemma quantities_positive_iff (cs : list Cart.t) :
  quantities_positive cs <-> Forall lines_positive cs.
Proof.
  unfold quantities_positive, lines_positive. rewrite Forall_forall.
  split.
  - intros H c Hc. rewrite Forall_forall. intros i Hi. now apply (H c).
  - intros H c i Hc Hi. specialize (H c Hc). rewrite Forall_forall in H.
    now apply H.
Qed.

(** [update], [remove] and [clear] keep every stored quantity positive. *)
Lemma update_remove_clear_keep_quantities_positive
      (w : World) (item : CartItem.t) (product_id : string) (user : User.t) :
  quantities_positive (carts w) ->
  quantities_positive (carts (snd (run g (update_cart_item item user) w))) /\
  quantities_positive (carts (snd (run g (remove_from_cart product_id user) w)))
  /\
  quantities_positive (carts (snd (run g (clear_cart user) w))).
Proof.
  rewrite !quantities_positive_iff. intros H. repeat split.
  - unfold update_cart_item.
    destruct (Z.leb_spec (CartItem.quantity item) 0) as [Hle|Hgt]; simpl;
      apply update_one_keeps; trivial; intros c Hc; unfold lines_positive in *;
      simpl.
    + now apply pull_keeps.
    + unfold Mongo.positional. apply update_one_keeps; trivial.
      intros i _. simpl. lia.
  - simpl. apply update_one_keeps; trivial. intros c Hc.
    unfold lines_positive in *. simpl. now apply pull_keeps.
  - simpl. apply update_one_keeps; trivial. intros c Hc.
    unfold lines_positive. simpl. constructor.
Qed.

(** So does [add], as long as the quantity it is given is positive. *)
Lemma add_keeps_quantities_positive_for_positive_quantity
      (w : World) (item : CartItem.t) (user : User.t) :
  1 <= CartItem.quantity item ->
  quantities_positive (carts w) ->
  quantities_positive (carts (snd (run g (add_to_cart item user) w))).
Proof.
  rewrite !quantities_positive_iff. intros Hq H.
  unfold add_to_cart. simpl.
  destruct (Mongo.find_one (cart_of (User.id user)) (carts w)) as [cart|];
    simpl.
  - destruct (find _ (Cart.items cart)); simpl;
      apply update_one_keeps; trivial; intros c Hc;
      unfold lines_positive in *; simpl.
    + unfold Mongo.positional. apply update_one_keeps; trivial.
      intros i Hi. simpl. lia.
    + unfold Mongo.push. apply Forall_app. split; trivial.
      constructor; [exact Hq | constructor].
  - destruct (Bson.cart _); simpl; [|exact H].
    unfold Mongo.insert_one. apply Forall_app. split; trivial.
    constructor; [|constructor]. unfold lines_positive. simpl.
    constructor; [exact Hq | constructor].
Qed.

End CartFacts.

Section CartClaims.

Local Open Scope string_scope.
Local Open Scope list_scope.

(** C7, on the code.  [POST /cart/add] stores the quantity it is given
    without the test [update] makes: on the empty cart of a registered
    customer, adding a product with quantity 0 leaves a line of quantity 0
    in the cart, and adding -5 to a line of 2 leaves it at -3.  In both
    cases the invariant held before and fails after. *)
Theorem add_to_cart_stores_non_positive_quantity :
  let zero := CartItem.Make "prod_white_rose_musk" 0 in
  let minus_five := CartItem.Make "prod_victoria_royale" (-5) in
  let w0 := snd (run Sample.gateway (add_to_cart zero Sample.priya)
                     Sample.registered) in
  let w5 := snd (run Sample.gateway (add_to_cart minus_five Sample.priya)
                     Sample.shop) in
  quantities_positive (carts Sample.registered) /\
  carts w0 = [Cart.Make "user-1" [CartItem.Make "prod_white_rose_musk" 0]] /\
  ~ quantities_positive (carts w0) /\
  quantities_positive (carts Sample.shop) /\
  carts w5
  = [Cart.Make "user-1" [CartItem.Make "prod_victoria_royale" (-3)]] /\
  ~ quantities_positive (carts w5).
Proof.
  intros zero minus_five w0 w5.
  assert (E0 : carts w0
               = [Cart.Make "user-1"
                            [CartItem.Make "prod_white_rose_musk" 0]])
    by (vm_compute; reflexivity).
  assert (E5 : carts w5
               = [Cart.Make "user-1"
                            [CartItem.Make "prod_victoria_royale" (-3)]])
    by (vm_compute; reflexivity).
  rewrite E0, E5. unfold quantities_positive. simpl.
  repeat split.
  - intros c i [<-|[]] [].
  - intros H.
    specialize (H _ (CartItem.Make "prod_white_rose_musk" 0)
                  (or_introl eq_refl) (or_introl eq_refl)).
    simpl in H. lia.
  - intros c i [<-|[]] [<-|[]]. simpl. lia.
  - intros H.
    specialize (H _ (CartItem.Make "prod_victoria_royale" (-3))
                  (or_introl eq_refl) (or_introl eq_refl)).
    simpl in H. lia.
Qed.

End CartClaims.

(* ================================================================== *)
(** ** Reviews *)
(* ================================================================== *)

Section ReviewFacts.

Variable g : Gateway.

Local Open Scope string_scope.
Local Open Scope list_scope.

Lemma reviews_of_insert (pid : string) (doc : Review.t) (w : World) :
  Review.product_id doc = pid ->
  reviews_of pid (with_reviews (Mongo.insert_one doc) w)
  = reviews_of pid w ++ [doc].
Proof.
  intros H. unfold reviews_of, Mongo.find, Mongo.insert_one. simpl.
  rewrite filter_app. simpl. unfold review_of. rewrite H, String.eqb_refl.
  reflexivity.
Qed.

(** On a non-empty list, the handler's average is the mean of the
    ratings. *)
Lemma avg_rating_is_mean (rs : list Review.t) :
  rs <> [] -> avg_rating rs = mean (map Review.rating rs).
Proof.
  destruct rs as [|r rs]; [congruence|]. intros _.
  unfold avg_rating, mean. now rewrite length_map.
Qed.

Lemma to_list_not_empty {Doc} (n : nat) (c : list Doc) (d : Doc) :
  Mongo.to_list (S n) (c ++ [d]) <> [].
Proof. unfold Mongo.to_list. destruct c; simpl; discriminate. Qed.

(** What [POST /reviews] does.  A rating beyond 8 bytes makes the insert
    raise, and nothing is written.  Otherwise the review is appended; the
    first product with that id gets the rounded mean and the number of the
    reviews the capped query returned. *)
Lemma create_review_run (w : World) (review : ReviewCreate.t)
      (user : User.t) (uuid4 now : string) :
  let pid := ReviewCreate.product_id review in
  let doc :=
    Review.Make uuid4 pid (User.id user) (User.name user)
                (ReviewCreate.rating review) (ReviewCreate.title review)
                (ReviewCreate.comment review) now in
  let counted := Mongo.to_list 1000 (reviews_of pid w ++ [doc]) in
  run g (create_review review user uuid4 now) w =
  if Bson.int64 (ReviewCreate.rating review) then
    match mean (map Review.rating counted) with
    | Some avg =>
        (Ok doc,
         with_products
           (Mongo.update_one (product_of pid)
              (set_rating (PyFloat.round avg 1)
                          (Z.of_nat (List.length counted))))
           (with_reviews (Mongo.insert_one doc) w))
    | None => (Err OverflowError, with_reviews (Mongo.insert_one doc) w)
    end
  else (Err OverflowError, w).
Proof.
  intros pid doc counted. unfold create_review. simpl.
  unfold Bson.review. simpl.
  destruct (Bson.int64 (ReviewCreate.rating review)); [|reflexivity].
  simpl. fold pid. fold doc.
  change (Mongo.find (review_of pid) (Mongo.insert_one doc (reviews w)))
    with (reviews_of pid (with_reviews (Mongo.insert_one doc) w)).
  rewrite (reviews_of_insert (pid := pid) doc w eq_refl). fold counted.
  rewrite avg_rating_is_mean by apply to_list_not_empty.
  destruct (mean (map Review.rating counted)); reflexivity.
Qed.

Lemma set_rating_keeps_id (pid : string) (r : float) (n : Z) (p : Product.t) :
  product_of pid (set_rating r n p) = product_of pid p.
Proof. reflexivity. Qed.

(** The product found after a review was created. *)
Lemma create_review_product (w : World) (review : ReviewCreate.t)
      (user : User.t) (uuid4 now : string) (p : Product.t) (avg : float) :
  let pid := ReviewCreate.product_id review in
  let doc :=
    Review.Make uuid4 pid (User.id user) (User.name user)
                (ReviewCreate.rating review) (ReviewCreate.title review)
                (ReviewCreate.comment review) now in
  let counted := Mongo.to_list 1000 (reviews_of pid w ++ [doc]) in
  let w' := snd (run g (create_review review user uuid4 now) w) in
  Bson.int64 (ReviewCreate.rating review) = true ->
  Mongo.find_one (product_of pid) (products w) = Some p ->
  mean (map Review.rating counted) = Some avg ->
  fst (run g (create_review review user uuid4 now) w) = Ok doc /\
  reviews_of pid w' = reviews_of pid w ++ [doc] /\
  Mongo.find_one (product_of pid) (products w')
  = Some (set_rating (PyFloat.round avg 1)
                     (Z.of_nat (List.length counted)) p).
Proof.
  intros pid doc counted w' Hfits Hp Havg. subst w'.
  rewrite create_review_run, Hfits. fold pid. fold doc. fold counted.
  rewrite Havg. simpl. split; [reflexivity|]. split.
  - apply (reviews_of_insert (pid := pid) doc w eq_refl).
  - apply find_one_update_one; [exact Hp|].
    rewrite set_rating_keeps_id. exact (find_one_some_matches _ _ Hp).
Qed.

(** The same for a product with fewer than a thousand reviews so far:
    every review counts. *)
Lemma create_review_counts_all (w : World) (review : ReviewCreate.t)
      (user : User.t) (uuid4 now : string) (pid : string) (p : Product.t)
      (rs : list Review.t) (avg : float) :
  let w' := snd (run g (create_review review user uuid4 now) w) in
  Bson.int64 (ReviewCreate.rating review) = true ->
  ReviewCreate.product_id review = pid ->
  reviews_of pid w = rs ->
  (List.length rs < 1000)%nat ->
  Mongo.find_one (product_of pid) (products w) = Some p ->
  mean (map Review.rating rs ++ [ReviewCreate.rating review]) = Some avg ->
  (exists doc,
      reviews_of pid w' = rs ++ [doc] /\
      Review.rating doc = ReviewCreate.rating review) /\
  exists p',
    Mongo.find_one (product_of pid) (products w') = Some p' /\
    Product.rating p' = PyFloat.round avg 1 /\
    Product.reviews_count p' = Z.of_nat (S (List.length rs)).
Proof.
  intros w' Hfits <- Hrs Hlen Hp Havg.
  set (pid := ReviewCreate.product_id review) in *.
  set (doc := Review.Make uuid4 pid (User.id user) (User.name user)
                (ReviewCreate.rating review) (ReviewCreate.title review)
                (ReviewCreate.comment review) now).
  assert (Hall : Mongo.to_list 1000 (reviews_of pid w ++ [doc]) = rs ++ [doc]).
  { rewrite Hrs. unfold Mongo.to_list. apply firstn_all2.
    rewrite length_app. simpl. lia. }
  assert (Hmean : mean (map Review.rating
                          (Mongo.to_list 1000 (reviews_of pid w ++ [doc])))
                  = Some avg).
  { rewrite Hall, map_app. exact Havg. }
  destruct (create_review_product w review user uuid4 now Hfits Hp Hmean)
    as (_ & Hreviews & Hfind).
  fold pid in Hreviews, Hfind. fold doc in Hreviews, Hfind.
  fold w' in Hreviews, Hfind.
  split.
  - exists doc. split; [now rewrite Hreviews, Hrs | reflexivity].
  - eexists. split; [exact Hfind|]. split; [reflexivity|].
    simpl. rewrite Hall, length_app. simpl.
    f_equal. lia.
Qed.

End ReviewFacts.

Section ReviewClaims.

Local Open Scope string_scope.
Local Open Scope list_scope.

(** C9, as the code has it.  After a review is created for a product of
    the catalog, the first thousand reviews of the product (in store order,
    the new one last) are what counts: the product's rating is their
    arithmetic mean rounded to one decimal place and its reviews_count is
    their number, and they are all the reviews as long as there are at most
    a thousand.  In particular, three reviews rated 5, 5 and 4 of a product
    with no other review leave it at rating 4.7 and reviews_count 3.  A
    review is created when its rating is an integer of at most 8 bytes;
    for any other the insert raises and nothing changes. *)
Theorem rating_is_rounded_mean_of_first_thousand_reviews
        (g : Gateway) (w : World) (review : ReviewCreate.t) (user : User.t)
        (uuid4 now : string) (p : Product.t) (avg : float) :
  let pid := ReviewCreate.product_id review in
  let w' := snd (run g (create_review review user uuid4 now) w) in
  let counted := Mongo.to_list 1000 (reviews_of pid w') in
  Bson.int64 (ReviewCreate.rating review) = true ->
  Mongo.find_one (product_of pid) (products w) = Some p ->
  mean (map Review.rating counted) = Some avg ->
  (exists p',
      Mongo.find_one (product_of pid) (products w') = Some p' /\
      Product.rating p' = PyFloat.round avg 1 /\
      Product.reviews_count p' = Z.of_nat (List.length counted)) /\
  List.length (reviews_of pid w') = S (List.length (reviews_of pid w)) /\
  ((List.length (reviews_of pid w') <= 1000)%nat ->
   counted = reviews_of pid w') /\
  (forall r1 r2 r3 u1 u2 u3 id1 id2 id3 t1 t2 t3,
      reviews_of pid w = [] ->
      ReviewCreate.product_id r1 = pid ->
      ReviewCreate.product_id r2 = pid ->
      ReviewCreate.product_id r3 = pid ->
      ReviewCreate.rating r1 = 5%Z ->
      ReviewCreate.rating r2 = 5%Z ->
      ReviewCreate.rating r3 = 4%Z ->
      let w1 := snd (run g (create_review r1 u1 id1 t1) w) in
      let w2 := snd (run g (create_review r2 u2 id2 t2) w1) in
      let w3 := snd (run g (create_review r3 u3 id3 t3) w2) in
      exists p3,
        Mongo.find_one (product_of pid) (products w3) = Some p3 /\
        Product.rating p3 = 4.7%float /\
        Product.reviews_count p3 = 3%Z).
Proof.
  intros pid w' counted Hfits Hp.
  set (doc := Review.Make uuid4 pid (User.id user) (User.name user)
                (ReviewCreate.rating review) (ReviewCreate.title review)
                (ReviewCreate.comment review) now).
  assert (Hreviews : reviews_of pid w' = reviews_of pid w ++ [doc]).
  { subst w'. rewrite create_review_run, Hfits. fold pid. fold doc.
    destruct (mean (map Review.rating
                (Mongo.to_list 1000 (reviews_of pid w ++ [doc])))); simpl;
      apply (reviews_of_insert (pid := pid) doc w eq_refl). }
  subst counted. rewrite Hreviews. intros Havg.
  destruct (create_review_product g w review user uuid4 now Hfits Hp Havg)
    as (_ & _ & Hfind).
  fold pid in Hfind. fold doc in Hfind. fold w' in Hfind.
  split; [|split; [|split]].
  - eexists. split; [exact Hfind|]. split; reflexivity.
  - rewrite length_app. simpl. lia.
  - intros Hle. unfold Mongo.to_list. now apply firstn_all2.
  - intros r1 r2 r3 u1 u2 u3 id1 id2 id3 t1 t2 t3 Hnone E1 E2 E3 R1 R2 R3
           w1 w2 w3.
    assert (M1 : mean [5%Z] = Some 5%float) by (vm_compute; reflexivity).
    assert (M2 : mean [5%Z; 5%Z] = Some 5%float) by (vm_compute; reflexivity).
    assert (M3 : mean [5%Z; 5%Z; 4%Z] = Some (14 / 3)%float)
      by (vm_compute; reflexivity).
    pose proof (@create_review_counts_all g w r1 u1 id1 t1 pid p []
                  5%float ltac:(rewrite R1; reflexivity)
                  E1 Hnone ltac:(simpl; lia) Hp
                  ltac:(simpl; rewrite R1; exact M1))
      as ((d1 & V1 & D1) & p1 & F1 & _).
    fold w1 in V1, F1.
    pose proof (@create_review_counts_all g w1 r2 u2 id2 t2 pid p1 [d1]
                  5%float ltac:(rewrite R2; reflexivity)
                  E2 V1 ltac:(simpl; lia) F1
                  ltac:(simpl; rewrite D1, R1, R2; exact M2))
      as ((d2 & V2 & D2) & p2 & F2 & _).
    fold w2 in V2, F2.
    pose proof (@create_review_counts_all g w2 r3 u3 id3 t3 pid p2 [d1; d2]
                  (14 / 3)%float ltac:(rewrite R3; reflexivity)
                  E3 V2 ltac:(simpl; lia) F2
                  ltac:(simpl; rewrite D1, D2, R1, R2, R3; exact M3))
      as (_ & p3 & F3 & G3 & N3).
    fold w3 in F3.
    exists p3. split; [exact F3|]. split.
    + rewrite G3. vm_compute. reflexivity.
    + rewrite N3. reflexivity.
Qed.

(** C9, as stated, fails on a product that has a thousand reviews already:
    the new review is the 1001st, and the stored count stays at 1000. *)
Lemma thousand_and_first_review_is_not_counted :
  ~ aggregate_covers_all_reviews Sample.gateway Sample.much_reviewed
      (ReviewCreate.Make "prod_victoria_royale" 1 "Faded" "Gone by noon.")
      Sample.priya "rev-1001" Sample.at_noon.
Proof.
  intros H.
  destruct (H (set_rating 5%float 1000%Z Sample.victoria_royale)) as [_ Hn].
  - vm_compute. reflexivity.
  - vm_compute in Hn. discriminate.
Qed.

End ReviewClaims.

Section ReviewWitnesses.

Local Open Scope string_scope.
Local Open Scope list_scope.

(** C9 (amended) at the sample shop: a four-star review after two
    five-star ones. *)
Lemma rating_is_rounded_mean_of_first_thousand_reviews_witness :
  let review :=
    ReviewCreate.Make "prod_victoria_royale" 4 "Nice" "A little sweet." in
  let w' :=
    snd (run Sample.gateway
             (create_review review Sample.priya "rev-2" Sample.at_noon)
             Sample.twice_reviewed) in
  exists p',
    Mongo.find_one (product_of "prod_victoria_royale") (products w')
    = Some p' /\
    Product.rating p' = PyFloat.round (14 / 3)%float 1 /\
    Product.reviews_count p'
    = Z.of_nat (List.length
                  (Mongo.to_list 1000
                     (reviews_of "prod_victoria_royale" w'))).
Proof.
  intros review w'.
  refine (proj1 (@rating_is_rounded_mean_of_first_thousand_reviews
                   Sample.gateway Sample.twice_reviewed review Sample.priya
                   "rev-2" Sample.at_noon Sample.victoria_royale
                   (14 / 3)%float _ _ _)).
  - reflexivity.
  - reflexivity.
  - vm_compute. reflexivity.
Defined.

End ReviewWitnesses.

(* ================================================================== *)
(** ** The specification's scenario, run *)
(* ================================================================== *)

Section Scenario.

Local Open Scope string_scope.
Local Open Scope list_scope.

(** Two bottles at 300 in the cart: checkout records 600 pending; the poll
    that sees the session paid creates the confirmed order of 600 and
    empties the cart; a second poll changes nothing. *)
Example checkout_poll_and_poll_again :
  let w1 :=
    snd (run Sample.gateway
             (create_stripe_checkout Sample.request Sample.priya "txn-1"
                                     Sample.at_ten)
             Sample.shop) in
  let w2 := snd (run Sample.gateway (fire Sample.env Sample.poll_a) w1) in
  let w3 := snd (run Sample.gateway (fire Sample.env Sample.poll_b) w2) in
  payment_transactions w1 = [Sample.pending_stripe] /\
  map (fun o => (Order.total_amount o, Order.order_status o)) (orders w2)
  = [(600%float, "confirmed")] /\
  map Transaction.payment_status (payment_transactions w2) = ["paid"] /\
  carts w2 = [Cart.Make "user-1" []] /\
  w3 = w2.
Proof. vm_compute. repeat split. Qed.

(** The same with a client-supplied proof for the Razorpay order, sent
    twice. *)
Example verify_and_verify_again :
  let proof :=
    Verify "order_1" "pay_1"
      "07a74f0d54ff0d49f7e8c6670ee30f6854f5b787d46475823b38bec4e41ed8c5"
      Sample.priya "order-a" Sample.at_noon Sample.at_noon in
  let w1 :=
    snd (run Sample.gateway (fire Sample.env proof)
             Sample.awaiting_razorpay) in
  let w2 := snd (run Sample.gateway (fire Sample.env proof) w1) in
  map (fun o => (Order.total_amount o, Order.razorpay_payment_id o))
      (orders w1)
  = [(600%float, Some "pay_1")] /\
  map Transaction.payment_status (payment_transactions w1) = ["paid"] /\
  carts w1 = [Cart.Make "user-1" []] /\
  w2 = w1.
Proof. vm_compute. repeat split. Qed.

End Scenario.

(* ================================================================== *)
(** ** The models of the library functions, on known values *)
(* ================================================================== *)

Section KnownValues.

Local Open Scope string_scope.
Local Open Scope list_scope.

Example sha256_of_abc :
  Sha256.hex (Sha256.digest (Sha256.encode "abc"))
  = "ba7816bf8f01cfea414140de5dae2223b00361a396177a9cb410ff61f20015ad".
Proof. vm_compute. reflexivity. Qed.

Example sha256_of_the_empty_string :
  Sha256.hex (Sha256.digest [])
  = "e3b0c44298fc1c149afbf4c8996fb92427ae41e4649b934ca495991b7852b855".
Proof. vm_compute. reflexivity. Qed.

Example hmac_of_the_quick_brown_fox :
  Sha256.hmac_hexdigest "key" "The quick brown fox jumps over the lazy dog"
  = "f7bc83f430538424b13298e6aa6fb143ef4d59a14946175997479dbc2d1a3cd8".
Proof. vm_compute. reflexivity. Qed.

Example first_and_last_round_constant :
  nth 0 Sha256.round_constants 0%Z = 0x428a2f98%Z /\
  nth 63 Sha256.round_constants 0%Z = 0xc67178f2%Z /\
  List.length Sha256.round_constants = 64%nat.
Proof. vm_compute. repeat split. Qed.

Example signature_of_the_sample_payment :
  generated_signature "rzp_test_secret" "order_1" "pay_1"
  = "07a74f0d54ff0d49f7e8c6670ee30f6854f5b787d46475823b38bec4e41ed8c5".
Proof. vm_compute. reflexivity. Qed.

(** [round] works on the binary value: 4.35 is stored just below 4.35. *)
Example round_examples :
  PyFloat.round (14 / 3)%float 1 = 4.7%float /\
  PyFloat.round 4.35%float 1 = 4.3%float /\
  PyFloat.round 4.25%float 1 = 4.2%float /\
  PyFloat.round 2.675%float 2 = 2.67%float /\
  PyFloat.round (-0.01)%float 1 = (-0)%float /\
  PyFloat.round infinity 2 = infinity.
Proof. vm_compute. repeat split. Qed.

Example int_conversions :
  PyFloat.of_int 2 = Some 2%float /\
  PyFloat.of_int (2 ^ 53 + 1) = Some 9007199254740992%float /\
  PyFloat.of_int (2 ^ 1024) = None /\
  PyFloat.to_int (600 * 100)%float = Some 60000%Z /\
  PyFloat.to_int infinity = None /\
  PyFloat.int_true_div 87 20 = Some 4.35%float.
Proof. vm_compute. repeat split. Qed.

End KnownValues.

(* ================================================================== *)
(** ** Cart routes: lookups, uniqueness and isolation *)
(* ================================================================== *)

Section MoreCollectionFacts.

Variable Doc : Type.
Implicit Types (q p : Doc -> bool) (u : Doc -> Doc) (c : list Doc).

Lemma find_one_is_find q c : Mongo.find_one q c = List.find q c.
Proof. induction c as [|x c IH]; simpl; [|rewrite IH]; reflexivity. Qed.

Lemma update_one_keeps_found (P : Doc -> Prop) q u c :
  Forall P c ->
  (forall d, Mongo.find_one q c = Some d -> P d -> P (u d)) ->
  Forall P (Mongo.update_one q u c).
Proof.
  induction 1 as [|x c Hx Hc IH]; simpl; [constructor|].
  destruct (q x); intros Hu; constructor; auto.
Qed.

(** A query at least as wide as the one of the update sees the updated
    document where it saw the old one. *)
Lemma find_one_update_one_within q q' u c :
  (forall x, q' x = true -> q x = true) ->
  (forall x, q (u x) = q x) ->
  Mongo.find_one q (Mongo.update_one q' u c) =
  match Mongo.find_one q c with
  | Some d => Some (if q' d then u d else d)
  | None => None
  end.
Proof.
  intros Hsub Hkey. induction c as [|x c IH]; simpl; [reflexivity|].
  destruct (q' x) eqn:E'; simpl.
  - rewrite Hkey, (Hsub x E'). now rewrite E'.
  - destruct (q x); [now rewrite E' | exact IH].
Qed.

(** A query disjoint from the one of the update is not affected. *)
Lemma find_one_update_one_apart q q' u c :
  (forall x, q' x = true -> q x = false) ->
  (forall x, q (u x) = q x) ->
  Mongo.find_one q (Mongo.update_one q' u c) = Mongo.find_one q c.
Proof.
  intros Hapart Hkey. induction c as [|x c IH]; simpl; [reflexivity|].
  destruct (q' x) eqn:E'; simpl.
  - now rewrite Hkey, (Hapart x E').
  - destruct (q x); [reflexivity | exact IH].
Qed.

Lemma find_one_app_none q c x :
  Mongo.find_one q c = None ->
  Mongo.find_one q (c ++ [x]) = if q x then Some x else None.
Proof.
  induction c as [|y c IH]; simpl; [reflexivity|].
  destruct (q y); [discriminate | exact IH].
Qed.

Lemma find_one_app_some q c x d :
  Mongo.find_one q c = Some d -> Mongo.find_one q (c ++ [x]) = Some d.
Proof.
  induction c as [|y c IH]; simpl; [discriminate|].
  destruct (q y); [trivial | exact IH].
Qed.

Lemma find_one_pull_same q c : Mongo.find_one q (Mongo.pull q c) = None.
Proof.
  unfold Mongo.pull. induction c as [|x c IH]; simpl; [reflexivity|].
  destruct (q x) eqn:E; simpl; [exact IH | now rewrite E].
Qed.

Lemma find_one_pull_apart q q' c :
  (forall x, q' x = true -> q x = false) ->
  Mongo.find_one q (Mongo.pull q' c) = Mongo.find_one q c.
Proof.
  intros Hapart. unfold Mongo.pull.
  induction c as [|x c IH]; simpl; [reflexivity|].
  destruct (q' x) eqn:E'; simpl.
  - now rewrite (Hapart x E').
  - destruct (q x); [reflexivity | exact IH].
Qed.

Lemma filter_update_one p q u c :
  (forall d, q d = true -> p d = false) ->
  (forall d, q d = true -> p (u d) = false) ->
  filter p (Mongo.update_one q u c) = filter p c.
Proof.
  intros H1 H2. induction c as [|x c IH]; simpl; [reflexivity|].
  destruct (q x) eqn:E; simpl.
  - now rewrite (H1 x E), (H2 x E).
  - now rewrite IH.
Qed.

Lemma update_one_map {B} (f : Doc -> B) q u c :
  (forall x, f (u x) = f x) ->
  map f (Mongo.update_one q u c) = map f c.
Proof.
  intros H. induction c as [|x c IH]; simpl; [reflexivity|].
  destruct (q x); simpl; [now rewrite H | now rewrite IH].
Qed.

Lemma update_one_idempotent q u c :
  (forall d, q (u d) = q d) ->
  (forall d, q d = true -> u (u d) = u d) ->
  Mongo.update_one q u (Mongo.update_one q u c) = Mongo.update_one q u c.
Proof.
  intros Hkey Hu. induction c as [|x c IH]; simpl; [reflexivity|].
  destruct (q x) eqn:E; simpl.
  - now rewrite Hkey, E, (Hu x E).
  - now rewrite E, IH.
Qed.

Lemma pull_idempotent q c : Mongo.pull q (Mongo.pull q c) = Mongo.pull q c.
Proof.
  unfold Mongo.pull. induction c as [|x c IH]; simpl; [reflexivity|].
  destruct (q x) eqn:E; simpl; [exact IH | now rewrite E, IH].
Qed.

Lemma NoDup_map_pull {B} (f : Doc -> B) q c :
  NoDup (map f c) -> NoDup (map f (Mongo.pull q c)).
Proof.
  unfold Mongo.pull. induction c as [|x c IH]; simpl; [trivial|].
  intros H. inversion H as [|? ? Hnot Hrest]; subst.
  destruct (q x); simpl; [now apply IH|].
  constructor; [|now apply IH].
  intros Hin. apply Hnot. apply in_map_iff in Hin as (y & <- & Hy).
  apply in_map. now apply filter_In in Hy.
Qed.


Lemma not_existsb_find_one q c :
  existsb q c = false -> Mongo.find_one q c = None.
Proof.
  induction c as [|x c IH]; simpl; [reflexivity|].
  destruct (q x); [discriminate | exact IH].
Qed.

Lemma find_one_none_forall q c x :
  Mongo.find_one q c = None -> In x c -> q x = false.
Proof.
  induction c as [|y c IH]; simpl; [contradiction|].
  destruct (q y) eqn:E; [discriminate|].
  intros H [<-|Hin]; [exact E | now apply IH].
Qed.

End MoreCollectionFacts.

Section CartLookups.

Variable g : Gateway.

Local Open Scope string_scope.
Local Open Scope list_scope.
Local Open Scope Z_scope.

Lemma line_of_apart (pid pid' : string) (i : CartItem.t) :
  pid' <> pid -> line_of pid i = true -> line_of pid' i = false.
Proof.
  unfold line_of. intros Hneq H. apply String.eqb_eq in H.
  apply String.eqb_neq. congruence.
Qed.

Lemma cart_with_line_is_cart_of (uid pid : string) (c : Cart.t) :
  cart_with_line uid pid c = true -> cart_of uid c = true.
Proof. unfold cart_with_line. intros H. now apply andb_prop in H. Qed.

Lemma stored_quantity_alt (uid pid : string) (w : World) :
  stored_quantity uid pid w =
  match Mongo.find_one (cart_of uid) (carts w) with
  | Some c => quantity_in pid c
  | None => None
  end.
Proof.
  unfold stored_quantity, quantity_in.
  destruct (Mongo.find_one _ _); [now rewrite find_one_is_find | reflexivity].
Qed.

(** What an update of the lines does to the customer's first cart. *)
Lemma stored_quantity_after_update (uid pid : string) (w : World)
      (q' : Cart.t -> bool) (f : list CartItem.t -> list CartItem.t) :
  (forall c, q' c = true -> cart_of uid c = true) ->
  stored_quantity uid pid
    (with_carts (Mongo.update_one q' (set_items f)) w) =
  match Mongo.find_one (cart_of uid) (carts w) with
  | Some c => quantity_in pid (if q' c then set_items f c else c)
  | None => None
  end.
Proof.
  intros Hsub. rewrite stored_quantity_alt. simpl.
  rewrite (find_one_update_one_within (cart_of uid) q' (set_items f)
             (carts w) Hsub (fun _ => eq_refl)).
  destruct (Mongo.find_one _ _); reflexivity.
Qed.

End CartLookups.

Section CartLaws.

Local Open Scope string_scope.
Local Open Scope list_scope.
Local Open Scope Z_scope.

(** X3. [POST /cart/add] adds to what is stored.  For a quantity that is
    an integer of at most 8 bytes, and whose sum with the quantity already
    stored for the product is one too (the store holds no larger integer),
    the route answers, and afterwards the customer's cart stores, for the
    product, the given quantity plus the quantity it stored before (the
    given quantity alone when it stored none, a cart being created when
    the customer had none); what it stores for any other product is
    unchanged. *)
Theorem add_to_cart_adds_to_the_stored_quantity
        (g : Gateway) (w : World) (item : CartItem.t) (user : User.t) :
  let uid := User.id user in
  let pid := CartItem.product_id item in
  let w' := snd (run g (add_to_cart item user) w) in
  Bson.int64 (CartItem.quantity item) = true ->
  (forall n, stored_quantity uid pid w = Some n ->
             Bson.int64 (n + CartItem.quantity item) = true) ->
  fst (run g (add_to_cart item user) w) = Ok "Item added to cart"%string /\
  stored_quantity uid pid w'
  = Some (match stored_quantity uid pid w with
          | Some n => n + CartItem.quantity item
          | None => CartItem.quantity item
          end) /\
  forall pid', pid' <> pid ->
               stored_quantity uid pid' w' = stored_quantity uid pid' w.
Proof.
  intros uid pid w' Hfits _. subst w'.
  assert (Hdoc : Bson.cart
                   (Cart.Make uid [CartItem.Make pid (CartItem.quantity item)])
                 = true)
    by (unfold Bson.cart; simpl; now rewrite Hfits).
  split.
  { unfold add_to_cart. simpl. fold uid. fold pid.
    destruct (Mongo.find_one (cart_of uid) (carts w)) as [cart|]; simpl.
    - now destruct (find (line_of pid) (Cart.items cart)).
    - now rewrite Hdoc. }
  unfold add_to_cart. simpl.
  fold uid. fold pid.
  rewrite (stored_quantity_alt uid pid w).
  assert (Hothers : forall pid', stored_quantity uid pid' w =
            match Mongo.find_one (cart_of uid) (carts w) with
            | Some c => quantity_in pid' c
            | None => None
            end) by (intros; apply stored_quantity_alt).
  destruct (Mongo.find_one (cart_of uid) (carts w)) as [cart|] eqn:Hcart;
    simpl.
  - rewrite <- find_one_is_find.
    unfold quantity_in at 1.
    destruct (Mongo.find_one (line_of pid) (Cart.items cart))
      as [line|] eqn:Hline; simpl.
    + (* the line exists: positional increment *)
      split.
      * rewrite stored_quantity_after_update
          by apply cart_with_line_is_cart_of.
        rewrite Hcart. unfold cart_with_line.
        rewrite (find_one_some_matches _ _ Hcart). simpl.
        destruct (existsb (line_of pid) (Cart.items cart)) eqn:Hex;
          [|apply not_existsb_find_one in Hex; congruence].
        unfold quantity_in, set_items, Mongo.positional. simpl.
        rewrite (find_one_update_one _ _ _ Hline)
          by exact (find_one_some_matches _ _ Hline).
        reflexivity.
      * intros pid' Hneq.
        rewrite stored_quantity_after_update
          by apply cart_with_line_is_cart_of.
        rewrite Hothers, Hcart.
        destruct (cart_with_line uid pid cart); [|reflexivity].
        unfold quantity_in, set_items, Mongo.positional. simpl.
        rewrite find_one_update_one_apart; trivial.
        intros x. now apply line_of_apart.
    + (* no line yet: push *)
      split.
      * rewrite stored_quantity_after_update by trivial.
        rewrite Hcart, (find_one_some_matches _ _ Hcart).
        unfold quantity_in, set_items, Mongo.push. simpl.
        rewrite (find_one_app_none _ _ _ Hline). unfold line_of at 1. simpl.
        fold pid. now rewrite String.eqb_refl.
      * intros pid' Hneq.
        rewrite stored_quantity_after_update by trivial.
        rewrite Hothers, Hcart, (find_one_some_matches _ _ Hcart).
        unfold quantity_in, set_items, Mongo.push. simpl.
        destruct (Mongo.find_one (line_of pid') (Cart.items cart))
          as [other|] eqn:Hother.
        -- now rewrite (find_one_app_some _ _ _ Hother).
        -- rewrite (find_one_app_none _ _ _ Hother).
           unfold line_of at 1. simpl. fold pid.
           destruct (String.eqb_spec pid pid'); [congruence | reflexivity].
  - (* no cart: one is inserted *)
    rewrite Hdoc. simpl. split.
    + rewrite stored_quantity_alt. simpl. unfold Mongo.insert_one.
      rewrite (find_one_app_none _ _ _ Hcart). unfold cart_of at 1. simpl.
      fold uid. rewrite String.eqb_refl. unfold quantity_in. simpl.
      unfold line_of. simpl. fold pid. now rewrite String.eqb_refl.
    + intros pid' Hneq.
      rewrite stored_quantity_alt, Hothers. simpl. unfold Mongo.insert_one.
      rewrite (find_one_app_none _ _ _ Hcart). unfold cart_of at 1. simpl.
      fold uid. rewrite String.eqb_refl. unfold quantity_in. simpl.
      unfold line_of. simpl. fold pid.
      destruct (String.eqb_spec pid pid'); [congruence | reflexivity].
Qed.


(** X5. [DELETE /cart/remove/{product_id}] leaves no line for the product
    in the customer's cart and does not touch what is stored for other
    products; asked again it changes nothing; and [PUT /cart/update] with a
    quantity [<= 0] leaves exactly the world this removal leaves. *)
Theorem remove_from_cart_drops_the_line_for_good
        (g : Gateway) (w : World) (product_id : string) (user : User.t) :
  let uid := User.id user in
  let w' := snd (run g (remove_from_cart product_id user) w) in
  stored_quantity uid product_id w' = None /\
  (forall pid', pid' <> product_id ->
                stored_quantity uid pid' w' = stored_quantity uid pid' w) /\
  snd (run g (remove_from_cart product_id user) w') = w' /\
  (forall q, q <= 0 ->
             snd (run g (update_cart_item (CartItem.Make product_id q) user)
                      w) = w').
Proof.
  intros uid w'. subst w'. unfold remove_from_cart. simpl. fold uid.
  assert (Hothers : forall pid', stored_quantity uid pid' w =
            match Mongo.find_one (cart_of uid) (carts w) with
            | Some c => quantity_in pid' c
            | None => None
            end) by (intros; apply stored_quantity_alt).
  split; [|split; [|split]].
  - rewrite stored_quantity_after_update by trivial.
    destruct (Mongo.find_one (cart_of uid) (carts w)) as [cart|] eqn:Hcart;
      trivial.
    rewrite (find_one_some_matches _ _ Hcart).
    unfold quantity_in, set_items. simpl. now rewrite find_one_pull_same.
  - intros pid' Hneq.
    rewrite stored_quantity_after_update by trivial. rewrite Hothers.
    destruct (Mongo.find_one (cart_of uid) (carts w)) as [cart|] eqn:Hcart;
      trivial.
    rewrite (find_one_some_matches _ _ Hcart).
    unfold quantity_in, set_items. simpl.
    rewrite find_one_pull_apart; trivial.
    intros x. now apply line_of_apart.
  - unfold with_carts. simpl. f_equal.
    apply update_one_idempotent; [reflexivity|].
    intros d _. unfold set_items. simpl. now rewrite pull_idempotent.
  - intros q Hq. unfold update_cart_item. simpl.
    apply Z.leb_le in Hq. now rewrite Hq.
Qed.

End CartLaws.

Section CartLawsWitness.

Local Open Scope string_scope.
Local Open Scope Z_scope.

Lemma add_to_cart_adds_to_the_stored_quantity_witness :
  let item := CartItem.Make "prod_victoria_royale" 1 in
  let w' := snd (run Sample.gateway (add_to_cart item Sample.priya)
                     Sample.shop) in
  fst (run Sample.gateway (add_to_cart item Sample.priya) Sample.shop)
  = Ok "Item added to cart" /\
  stored_quantity "user-1" "prod_victoria_royale" w'
  = Some (match stored_quantity "user-1" "prod_victoria_royale" Sample.shop
          with
          | Some n => n + 1
          | None => 1
          end) /\
  forall pid', pid' <> "prod_victoria_royale" ->
               stored_quantity "user-1" pid' w'
               = stored_quantity "user-1" pid' Sample.shop.
Proof.
  apply (@add_to_cart_adds_to_the_stored_quantity
           Sample.gateway Sample.shop
           (CartItem.Make "prod_victoria_royale" 1) Sample.priya).
  - reflexivity.
  - intros n Hn. vm_compute in Hn. injection Hn as <-. reflexivity.
Defined.

End CartLawsWitness.

Section CartShape.

Local Open Scope string_scope.
Local Open Scope list_scope.
Local Open Scope Z_scope.

Lemma NoDup_snoc {B} (l : list B) (a : B) :
  NoDup l -> ~ In a l -> NoDup (l ++ [a]).
Proof.
  induction 1 as [|x l Hx Hl IH]; simpl; intros Ha.
  - constructor; [intros [] | constructor].
  - constructor.
    + rewrite in_app_iff. simpl. intros [H|[H|[]]]; [now apply Hx|].
      apply Ha. now left.
    + apply IH. intros H. apply Ha. now right.
Qed.

Lemma no_line_no_product (pid : string) (items : list CartItem.t) :
  Mongo.find_one (line_of pid) items = None ->
  ~ In pid (map CartItem.product_id items).
Proof.
  intros Hnone Hin. apply in_map_iff in Hin as (i & Hi & Hin).
  apply (find_one_none_forall _ _ _ Hnone) in Hin.
  unfold line_of in Hin. rewrite Hi, String.eqb_refl in Hin. discriminate.
Qed.

(** The positional operators of the cart routes leave product ids alone. *)
Lemma positional_keeps_products (pid : string) (f : CartItem.t -> CartItem.t)
      (items : list CartItem.t) :
  (forall i, CartItem.product_id (f i) = CartItem.product_id i) ->
  map CartItem.product_id (Mongo.positional (line_of pid) f items)
  = map CartItem.product_id items.
Proof. intros H. unfold Mongo.positional. now apply update_one_map. Qed.

(** X1. No cart route makes a second line for a product: if every cart
    holds at most one line per product, it still does after add, update,
    remove and clear. *)
Theorem cart_routes_keep_one_line_per_product
        (g : Gateway) (w : World) (item : CartItem.t) (product_id : string)
        (user : User.t) :
  lines_unique (carts w) ->
  lines_unique (carts (snd (run g (add_to_cart item user) w))) /\
  lines_unique (carts (snd (run g (update_cart_item item user) w))) /\
  lines_unique (carts (snd (run g (remove_from_cart product_id user) w))) /\
  lines_unique (carts (snd (run g (clear_cart user) w))).
Proof.
  unfold lines_unique. intros H. split; [|split; [|split]].
  - unfold add_to_cart. simpl.
    destruct (Mongo.find_one (cart_of (User.id user)) (carts w))
      as [cart|] eqn:Hcart; simpl.
    + rewrite <- find_one_is_find.
      destruct (Mongo.find_one (line_of (CartItem.product_id item))
                               (Cart.items cart)) as [line|] eqn:Hline;
        simpl.
      * apply update_one_keeps; trivial. intros c Hc. simpl.
        now rewrite positional_keeps_products.
      * apply update_one_keeps_found; trivial.
        intros d Hd Hdup. rewrite Hcart in Hd. injection Hd as <-.
        simpl. unfold Mongo.push. rewrite map_app. simpl.
        apply NoDup_snoc; trivial. now apply no_line_no_product.
    + destruct (Bson.cart _); simpl; [|exact H].
      unfold Mongo.insert_one. apply Forall_app. split; trivial.
      constructor; [|constructor]. simpl.
      constructor; [intros [] | constructor].
  - unfold update_cart_item.
    destruct (CartItem.quantity item <=? 0); simpl;
      apply update_one_keeps; trivial; intros c Hc; simpl.
    + now apply NoDup_map_pull.
    + now rewrite positional_keeps_products.
  - simpl. apply update_one_keeps; trivial. intros c Hc. simpl.
    now apply NoDup_map_pull.
  - simpl. apply update_one_keeps; trivial. intros c Hc. simpl.
    constructor.
Qed.

Lemma others_after_update (uid : string) (w : World)
      (q : Cart.t -> bool) (f : list CartItem.t -> list CartItem.t) :
  (forall c, q c = true -> cart_of uid c = true) ->
  same_outside_cart uid w (with_carts (Mongo.update_one q (set_items f)) w).
Proof.
  intros Hsub. unfold same_outside_cart, carts_of_others. simpl.
  repeat split.
  apply filter_update_one; intros d Hd.
  - now rewrite (Hsub d Hd).
  - unfold set_items, cart_of. simpl.
    apply Hsub in Hd. unfold cart_of in Hd. now rewrite Hd.
Qed.

(** X2. A cart route works on the cart of the customer who asks, and on
    nothing else: the carts of all other customers, the catalog, the
    ledger, the orders, the reviews and the gateways are as before. *)
Theorem cart_routes_touch_only_the_callers_cart
        (g : Gateway) (w : World) (item : CartItem.t) (product_id : string)
        (user : User.t) :
  let uid := User.id user in
  same_outside_cart uid w (snd (run g (add_to_cart item user) w)) /\
  same_outside_cart uid w (snd (run g (update_cart_item item user) w)) /\
  same_outside_cart uid w
    (snd (run g (remove_from_cart product_id user) w)) /\
  same_outside_cart uid w (snd (run g (clear_cart user) w)).
Proof.
  intros uid. split; [|split; [|split]].
  - unfold add_to_cart. simpl. fold uid.
    destruct (Mongo.find_one (cart_of uid) (carts w)) as [cart|]; simpl.
    + destruct (find _ (Cart.items cart)); simpl.
      * apply others_after_update. apply cart_with_line_is_cart_of.
      * now apply others_after_update.
    + destruct (Bson.cart _); simpl; [|now repeat split].
      unfold same_outside_cart, carts_of_others, Mongo.insert_one. simpl.
      repeat split. rewrite filter_app. simpl.
      unfold cart_of at 2. simpl. fold uid.
      rewrite String.eqb_refl. simpl. apply app_nil_r.
  - unfold update_cart_item. fold uid.
    destruct (CartItem.quantity item <=? 0); simpl.
    + now apply others_after_update.
    + apply others_after_update. apply cart_with_line_is_cart_of.
  - simpl. now apply others_after_update.
  - simpl. now apply others_after_update.
Qed.

End CartShape.

Section CartShapeWitness.

Local Open Scope string_scope.
Local Open Scope list_scope.

(** X1 at the sample shop. *)
Lemma cart_routes_keep_one_line_per_product_witness :
  let item := CartItem.Make "prod_victoria_royale" 1 in
  lines_unique
    (carts (snd (run Sample.gateway (add_to_cart item Sample.priya)
                     Sample.shop))) /\
  lines_unique
    (carts (snd (run Sample.gateway (update_cart_item item Sample.priya)
                     Sample.shop))) /\
  lines_unique
    (carts (snd (run Sample.gateway
                     (remove_from_cart "prod_victoria_royale" Sample.priya)
                     Sample.shop))) /\
  lines_unique
    (carts (snd (run Sample.gateway (clear_cart Sample.priya) Sample.shop))).
Proof.
  intros item.
  refine (@cart_routes_keep_one_line_per_product
            Sample.gateway Sample.shop item "prod_victoria_royale"
            Sample.priya _).
  unfold lines_unique. simpl.
  repeat constructor. intros [].
Defined.

End CartShapeWitness.

(* ================================================================== *)
(** ** Reconciliation routes: what they never do *)
(* ================================================================== *)

Section TriggerOutcomes.

Variable g : Gateway.
Variable env : Environ.

Local Open Scope string_scope.
Local Open Scope list_scope.

(** Run alone, a trigger leaves the world as it is or settles the unpaid
    transaction its reference resolves to. *)
Lemma fire_world (tr : trigger) (w : World) :
  snd (run g (fire env tr) w) = w \/
  exists t,
    Mongo.find_one (target tr) (payment_transactions w) = Some t /\
    not_paid t = true /\
    confirms g env tr /\
    snd (run g (fire env tr) w) = settled tr t w.
Proof.
  destruct tr as [sid user uuid4 ua ca | oid pid sig user uuid4 ua ca];
    simpl.
  - destruct (get_checkout_status_of g sid) as [st|] eqn:Hst; simpl;
      [|now left].
    destruct (String.eqb_spec (Stripe.payment_status st) "paid")
      as [Hpaid|_]; simpl; [|now left].
    destruct (Mongo.find_one (by_session_id sid) (payment_transactions w))
      as [t|] eqn:Hfind; simpl; [|now left].
    destruct (not_paid t) eqn:Hpending; simpl; [|now left].
    right. exists t. repeat split; trivial. now exists st.
  - unfold verify_razorpay_payment.
    destruct (RAZORPAY_KEY_SECRET env) as [secret|] eqn:Hsecret;
      [|now left].
    remember (generated_signature secret oid pid) as expected eqn:Hexp.
    destruct (String.eqb_spec expected sig) as [Hsig|_]; simpl;
      [|now left].
    destruct (Mongo.find_one (by_razorpay_order_id oid)
                             (payment_transactions w))
      as [t|] eqn:Hfind; simpl; [|now left].
    destruct (not_paid t) eqn:Hpending; simpl; [|now left].
    right. exists t. repeat split; trivial. exists secret. split; congruence.
Qed.

Lemma Forall2_update_one {Doc} (R : Doc -> Doc -> Prop) q u (c : list Doc) :
  (forall d, R d d) -> (forall d, R d (u d)) ->
  Forall2 R c (Mongo.update_one q u c).
Proof.
  intros Hrefl Hu. induction c as [|x c IH]; simpl; [constructor|].
  destruct (q x); constructor; auto.
  clear IH. induction c; constructor; auto.
Qed.

Lemma snapshot_kept_refl (t : Transaction.t) : snapshot_kept t t.
Proof. unfold snapshot_kept. repeat split; trivial. Qed.

Lemma ledger_kept_refl (w : World) : ledger_kept w w.
Proof.
  unfold ledger_kept. induction (payment_transactions w); constructor;
    auto using snapshot_kept_refl.
Qed.

End TriggerOutcomes.

Section TriggerClaims.

Local Open Scope string_scope.
Local Open Scope list_scope.

(** X6. A poll or a client proof run on its own is all or nothing: either
    the world is exactly as before (gateway error, session not paid, bad
    signature or missing secret, reference unknown to the ledger, row
    already paid), or the trigger carried a confirmation, found an unpaid
    row, and all three writes were made.  A confirming trigger answers
    normally in every case, a reference the ledger does not know
    included. *)
Theorem trigger_run_alone_is_all_or_nothing
        (g : Gateway) (env : Environ) (w : World) (tr : trigger) :
  let w' := snd (run g (fire env tr) w) in
  (confirms g env tr -> fst (run g (fire env tr) w) = Ok tt) /\
  (w' = w \/
   exists t,
     Mongo.find_one (target tr) (payment_transactions w) = Some t /\
     not_paid t = true /\
     confirms g env tr /\
     w' = settled tr t w).
Proof.
  intros w'. split.
  - intros Hc. now rewrite (fire_run g env tr w Hc).
  - apply fire_world.
Qed.

(** X7. The webhook route answers every delivery and never raises: an
    event the gateway client rejects (bad signature) is answered "error"
    with the world untouched, an event that is not "paid" is answered
    "processed" with the world untouched, and a delivery repeated on the
    world the first one left changes nothing more. *)
Theorem stripe_webhook_answers_every_delivery
        (g : Gateway) (w : World) (body signature : string) :
  let answer := fst (run g (stripe_webhook body signature) w) in
  let w' := snd (run g (stripe_webhook body signature) w) in
  (answer = Ok "processed" \/ answer = Ok "error") /\
  (handle_webhook g body signature = None ->
   answer = Ok "error" /\ w' = w) /\
  (forall event,
      handle_webhook g body signature = Some event ->
      Stripe.webhook_payment_status event <> "paid" ->
      answer = Ok "processed" /\ w' = w) /\
  snd (run g (stripe_webhook body signature) w') = w'.
Proof.
  simpl.
  destruct (handle_webhook g body signature) as [event|]; simpl.
  - destruct (String.eqb_spec (Stripe.webhook_payment_status event) "paid")
      as [Hpaid|Hnot]; simpl.
    + split; [now left|]. split; [discriminate|].
      split; [intros e [= <-] H; now elim H|].
      unfold with_payment_transactions. simpl. f_equal.
      apply update_one_idempotent; [reflexivity|].
      intros d _. reflexivity.
    + split; [now left|]. split; [discriminate|].
      split; [intros e _ _; now split | reflexivity].
  - split; [now right|]. split; [now split|].
    split; [discriminate | reflexivity].
Qed.

(** X8. No reconciliation route rewrites the ledger: after a poll, a
    client proof or a webhook delivery the ledger holds the same rows in
    the same order, each with the ids, owner, amount, currency, method,
    items and creation time it had, and a row that was paid is still
    paid. *)
Theorem reconciliation_keeps_ledger_rows
        (g : Gateway) (env : Environ) (w : World) (tr : trigger)
        (body signature : string) :
  ledger_kept w (snd (run g (fire env tr) w)) /\
  ledger_kept w (snd (run g (stripe_webhook body signature) w)).
Proof.
  split.
  - destruct (fire_world g env tr w) as [-> | (t & _ & _ & _ & ->)].
    + apply ledger_kept_refl.
    + unfold ledger_kept. simpl.
      apply Forall2_update_one; [apply snapshot_kept_refl|].
      intros d. destruct tr; unfold snapshot_kept; simpl;
        repeat split; trivial.
  - simpl. destruct (handle_webhook g body signature) as [event|]; simpl;
      [|apply ledger_kept_refl].
    destruct (String.eqb (Stripe.webhook_payment_status event) "paid");
      simpl; [|apply ledger_kept_refl].
    unfold ledger_kept. simpl.
    apply Forall2_update_one; [apply snapshot_kept_refl|].
    intros d. unfold snapshot_kept; simpl; repeat split; trivial.
Qed.

End TriggerClaims.

Section InsertBudget.

Variable g : Gateway.

Local Open Scope string_scope.
Local Open Scope list_scope.

(** One command uses up at most one insert of the budget, and the order
    store grows by exactly what was used. *)
Lemma step_within_budget {A} (n : nat) (p : prog A) (w : World) :
  inserts_at_most n p ->
  (orders (snd (step g (p, w))) = orders w /\
   inserts_at_most n (fst (step g (p, w)))) \/
  (exists o n',
      n = S n' /\
      orders (snd (step g (p, w))) = orders w ++ [o] /\
      inserts_at_most n' (fst (step g (p, w)))).
Proof.
  destruct p as [a | e | R c k]; simpl; [now left | now left |].
  destruct c; simpl; intros H; unfold step; simpl;
    try (left; split; [reflexivity | apply H]).
  - destruct (Bson.cart doc); simpl; left; split; trivial; apply H.
  - destruct (Bson.transaction doc); simpl; left; split; trivial; apply H.
  - destruct n as [|n']; [contradiction|].
    right. exists doc, n'. repeat split. apply H.
  - destruct (Bson.review doc); simpl; left; split; trivial; apply H.
  - destruct (create_checkout_session g webhook_url request); simpl;
      left; split; trivial; apply H.
  - destruct (order_create g data); simpl; left; split; trivial; apply H.
Qed.

Lemma interleave_within_budget {A B} (schedule : list bool) :
  forall (n m : nat) (p : prog A) (q : prog B) (w : World),
    inserts_at_most n p ->
    inserts_at_most m q ->
    exists extra,
      orders (snd (interleave g schedule p q w)) = orders w ++ extra /\
      (List.length extra <= n + m)%nat.
Proof.
  induction schedule as [|turn rest IH]; intros n m p q w Hp Hq; simpl.
  - exists []. rewrite app_nil_r. split; [reflexivity | simpl; lia].
  - destruct turn.
    + destruct (@step_within_budget _ m q w Hq) as [[Ho Hq'] | (o & m' & -> & Ho & Hq')];
        destruct (step g (q, w)) as [q1 w1]; simpl in *.
      * destruct (IH n m p q1 w1 Hp Hq') as (extra & He & Hlen).
        exists extra. rewrite He, Ho. split; [reflexivity | simpl; lia].
      * destruct (IH n m' p q1 w1 Hp Hq') as (extra & He & Hlen).
        exists (o :: extra). rewrite He, Ho, <- app_assoc. simpl.
        split; [reflexivity | simpl; lia].
    + destruct (@step_within_budget _ n p w Hp) as [[Ho Hp'] | (o & n' & -> & Ho & Hp')];
        destruct (step g (p, w)) as [p1 w1]; simpl in *.
      * destruct (IH n m p1 q w1 Hp' Hq) as (extra & He & Hlen).
        exists extra. rewrite He, Ho. split; [reflexivity | simpl; lia].
      * destruct (IH n' m p1 q w1 Hp' Hq) as (extra & He & Hlen).
        exists (o :: extra). rewrite He, Ho, <- app_assoc. simpl.
        split; [reflexivity | simpl; lia].
Qed.

(** A trigger inserts at most one order, whatever it is answered. *)
Lemma fire_inserts_at_most_one (env : Environ) (tr : trigger) :
  inserts_at_most 1 (fire env tr).
Proof.
  destruct tr as [sid user uuid4 ua ca | oid pid sig user uuid4 ua ca];
    simpl.
  - intros [st|]; simpl; trivial.
    destruct (String.eqb (Stripe.payment_status st) "paid"); simpl; trivial.
    intros [t|]; simpl; trivial.
    destruct (not_paid t); simpl; trivial.
  - unfold verify_razorpay_payment.
    destruct (RAZORPAY_KEY_SECRET env) as [secret|]; [|exact I].
    generalize (generated_signature secret oid pid). intros expected.
    destruct (String.eqb expected sig); simpl; trivial.
    intros [t|]; simpl; trivial.
    destruct (not_paid t); simpl; trivial.
Qed.

End InsertBudget.

Section RaceBound.

Local Open Scope list_scope.

(** X9. However the commands of two reconciliation requests are
    interleaved, the orders that existed are still there, unchanged and in
    place, and at most two orders have been added. *)
Theorem two_triggers_add_at_most_two_orders
        (g : Gateway) (env : Environ) (w : World) (a b : trigger)
        (schedule : list bool) :
  exists extra,
    orders (snd (interleave g schedule (fire env a) (fire env b) w))
    = orders w ++ extra /\
    (List.length extra <= 2)%nat.
Proof.
  exact (@interleave_within_budget g _ _ schedule 1 1 (fire env a)
            (fire env b) w (fire_inserts_at_most_one env a)
            (fire_inserts_at_most_one env b)).
Qed.

End RaceBound.

(* ================================================================== *)
(** ** Checkout routes: failures and the order of effects *)
(* ================================================================== *)

Section CheckoutOutcomes.

Variable g : Gateway.
Variable env : Environ.

Local Open Scope string_scope.
Local Open Scope list_scope.

(** While the cart is being priced nothing is written: a property of the
    world that holds at the start, and at every step of what follows the
    pricing, holds at every step of the whole. *)
Lemma pricing_writes_nothing {A} (Q : World -> Prop)
      (k : float * list Line.t -> prog A) (w : World)
      (items : list CartItem.t) :
  Q w ->
  (forall r n, Q (snd (steps g n (k r, w)))) ->
  forall total details n,
    Q (snd (steps g n (bind (price_items items total details) k, w))).
Proof.
  intros Hw Hk. induction items as [|item rest IH]; intros total details n.
  - simpl. apply Hk.
  - destruct n as [|n]; [exact Hw|]. simpl. unfold step. simpl.
    destruct (Mongo.find_one (product_of (CartItem.product_id item))
                             (products w)) as [product|]; [|apply IH].
    destruct (PyFloat.of_int (CartItem.quantity item)) as [quantity|];
      [apply IH|].
    simpl. now rewrite steps_finished.
Qed.

End CheckoutOutcomes.

Section CheckoutEffects.

Local Open Scope string_scope.
Local Open Scope list_scope.

(** X10. A checkout that raises leaves no ledger row, and one that
    answers leaves exactly one.  If the route raises, the store is as
    before; the gateway is as before too (empty cart, quantity too large
    for a float, Razorpay not configured, total not convertible to paise,
    gateway failure), except where the ledger insert itself raises
    [OverflowError], which happens only when a priced line holds a
    quantity beyond 8 bytes: then the session or order was created at the
    gateway and no row records it.  If the route answers, exactly one
    session or order was created at the gateway and exactly one pending
    row, carrying its reference, was appended to the ledger; catalog,
    carts, orders and reviews are untouched. *)
Theorem failed_checkout_leaves_no_ledger_row
        (g : Gateway) (env : Environ) (w : World)
        (request : CheckoutRequest.t) (user : User.t) (uuid4 now : string) :
  let lines := priced_lines (products w) (CheckoutRequest.items request) in
  (let out := run g (create_stripe_checkout request user uuid4 now) w in
   match fst out with
   | Err e =>
       snd out = w \/
       (e = OverflowError /\ Bson.lines lines = false /\
        exists sent,
          snd out = with_stripe_sessions (fun l => l ++ [sent]) w)
   | Ok session =>
       exists sent t,
         snd out
         = with_payment_transactions (Mongo.insert_one t)
             (with_stripe_sessions (fun l => l ++ [sent]) w) /\
         Transaction.session_id t = Some (Stripe.session_id session) /\
         Transaction.payment_status t = "pending" /\
         Bson.lines lines = true
   end) /\
  (let out := run g (create_razorpay_order env request user uuid4 now) w in
   match fst out with
   | Err e =>
       snd out = w \/
       (e = OverflowError /\ Bson.lines lines = false /\
        exists sent,
          snd out = with_razorpay_orders (fun l => l ++ [sent]) w)
   | Ok handle =>
       exists sent t,
         snd out
         = with_payment_transactions (Mongo.insert_one t)
             (with_razorpay_orders (fun l => l ++ [sent]) w) /\
         Transaction.razorpay_order_id t = Some (order_id handle) /\
         Transaction.payment_status t = "pending" /\
         Bson.lines lines = true
   end).
Proof.
  intros lines. split.
  - unfold create_stripe_checkout. rewrite run_bind, price_items_run.
    fold lines.
    destruct (amounts lines) as [xs|]; simpl; [|now left].
    destruct (PyFloat.le0 _); simpl; [now left|].
    destruct (create_checkout_session g _ _) as [session|]; simpl;
      [|now left].
    unfold Bson.transaction. simpl.
    destruct (Bson.lines lines) eqn:Hfits; simpl.
    + eexists _, _. repeat split.
    + right. repeat split. eexists. reflexivity.
  - unfold create_razorpay_order.
    destruct (negb (truthy (RAZORPAY_KEY_ID env))
              || negb (truthy (RAZORPAY_KEY_SECRET env))); [now left|].
    rewrite run_bind, price_items_run. fold lines.
    destruct (amounts lines) as [xs|]; simpl; [|now left].
    destruct (PyFloat.le0 _); simpl; [now left|].
    destruct (PyFloat.to_int _) as [paise|]; simpl; [|now left].
    destruct (order_create g _) as [rp_order|]; simpl; [|now left].
    unfold Bson.transaction. simpl.
    destruct (Bson.lines lines) eqn:Hfits; simpl.
    + eexists _, _. repeat split.
    + right. repeat split. eexists. reflexivity.
Qed.

(** X11. Within one checkout the gateway comes first: after any number of
    commands of the route, either the ledger is still as it was, or the
    gateway session (Stripe) or order (Razorpay) has been created and the
    ledger has grown by exactly one row. *)
Theorem checkout_creates_the_session_before_the_ledger_row
        (g : Gateway) (env : Environ) (w : World)
        (request : CheckoutRequest.t) (user : User.t) (uuid4 now : string)
        (n : nat) :
  (let w_n :=
     snd (steps g n (create_stripe_checkout request user uuid4 now, w)) in
   payment_transactions w_n = payment_transactions w \/
   exists sent t,
     stripe_sessions w_n = stripe_sessions w ++ [sent] /\
     payment_transactions w_n = payment_transactions w ++ [t]) /\
  (let w_n :=
     snd (steps g n (create_razorpay_order env request user uuid4 now, w)) in
   payment_transactions w_n = payment_transactions w \/
   exists sent t,
     razorpay_orders w_n = razorpay_orders w ++ [sent] /\
     payment_transactions w_n = payment_transactions w ++ [t]).
Proof.
  split.
  - unfold create_stripe_checkout.
    apply (pricing_writes_nothing g
             (fun w' =>
                payment_transactions w' = payment_transactions w \/
                exists sent t,
                  stripe_sessions w' = stripe_sessions w ++ [sent] /\
                  payment_transactions w' = payment_transactions w ++ [t]));
      [now left|].
    intros [total details] m.
    destruct (PyFloat.le0 total);
      [rewrite steps_finished by reflexivity; now left|].
    destruct m as [|m]; [now left|]. simpl. unfold step. simpl.
    destruct (create_checkout_session g _ _) as [session|]; simpl;
      [|rewrite steps_finished by reflexivity; now left].
    destruct m as [|m]; [now left|]. simpl. unfold step. simpl.
    destruct (Bson.transaction _); simpl;
      rewrite steps_finished by reflexivity; [|now left].
    right. eexists _, _. now split.
  - unfold create_razorpay_order.
    destruct (negb (truthy (RAZORPAY_KEY_ID env))
              || negb (truthy (RAZORPAY_KEY_SECRET env)));
      [rewrite steps_finished by reflexivity; now left|].
    apply (pricing_writes_nothing g
             (fun w' =>
                payment_transactions w' = payment_transactions w \/
                exists sent t,
                  razorpay_orders w' = razorpay_orders w ++ [sent] /\
                  payment_transactions w' = payment_transactions w ++ [t]));
      [now left|].
    intros [total details] m.
    destruct (PyFloat.le0 total);
      [rewrite steps_finished by reflexivity; now left|].
    destruct (PyFloat.to_int _) as [paise|];
      [|rewrite steps_finished by reflexivity; now left].
    destruct m as [|m]; [now left|]. simpl. unfold step. simpl.
    destruct (order_create g _) as [rp_order|]; simpl;
      [|rewrite steps_finished by reflexivity; now left].
    destruct m as [|m]; [now left|]. simpl. unfold step. simpl.
    destruct (Bson.transaction _); simpl;
      rewrite steps_finished by reflexivity; [|now left].
    right. eexists _, _. now split.
Qed.

End CheckoutEffects.

(* ================================================================== *)
(** ** Reviews: what a new review touches *)
(* ================================================================== *)

Section ReviewEffects.

Variable g : Gateway.

Local Open Scope string_scope.
Local Open Scope list_scope.

Lemma Forall2_update_one_found {Doc} (R : Doc -> Doc -> Prop) q u
      (c : list Doc) :
  (forall d, R d d) -> (forall d, q d = true -> R d (u d)) ->
  Forall2 R c (Mongo.update_one q u c).
Proof.
  intros Hrefl Hu. induction c as [|x c IH]; simpl; [constructor|].
  destruct (q x) eqn:Hq; constructor; auto.
  clear IH. induction c; constructor; auto.
Qed.

Lemma product_kept_refl (pid : string) (p : Product.t) : product_kept pid p p.
Proof. now repeat split. Qed.

Lemma product_kept_set_rating (pid : string) (r : float) (n : Z)
      (p : Product.t) :
  product_of pid p = true -> product_kept pid p (set_rating r n p).
Proof.
  intros H. repeat split. intros H'. congruence.
Qed.

(** X12. A review is stored whenever the store can encode it, whatever
    its product: when the rating is an integer of at most 8 bytes the
    review is appended to the reviews, also when no product has the given
    id (the catalog is then unchanged); for any other rating the insert
    raises [OverflowError] and nothing at all is written.  The route
    changes nothing else but the rating and the count of the first product
    with that id: every product keeps its id, name and price, every other
    product is the same document, and carts, ledger and orders are as
    before. *)
Theorem create_review_stores_what_the_store_can_encode
        (w : World) (review : ReviewCreate.t) (user : User.t)
        (uuid4 now : string) :
  let pid := ReviewCreate.product_id review in
  let doc :=
    Review.Make uuid4 pid (User.id user) (User.name user)
                (ReviewCreate.rating review) (ReviewCreate.title review)
                (ReviewCreate.comment review) now in
  let out := run g (create_review review user uuid4 now) w in
  (if Bson.int64 (ReviewCreate.rating review)
   then reviews (snd out) = reviews w ++ [doc]
   else out = (Err OverflowError, w)) /\
  Forall2 (product_kept pid) (products w) (products (snd out)) /\
  (Mongo.find_one (product_of pid) (products w) = None ->
   products (snd out) = products w) /\
  carts (snd out) = carts w /\
  payment_transactions (snd out) = payment_transactions w /\
  orders (snd out) = orders w.
Proof.
  intros pid doc out. subst out. rewrite create_review_run.
  fold pid. fold doc.
  assert (Hsame : Forall2 (product_kept pid) (products w) (products w)).
  { clear. induction (products w); constructor;
      auto using product_kept_refl. }
  destruct (Bson.int64 (ReviewCreate.rating review)); [|now repeat split].
  destruct (mean _) as [avg|]; simpl.
  - repeat split.
    + apply Forall2_update_one_found.
      * apply product_kept_refl.
      * apply product_kept_set_rating.
    + intros Hnone. now apply update_one_no_match.
  - now repeat split.
Qed.

(** X13. After a review that the route answers, the product it rated
    shows a review count between 1 and 1000. *)
Theorem reviews_count_is_between_one_and_a_thousand
        (w : World) (review : ReviewCreate.t) (user : User.t)
        (uuid4 now : string) (answer : Review.t) (p : Product.t) :
  let pid := ReviewCreate.product_id review in
  fst (run g (create_review review user uuid4 now) w) = Ok answer ->
  Mongo.find_one (product_of pid)
                 (products (snd (run g (create_review review user uuid4 now) w)))
  = Some p ->
  (1 <= Product.reviews_count p <= 1000)%Z.
Proof.
  intros pid. rewrite create_review_run. fold pid.
  set (doc := Review.Make _ _ _ _ _ _ _ _).
  destruct (Bson.int64 _); simpl; [|discriminate].
  destruct (mean _) as [avg|]; simpl; [|discriminate].
  intros _ Hfind.
  rewrite find_one_update_one_within in Hfind;
    [|trivial|intros; apply set_rating_keeps_id].
  destruct (Mongo.find_one (product_of pid) (products w)) as [p0|] eqn:Hp0;
    [|discriminate].
  rewrite (find_one_some_matches _ _ Hp0) in Hfind.
  injection Hfind as <-. simpl.
  unfold Mongo.to_list.
  assert (Hlen : (List.length (firstn 1000 (reviews_of pid w ++ [doc]))
                  <= 1000)%nat) by apply firstn_le_length.
  assert (Hpos : firstn 1000 (reviews_of pid w ++ [doc]) <> [])
    by apply (to_list_not_empty 999).
  destruct (firstn 1000 (reviews_of pid w ++ [doc])) as [|r rs];
    [congruence|].
  simpl List.length in *. lia.
Qed.

End ReviewEffects.

Section ReviewEffectsWitness.

Local Open Scope string_scope.

Lemma reviews_count_is_between_one_and_a_thousand_witness :
  exists p,
    Mongo.find_one (product_of "prod_victoria_royale")
      (products
         (snd (run Sample.gateway
                   (create_review
                      (ReviewCreate.Make "prod_victoria_royale" 4
                                         "Fine" "Soft and clean.")
                      Sample.priya "rev-2" Sample.at_noon)
                   Sample.twice_reviewed)))
    = Some p /\
    (1 <= Product.reviews_count p <= 1000)%Z.
Proof.
  eexists. split.
  - vm_compute. reflexivity.
  - apply (@reviews_count_is_between_one_and_a_thousand
             Sample.gateway Sample.twice_reviewed
             (ReviewCreate.Make "prod_victoria_royale" 4
                                "Fine" "Soft and clean.")
             Sample.priya "rev-2" Sample.at_noon
             (Review.Make "rev-2" "prod_victoria_royale" "user-1" "Priya" 4
                          "Fine" "Soft and clean." Sample.at_noon)).
    + vm_compute. reflexivity.
    + vm_compute. reflexivity.
Defined.

End ReviewEffectsWitness.

(* ================================================================== *)
(** ** The shape of a payment signature *)
(* ================================================================== *)

Section SignatureShape.

Local Open Scope Z_scope.

Lemma be_bytes_length (n : nat) (x : Z) :
  List.length (Sha256.be_bytes n x) = n.
Proof. induction n as [|n IH]; simpl; [|rewrite IH]; reflexivity. Qed.

Lemma be_bytes_are_bytes (n : nat) (x : Z) :
  Forall (fun b => 0 <= b < 256) (Sha256.be_bytes n x).
Proof.
  induction n as [|n IH]; simpl; constructor; trivial.
  apply Z.mod_pos_bound. lia.
Qed.

Lemma digest_length (msg : list Z) : List.length (Sha256.digest msg) = 32%nat.
Proof.
  unfold Sha256.digest. cbv zeta. cbn [flat_map].
  rewrite !length_app, !be_bytes_length. reflexivity.
Qed.

Lemma digest_is_bytes (msg : list Z) :
  Forall (fun b => 0 <= b < 256) (Sha256.digest msg).
Proof.
  unfold Sha256.digest. cbv zeta. cbn [flat_map].
  repeat (apply Forall_app; split; [apply be_bytes_are_bytes|]).
  constructor.
Qed.

Lemma hex_length (bs : list Z) :
  String.length (Sha256.hex bs) = (2 * List.length bs)%nat.
Proof. induction bs as [|b bs IH]; simpl; [reflexivity|rewrite IH; lia]. Qed.

Lemma hex_digit_is_hex (n : Z) :
  0 <= n < 16 -> is_hex_digit (Sha256.hex_digit n) = true.
Proof.
  intros H.
  assert (Hdigits : forall k : nat,
             (k < 16)%nat ->
             is_hex_digit (Sha256.hex_digit (Z.of_nat k)) = true).
  { intros k Hk. do 16 (destruct k as [|k]; [reflexivity|]). lia. }
  rewrite <- (Z2Nat.id n) by lia. apply Hdigits. lia.
Qed.

Lemma hex_is_hex (bs : list Z) :
  Forall (fun b => 0 <= b < 256) bs ->
  forallb is_hex_digit (list_ascii_of_string (Sha256.hex bs)) = true.
Proof.
  induction 1 as [|b bs Hb _ IH]; [reflexivity|].
  cbn [Sha256.hex list_ascii_of_string forallb]. rewrite IH.
  rewrite !hex_digit_is_hex; [reflexivity| |].
  - apply Z.mod_pos_bound. lia.
  - split; [apply Z.div_pos; lia|apply Z.div_lt_upper_bound; lia].
Qed.

Lemma generated_signature_is_hexdigest (secret oid pid : string) :
  is_hexdigest (generated_signature secret oid pid) = true.
Proof.
  unfold is_hexdigest, generated_signature, Sha256.hmac_hexdigest,
    Sha256.hmac. cbv zeta.
  rewrite hex_length, digest_length, hex_is_hex by apply digest_is_bytes.
  reflexivity.
Qed.

End SignatureShape.

Section SignatureShapeClaim.

Local Open Scope string_scope.

(** X14. The signature the server computes is always 64 lower-case
    hexadecimal characters, so a supplied signature of any other shape
    (another length, upper-case digits, surrounding blanks) is rejected
    with HTTP 400 and nothing is written, whatever the order and payment
    ids. *)
Theorem verify_rejects_what_is_no_hexdigest
        (g : Gateway) (env : Environ) (w : World) (secret : string)
        (oid pid sig : string) (user : User.t)
        (uuid4 updated_at created_at : string) :
  RAZORPAY_KEY_SECRET env = Some secret ->
  is_hexdigest sig = false ->
  is_hexdigest (generated_signature secret oid pid) = true /\
  run g (verify_razorpay_payment env oid pid sig user uuid4
                                 updated_at created_at) w
  = (Err (HTTPException 400 "Invalid payment signature"), w).
Proof.
  intros Hsecret Hshape.
  pose proof (generated_signature_is_hexdigest secret oid pid) as Hgen.
  split; [exact Hgen|].
  unfold verify_razorpay_payment. rewrite Hsecret.
  revert Hgen. generalize (generated_signature secret oid pid).
  intros expected Hgen.
  destruct (String.eqb_spec expected sig) as [->|_]; [congruence|].
  reflexivity.
Qed.

Lemma verify_rejects_what_is_no_hexdigest_witness :
  is_hexdigest
    (generated_signature "rzp_test_secret" "order_1" "pay_1") = true /\
  run Sample.gateway
      (verify_razorpay_payment Sample.env "order_1" "pay_1"
         "2B1C9D7E" Sample.priya "order-a" Sample.at_noon Sample.at_noon)
      Sample.awaiting_razorpay
  = (Err (HTTPException 400 "Invalid payment signature"),
     Sample.awaiting_razorpay).
Proof.
  apply (@verify_rejects_what_is_no_hexdigest
           Sample.gateway Sample.env Sample.awaiting_razorpay
           "rzp_test_secret" "order_1" "pay_1" "2B1C9D7E" Sample.priya
           "order-a" Sample.at_noon Sample.at_noon).
  - reflexivity.
  - vm_compute. reflexivity.
Defined.

End SignatureShapeClaim.

(* ================================================================== *)
(** ** Two additions to one cart at once *)
(* ================================================================== *)

Section RacingAdds.

Variable g : Gateway.

Local Open Scope string_scope.
Local Open Scope list_scope.



End RacingAdds.

Section RacingAddsWitness.

Local Open Scope string_scope.
Local Open Scope list_scope.


End RacingAddsWitness.

(* ================================================================== *)
(** ** The cart as the customer sees it *)
(* ================================================================== *)

Section CartView.

Variable g : Gateway.
Variable env : Environ.

Local Open Scope string_scope.
Local Open Scope list_scope.

(** The loop of [get_cart] reads the catalog only; it sums as the pricing
    loop of the checkout routes does. *)
Lemma cart_details_run (items : list CartItem.t) (w : World) :
  forall total details,
    run g (cart_details items total details) w =
    match amounts (priced_lines (products w) items) with
    | Some xs =>
        (Ok (details ++ cart_entries (products w) items,
             fold_left PrimFloat.add xs total), w)
    | None => (Err OverflowError, w)
    end.
Proof.
  induction items as [|item rest IH]; intros total details; simpl.
  - now rewrite app_nil_r.
  - unfold catalog_line, cart_entry.
    destruct (Mongo.find_one (product_of (CartItem.product_id item))
                             (products w)) as [p|]; simpl.
    + unfold line_amount; simpl.
      destruct (PyFloat.of_int (CartItem.quantity item)) as [q|]; simpl;
        [|reflexivity].
      rewrite IH.
      destruct (amounts (priced_lines (products w) rest)); simpl;
        [|reflexivity].
      now rewrite <- app_assoc.
    + apply IH.
Qed.

Lemma cart_entries_are_priced_lines (catalog : list Product.t)
      (items : list CartItem.t) :
  map line_shown (cart_entries catalog items) = priced_lines catalog items.
Proof.
  induction items as [|item rest IH]; [reflexivity|].
  unfold cart_entries, priced_lines in *. simpl.
  rewrite map_app, IH. f_equal.
  unfold cart_entry, catalog_line.
  now destruct (Mongo.find_one _ catalog).
Qed.

Lemma not_grown {B} (l : list B) (x : B) : l = l ++ [x] -> False.
Proof.
  intros H. apply (f_equal (@List.length B)) in H.
  rewrite length_app in H. simpl in H. lia.
Qed.

Lemma get_cart_run (w : World) (user : User.t) (c : Cart.t) :
  Mongo.find_one (cart_of (User.id user)) (carts w) = Some c ->
  run g (get_cart user) w =
  match amounts (priced_lines (products w) (Cart.items c)) with
  | Some xs =>
      (Ok (cart_entries (products w) (Cart.items c),
           PyFloat.round (fold_left PrimFloat.add xs 0%float) 2), w)
  | None => (Err OverflowError, w)
  end.
Proof.
  intros Hcart. unfold get_cart. simpl. rewrite Hcart.
  rewrite run_bind, cart_details_run.
  now destruct (amounts _).
Qed.

(** X16. The cart page and the checkout agree.  When a checkout of
    either gateway, requested with the lines of the customer's cart,
    appends a row to the ledger, [GET /cart] in the same store answers
    with the row's amount rounded to two decimals as its total and with
    the row's items as its lines (same products, names, prices and
    quantities, products the catalog lacks left out); it writes
    nothing. *)
Theorem cart_shows_the_checkout_amount_rounded
        (w : World) (user : User.t) (c : Cart.t)
        (request : CheckoutRequest.t) (uuid4 now : string)
        (t : Transaction.t) :
  Mongo.find_one (cart_of (User.id user)) (carts w) = Some c ->
  CheckoutRequest.items request = Cart.items c ->
  payment_transactions
    (snd (run g (create_stripe_checkout request user uuid4 now) w))
  = payment_transactions w ++ [t] \/
  payment_transactions
    (snd (run g (create_razorpay_order env request user uuid4 now) w))
  = payment_transactions w ++ [t] ->
  exists shown,
    run g (get_cart user) w
    = (Ok (shown, PyFloat.round (Transaction.amount t) 2), w) /\
    map line_shown shown = Transaction.items t.
Proof.
  intros Hcart Hitems Hrow.
  rewrite (get_cart_run w user Hcart).
  exists (cart_entries (products w) (Cart.items c)).
  rewrite cart_entries_are_priced_lines.
  destruct Hrow as [Hrow|Hrow]; revert Hrow.
  - unfold create_stripe_checkout.
    rewrite run_bind, price_items_run, Hitems.
    destruct (amounts _) as [xs|]; simpl;
      [|intros H; destruct (@not_grown _ _ _ H)].
    destruct (PyFloat.le0 _); simpl; [intros H; destruct (@not_grown _ _ _ H)|].
    destruct (create_checkout_session g _ _) as [session|]; simpl;
      [|intros H; destruct (@not_grown _ _ _ H)].
    destruct (Bson.transaction _); simpl;
      [|intros H; destruct (@not_grown _ _ _ H)].
    unfold Mongo.insert_one. intros H. apply app_inv_head in H.
    injection H as <-. simpl. now split.
  - unfold create_razorpay_order.
    destruct (negb (truthy (RAZORPAY_KEY_ID env))
              || negb (truthy (RAZORPAY_KEY_SECRET env)));
      [simpl; intros H; destruct (@not_grown _ _ _ H)|].
    rewrite run_bind, price_items_run, Hitems.
    destruct (amounts _) as [xs|]; simpl;
      [|intros H; destruct (@not_grown _ _ _ H)].
    destruct (PyFloat.le0 _); simpl; [intros H; destruct (@not_grown _ _ _ H)|].
    destruct (PyFloat.to_int _) as [paise|]; simpl;
      [|intros H; destruct (@not_grown _ _ _ H)].
    destruct (order_create g _) as [rp_order|]; simpl;
      [|intros H; destruct (@not_grown _ _ _ H)].
    destruct (Bson.transaction _); simpl;
      [|intros H; destruct (@not_grown _ _ _ H)].
    unfold Mongo.insert_one. intros H. apply app_inv_head in H.
    injection H as <-. simpl. now split.
Qed.

End CartView.

Section CartViewWitness.

Local Open Scope string_scope.
Local Open Scope list_scope.

Lemma cart_shows_the_checkout_amount_rounded_witness :
  exists shown,
    run Sample.gateway (get_cart Sample.priya) Sample.shop
    = (Ok (shown, PyFloat.round 600 2), Sample.shop) /\
    map line_shown shown = Sample.lines.
Proof.
  apply (@cart_shows_the_checkout_amount_rounded
           Sample.gateway Sample.env Sample.shop Sample.priya
           (Cart.Make "user-1" [CartItem.Make "prod_victoria_royale" 2])
           (CheckoutRequest.Make [CartItem.Make "prod_victoria_royale" 2]
                                 "https://shop.example")
           "txn-1" Sample.at_ten Sample.pending_stripe).
  - reflexivity.
  - reflexivity.
  - left. vm_compute. reflexivity.
Defined.

End CartViewWitness.

(* ================================================================== *)
(** ** Orders, wishlists, the newsletter and accounts *)
(* ================================================================== *)

Section MoreListFacts.

Variable Doc : Type.
Implicit Types (q : Doc -> bool) (u : Doc -> Doc) (c : list Doc).

Lemma find_one_nowhere q c :
  (forall x, In x c -> q x = false) -> Mongo.find_one q c = None.
Proof.
  induction c as [|x c IH]; intros H; simpl; [reflexivity|].
  rewrite (H x) by now left. apply IH. intros y Hy. apply H. now right.
Qed.

Lemma update_one_app_none q u c x :
  Mongo.find_one q c = None ->
  Mongo.update_one q u (c ++ [x]) = c ++ [if q x then u x else x].
Proof.
  induction c as [|y c IH]; simpl.
  - now destruct (q x).
  - destruct (q y); [discriminate|]. intros H. now rewrite IH.
Qed.

Lemma In_to_list (n : nat) c x : In x (Mongo.to_list n c) -> In x c.
Proof.
  unfold Mongo.to_list. revert c.
  induction n as [|n IH]; intros [|y c]; simpl; try tauto.
  intros [H|H]; [now left|right; now apply IH].
Qed.

End MoreListFacts.

Section SetFacts.

Local Open Scope list_scope.

Lemma in_spec (values : list string) (x : string) :
  in_ values x = true <-> In x values.
Proof.
  unfold in_. rewrite existsb_exists. split.
  - intros (y & Hy & Heq). apply String.eqb_eq in Heq. now subst.
  - intros H. exists x. split; [exact H|apply String.eqb_refl].
Qed.

Lemma not_in_spec (values : list string) (x : string) :
  in_ values x = false <-> ~ In x values.
Proof.
  rewrite <- in_spec. destruct (in_ values x); split; congruence.
Qed.

Lemma add_to_set_in (x : string) (arr : list string) :
  In x (add_to_set x arr).
Proof.
  unfold add_to_set. fold (in_ arr x).
  destruct (in_ arr x) eqn:H; [now apply in_spec|].
  apply in_or_app. right. now left.
Qed.

Lemma add_to_set_twice (x : string) (arr : list string) :
  add_to_set x (add_to_set x arr) = add_to_set x arr.
Proof.
  pose proof (add_to_set_in x arr) as H. apply in_spec in H.
  unfold add_to_set at 1. fold (in_ (add_to_set x arr) x). now rewrite H.
Qed.

Lemma add_to_set_NoDup (x : string) (arr : list string) :
  NoDup arr -> NoDup (add_to_set x arr).
Proof.
  intros H. unfold add_to_set. fold (in_ arr x).
  destruct (in_ arr x) eqn:Hin; [exact H|].
  apply NoDup_snoc; [exact H|now apply not_in_spec].
Qed.

Lemma pull_out (x : string) (arr : list string) :
  ~ In x (Mongo.pull (String.eqb x) arr).
Proof.
  unfold Mongo.pull. rewrite filter_In. intros [_ H].
  now rewrite String.eqb_refl in H.
Qed.

Lemma pull_others (x y : string) (arr : list string) :
  y <> x -> (In y (Mongo.pull (String.eqb x) arr) <-> In y arr).
Proof.
  intros Hne. unfold Mongo.pull. rewrite filter_In.
  destruct (String.eqb_spec x y); [congruence|]. simpl. tauto.
Qed.

Lemma pull_absent (x : string) (arr : list string) :
  ~ In x arr -> Mongo.pull (String.eqb x) arr = arr.
Proof.
  unfold Mongo.pull. induction arr as [|y arr IH]; simpl; [reflexivity|].
  intros H. destruct (String.eqb_spec x y) as [->|_]; simpl.
  - destruct H. now left.
  - f_equal. apply IH. tauto.
Qed.

Lemma pull_add_to_set (x : string) (arr : list string) :
  ~ In x arr -> Mongo.pull (String.eqb x) (add_to_set x arr) = arr.
Proof.
  intros H. unfold add_to_set. fold (in_ arr x).
  rewrite (proj2 (not_in_spec arr x) H).
  unfold Mongo.pull. rewrite filter_app. fold (Mongo.pull (String.eqb x) arr).
  rewrite (@pull_absent _ _ H). simpl. rewrite String.eqb_refl. simpl.
  apply app_nil_r.
Qed.

End SetFacts.

Section OrderLookup.

Variable g : Gateway.
Variable env : Environ.

Local Open Scope string_scope.
Local Open Scope list_scope.

Lemma order_for_owner (tr : trigger) (t : Transaction.t) :
  Order.user_id (order_for tr t) = Transaction.user_id t.
Proof. now destruct tr. Qed.

(** X17. An order made by a payment confirmation can be fetched by the
    customer of the ledger row, and by nobody else.  When a confirming
    poll or verification settles an unpaid row and inserts the order
    under an id no earlier order has, [GET /orders/{id}] answers that
    order to the row's customer and 404 to every other user, also to the
    one who sent the confirmation if that is somebody else. *)
Theorem settled_order_is_shown_to_its_customer_only
        (db : Db) (tr : trigger) (t : Transaction.t) (reader : User.t) :
  confirms g env tr ->
  Mongo.find_one (target tr) (payment_transactions (world db)) = Some t ->
  not_paid t = true ->
  (forall o, In o (orders (world db)) ->
             Order.id o <> Order.id (order_for tr t)) ->
  let db' := snd (on_world g (fire env tr) db) in
  get_order (Order.id (order_for tr t)) reader db'
  = (if String.eqb (Transaction.user_id t) (User.id reader)
     then Ok (order_for tr t)
     else Err (HTTPException 404 "Order not found"),
     db').
Proof.
  intros Hconfirms Hfind Hpending Hfresh db'. subst db'.
  unfold on_world, get_order. simpl.
  rewrite (@fire_run g env tr (world db) Hconfirms), Hfind, Hpending.
  simpl. unfold Mongo.insert_one.
  rewrite find_one_app_none.
  - unfold order_of. rewrite String.eqb_refl, order_for_owner. simpl.
    now destruct (String.eqb (Transaction.user_id t) (User.id reader)).
  - apply find_one_nowhere. intros o Ho. unfold order_of.
    destruct (String.eqb_spec (Order.id o) (Order.id (order_for tr t)))
      as [Heq|_]; [|reflexivity].
    destruct (Hfresh o Ho Heq).
Qed.

End OrderLookup.

Section OrderLookupWitness.

Local Open Scope string_scope.

Lemma settled_order_is_shown_to_its_customer_only_witness :
  let db := MkDb Sample.awaiting_stripe [] [] [] in
  let db' := snd (on_world Sample.gateway (fire Sample.env Sample.poll_a) db) in
  get_order "order-a" (User.Make "user-2" "Asha") db'
  = (Err (HTTPException 404 "Order not found"), db').
Proof.
  apply (@settled_order_is_shown_to_its_customer_only
           Sample.gateway Sample.env
           (MkDb Sample.awaiting_stripe [] [] []) Sample.poll_a
           Sample.pending_stripe (User.Make "user-2" "Asha")).
  - exists (Stripe.Status "complete" "paid" 723 "usd"). now split.
  - reflexivity.
  - reflexivity.
  - intros o [].
Defined.

End OrderLookupWitness.

Section Wishlists.

Local Open Scope string_scope.
Local Open Scope list_scope.

Lemma wishlist_of_set_product_ids (uid : string) f (d : Wishlist.t) :
  wishlist_of uid (set_product_ids f d) = wishlist_of uid d.
Proof. reflexivity. Qed.

Lemma wished_after_add (product_id : string) (user : User.t) (db : Db) :
  wished (User.id user) (snd (add_to_wishlist product_id user db))
  = add_to_set product_id (wished (User.id user) db).
Proof.
  unfold wished, add_to_wishlist. simpl. unfold update_one_upsert.
  destruct (Mongo.find_one (wishlist_of (User.id user)) (wishlists db))
    as [d|] eqn:Hd.
  - erewrite find_one_update_one;
      [reflexivity|exact Hd|exact (find_one_some_matches _ _ Hd)].
  - unfold Mongo.insert_one. rewrite find_one_app_none by exact Hd.
    unfold wishlist_of at 1. simpl. now rewrite String.eqb_refl.
Qed.

(** X18. Adding to the wishlist makes the product listed, once: after
    [POST /wishlist/add/{product_id}] the customer's wishlist holds the
    product (the list is created when the customer had none), a second
    addition of the same product changes nothing, no wishlist that listed
    every product once lists one twice, and the wishlists of other
    customers and all other collections are as before. *)
Theorem add_to_wishlist_lists_the_product_once
        (product_id : string) (user : User.t) (db : Db) :
  wishlists_unique db ->
  let db' := snd (add_to_wishlist product_id user db) in
  wished (User.id user) db' = add_to_set product_id (wished (User.id user) db)
  /\ In product_id (wished (User.id user) db')
  /\ snd (add_to_wishlist product_id user db') = db'
  /\ wishlists_unique db'
  /\ wishlists_of_others (User.id user) db'
     = wishlists_of_others (User.id user) db
  /\ world db' = world db /\ users db' = users db
  /\ newsletter db' = newsletter db.
Proof.
  intros Huniq db'. subst db'.
  split; [apply wished_after_add|].
  split; [rewrite wished_after_add; apply add_to_set_in|].
  unfold wishlists_unique, wishlists_of_others, add_to_wishlist in *.
  simpl. unfold update_one_upsert, with_wishlists. simpl.
  set (uid := User.id user) in *.
  set (u := set_product_ids (add_to_set product_id)).
  destruct (Mongo.find_one (wishlist_of uid) (wishlists db)) as [d|] eqn:Hd.
  - assert (Hafter :
      Mongo.find_one (wishlist_of uid)
                     (Mongo.update_one (wishlist_of uid) u (wishlists db))
      = Some (u d)).
    { apply find_one_update_one; [exact Hd|].
      exact (find_one_some_matches _ _ Hd). }
    rewrite Hafter. repeat split.
    + f_equal.
      apply update_one_idempotent; [reflexivity|].
      intros x _. unfold u, set_product_ids. simpl.
      now rewrite add_to_set_twice.
    + apply update_one_keeps; [|exact Huniq].
      intros x Hx. now apply add_to_set_NoDup.
    + apply filter_update_one; intros x Hx; simpl.
      * now rewrite Hx.
      * unfold u. now rewrite wishlist_of_set_product_ids, Hx.
  - assert (Hfresh : wishlist_of uid (Wishlist.Make uid [product_id]) = true)
      by apply String.eqb_refl.
    unfold Mongo.insert_one.
    rewrite find_one_app_none by exact Hd. rewrite Hfresh. repeat split.
    + f_equal.
      rewrite update_one_app_none by exact Hd. rewrite Hfresh.
      unfold u, set_product_ids, add_to_set. simpl.
      now rewrite String.eqb_refl.
    + apply Forall_app. split; [exact Huniq|].
      repeat constructor. simpl. tauto.
    + rewrite filter_app. simpl. rewrite Hfresh. simpl. apply app_nil_r.
Qed.

(** X19. Removing from the wishlist takes the product off and nothing
    else: after [DELETE /wishlist/remove/{product_id}] the customer's
    wishlist does not hold the product and holds every other product it
    held; no wishlist is created or deleted; a second removal changes
    nothing; removing a product right after adding it gives back the list
    as it was, if the product was not on it; other customers' wishlists
    are untouched. *)
Theorem remove_from_wishlist_takes_the_product_off
        (product_id : string) (user : User.t) (db : Db) :
  let db' := snd (remove_from_wishlist product_id user db) in
  wished (User.id user) db'
  = Mongo.pull (String.eqb product_id) (wished (User.id user) db)
  /\ ~ In product_id (wished (User.id user) db')
  /\ (forall other, other <> product_id ->
        (In other (wished (User.id user) db') <->
         In other (wished (User.id user) db)))
  /\ map Wishlist.user_id (wishlists db') = map Wishlist.user_id (wishlists db)
  /\ snd (remove_from_wishlist product_id user db') = db'
  /\ (~ In product_id (wished (User.id user) db) ->
      wished (User.id user)
             (snd (remove_from_wishlist product_id user
                     (snd (add_to_wishlist product_id user db))))
      = wished (User.id user) db)
  /\ wishlists_of_others (User.id user) db'
     = wishlists_of_others (User.id user) db.
Proof.
  intros db'.
  assert (Hwished : forall d0 : Db,
    wished (User.id user) (snd (remove_from_wishlist product_id user d0))
    = Mongo.pull (String.eqb product_id) (wished (User.id user) d0)).
  { intros d0. unfold wished, remove_from_wishlist. simpl.
    rewrite find_one_update_one_within;
      [|trivial|intros; apply wishlist_of_set_product_ids].
    destruct (Mongo.find_one (wishlist_of (User.id user)) (wishlists d0))
      as [d|] eqn:Hd; [|reflexivity].
    now rewrite (find_one_some_matches _ _ Hd). }
  split; [apply Hwished|]. split; [|split; [|split; [|split; [|split]]]].
  - subst db'. rewrite Hwished. apply pull_out.
  - intros other Hother. subst db'. rewrite Hwished.
    now apply pull_others.
  - subst db'. unfold remove_from_wishlist. simpl.
    now apply update_one_map.
  - subst db'. unfold remove_from_wishlist, with_wishlists. simpl. f_equal.
    apply update_one_idempotent; [reflexivity|].
    intros x _. unfold set_product_ids. simpl. now rewrite pull_idempotent.
  - intros Habsent. rewrite Hwished, wished_after_add.
    now apply pull_add_to_set.
  - subst db'. unfold wishlists_of_others, remove_from_wishlist. simpl.
    apply filter_update_one; intros x Hx; simpl.
    + now rewrite Hx.
    + now rewrite wishlist_of_set_product_ids, Hx.
Qed.

End Wishlists.

Section WishlistsWitness.

Local Open Scope string_scope.
Local Open Scope list_scope.

Lemma add_to_wishlist_lists_the_product_once_witness :
  let db := MkDb Sample.shop [] [Wishlist.Make "user-1" ["prod_jasmine_bloom"]]
                 [] in
  let db' := snd (add_to_wishlist "prod_victoria_royale" Sample.priya db) in
  wished "user-1" db'
  = add_to_set "prod_victoria_royale" (wished "user-1" db)
  /\ In "prod_victoria_royale" (wished "user-1" db')
  /\ snd (add_to_wishlist "prod_victoria_royale" Sample.priya db') = db'
  /\ wishlists_unique db'
  /\ wishlists_of_others "user-1" db' = wishlists_of_others "user-1" db
  /\ world db' = world db /\ users db' = users db
  /\ newsletter db' = newsletter db.
Proof.
  apply (@add_to_wishlist_lists_the_product_once
           "prod_victoria_royale" Sample.priya
           (MkDb Sample.shop []
                 [Wishlist.Make "user-1" ["prod_jasmine_bloom"]] [])).
  repeat constructor. simpl. tauto.
Defined.

End WishlistsWitness.

Section WishlistView.

Local Open Scope string_scope.
Local Open Scope list_scope.

(** X20. The wishlist page shows catalog products only.  [GET /wishlist]
    answers at most 100 products, each one a product of the catalog whose
    id is on the customer's wishlist; an id the catalog does not have
    gives no entry; when no more than 100 catalog products are on the
    wishlist, all of them are shown; a customer without a wishlist gets
    the empty list.  Nothing is written. *)
Theorem get_wishlist_shows_catalog_products_on_the_list
        (user : User.t) (db : Db) :
  exists items,
    get_wishlist user db = (Ok items, db) /\
    (List.length items <= 100)%nat /\
    (forall p, In p items ->
               In p (products (world db)) /\
               In (Product.id p) (wished (User.id user) db)) /\
    ((List.length
        (Mongo.find (on_wishlist (wished (User.id user) db))
                    (products (world db))) <= 100)%nat ->
     forall p, In p (products (world db)) ->
               In (Product.id p) (wished (User.id user) db) ->
               In p items) /\
    (Mongo.find_one (wishlist_of (User.id user)) (wishlists db) = None ->
     items = []).
Proof.
  unfold get_wishlist, wished.
  destruct (Mongo.find_one (wishlist_of (User.id user)) (wishlists db))
    as [d|].
  - eexists. split; [reflexivity|]. repeat split.
    + unfold Mongo.to_list. apply firstn_le_length.
    + apply In_to_list in H. unfold Mongo.find in H.
      now apply filter_In in H.
    + apply In_to_list in H. unfold Mongo.find in H.
      apply filter_In in H. now apply in_spec.
    + intros Hcap p Hp Hid. unfold Mongo.to_list.
      rewrite firstn_all2 by exact Hcap.
      unfold Mongo.find. apply filter_In. split; [exact Hp|].
      now apply in_spec.
    + discriminate.
  - exists []. split; [reflexivity|].
    split; [simpl; lia|]. split; [intros p []|].
    split; [|reflexivity].
    intros _ p _ Hid. destruct Hid.
Qed.

End WishlistView.

Section Newsletter.

Local Open Scope string_scope.
Local Open Scope list_scope.

Lemma not_subscribed (email : string) (l : list Subscriber.t) :
  Mongo.find_one (subscribed email) l = None ->
  ~ In email (map Subscriber.email l).
Proof.
  intros Hnone Hin. apply in_map_iff in Hin. destruct Hin as (s & Hs & Hin).
  pose proof (find_one_none_forall _ _ s Hnone Hin) as H.
  unfold subscribed in H. rewrite Hs, String.eqb_refl in H. discriminate.
Qed.

(** X21. Subscribing is idempotent.  After [POST /newsletter/subscribe]
    the address is subscribed; the store has grown by at most one
    document; subscribing the same address again answers "Already
    subscribed" and writes nothing; and a newsletter without duplicate
    addresses stays without. *)
Theorem subscribing_again_changes_nothing
        (email uuid4 now uuid4' now' : string) (db : Db) :
  subscribers_unique db ->
  let db1 := snd (subscribe_newsletter email uuid4 now db) in
  In email (map Subscriber.email (newsletter db1)) /\
  (exists extra, newsletter db1 = newsletter db ++ extra /\
                 (List.length extra <= 1)%nat) /\
  subscribe_newsletter email uuid4' now' db1
  = (Ok "Already subscribed", db1) /\
  subscribers_unique db1.
Proof.
  intros Huniq db1. subst db1.
  unfold subscribe_newsletter, subscribers_unique in *.
  destruct (Mongo.find_one (subscribed email) (newsletter db)) as [s|] eqn:Hs;
    simpl.
  - repeat split.
    + apply in_map_iff. exists s. split.
      * pose proof (find_one_some_matches _ _ Hs) as H.
        now apply String.eqb_eq in H.
      * rewrite find_one_is_find in Hs. now apply find_some in Hs.
    + exists []. rewrite app_nil_r. split; [reflexivity|simpl; lia].
    + now rewrite Hs.
    + exact Huniq.
  - unfold Mongo.insert_one. repeat split.
    + rewrite map_app. apply in_or_app. right. now left.
    + eexists. split; [reflexivity|simpl; lia].
    + rewrite find_one_app_none by exact Hs.
      unfold subscribed at 1. simpl. now rewrite String.eqb_refl.
    + rewrite map_app. apply NoDup_snoc; [exact Huniq|].
      now apply not_subscribed.
Qed.

End Newsletter.

Section NewsletterWitness.

Local Open Scope string_scope.
Local Open Scope list_scope.

Lemma subscribing_again_changes_nothing_witness :
  let db := MkDb Sample.shop [] [] [] in
  let db1 :=
    snd (subscribe_newsletter "priya@example.com" "sub-1" Sample.at_ten db) in
  In "priya@example.com" (map Subscriber.email (newsletter db1)) /\
  (exists extra, newsletter db1 = newsletter db ++ extra /\
                 (List.length extra <= 1)%nat) /\
  subscribe_newsletter "priya@example.com" "sub-2" Sample.at_noon db1
  = (Ok "Already subscribed", db1) /\
  subscribers_unique db1.
Proof.
  apply (@subscribing_again_changes_nothing
           "priya@example.com" "sub-1" Sample.at_ten "sub-2" Sample.at_noon
           (MkDb Sample.shop [] [] [])).
  constructor.
Defined.

End NewsletterWitness.

Section Accounts.

Variable g : Gateway.

Local Open Scope string_scope.
Local Open Scope list_scope.

Lemma not_registered (email : string) (l : list Account.t) :
  Mongo.find_one (by_email email) l = None ->
  ~ In email (map Account.email l).
Proof.
  intros Hnone Hin. apply in_map_iff in Hin. destruct Hin as (s & Hs & Hin).
  pose proof (find_one_none_forall _ _ s Hnone Hin) as H.
  unfold by_email in H. rewrite Hs, String.eqb_refl in H. discriminate.
Qed.

(** X22. Registration takes an address once.  With an address some user
    already has, [POST /auth/register] answers HTTP 400 and writes
    nothing.  Otherwise it appends one user with the given address, name,
    phone and password hash, one empty cart and one empty wishlist, all
    three under the new id, which the answer carries; the newsletter is
    left alone.  Either way, users with pairwise different addresses
    stay so. *)
Theorem register_takes_an_address_once
        (user : UserCreate.t) (uuid4 hashed now token : string) (db : Db) :
  emails_unique db ->
  let out := register user uuid4 hashed now token db in
  emails_unique (snd out) /\
  match fst out with
  | Err e =>
      e = HTTPException 400 "Email already registered" /\
      In (UserCreate.email user) (map Account.email (users db)) /\
      snd out = db
  | Ok session =>
      ~ In (UserCreate.email user) (map Account.email (users db)) /\
      users (snd out)
      = users db ++ [Account.Make uuid4 (UserCreate.email user) hashed
                                  (UserCreate.name user)
                                  (UserCreate.phone user) now] /\
      carts (world (snd out))
      = carts (world db) ++ [Cart.Make uuid4 []] /\
      wishlists (snd out) = wishlists db ++ [Wishlist.Make uuid4 []] /\
      session = Session.Make token uuid4 (UserCreate.email user)
                             (UserCreate.name user) (UserCreate.phone user) /\
      newsletter (snd out) = newsletter db /\
      orders (world (snd out)) = orders (world db) /\
      payment_transactions (world (snd out))
      = payment_transactions (world db)
  end.
Proof.
  intros Huniq out. subst out. unfold register, emails_unique in *.
  destruct (Mongo.find_one (by_email (UserCreate.email user)) (users db))
    as [u|] eqn:Hu; simpl.
  - split; [exact Huniq|]. repeat split.
    apply in_map_iff. exists u. split.
    + pose proof (find_one_some_matches _ _ Hu) as H.
      now apply String.eqb_eq in H.
    + rewrite find_one_is_find in Hu. now apply find_some in Hu.
  - unfold Mongo.insert_one. split.
    + rewrite map_app. apply NoDup_snoc; [exact Huniq|].
      now apply not_registered.
    + repeat split. now apply not_registered.
Qed.

(** X23. After a registration that succeeded, a login with the same
    address is decided by the password check against the hash stored at
    that registration: accepted (with the new user's id, address, name
    and phone) when bcrypt accepts the password, HTTP 401 when it does
    not.  Logging in writes nothing. *)
Theorem login_checks_the_hash_stored_at_registration
        (checkpw : string -> string -> option bool)
        (user : UserCreate.t) (uuid4 hashed now token : string) (db : Db)
        (registered : Session.t) (password token' : string) :
  fst (register user uuid4 hashed now token db) = Ok registered ->
  let db' := snd (register user uuid4 hashed now token db) in
  login checkpw (UserLogin.Make (UserCreate.email user) password) token' db'
  = (match checkpw password hashed with
     | Some true =>
         Ok (Session.Make token' uuid4 (UserCreate.email user)
                          (UserCreate.name user) (UserCreate.phone user))
     | Some false => Err (HTTPException 401 "Invalid email or password")
     | None => Err ValueError
     end, db').
Proof.
  unfold register, login.
  destruct (Mongo.find_one (by_email (UserCreate.email user)) (users db))
    as [u|] eqn:Hu; simpl; [discriminate|].
  intros _. unfold Mongo.insert_one.
  rewrite find_one_app_none by exact Hu.
  unfold by_email at 1. simpl. rewrite String.eqb_refl. simpl.
  now destruct (checkpw password hashed) as [[|]|].
Qed.


End Accounts.

Section AccountsWitness.

Local Open Scope string_scope.
Local Open Scope list_scope.

Lemma register_takes_an_address_once_witness :
  let out :=
    register asha_signs_up "user-2" "$2b$s3cret" Sample.at_ten "token-1"
             empty_site in
  emails_unique (snd out) /\
  match fst out with
  | Err e =>
      e = HTTPException 400 "Email already registered" /\
      In "asha@example.com" (map Account.email (users empty_site)) /\
      snd out = empty_site
  | Ok session =>
      ~ In "asha@example.com" (map Account.email (users empty_site)) /\
      users (snd out)
      = users empty_site
          ++ [Account.Make "user-2" "asha@example.com" "$2b$s3cret"
                           "Asha" None Sample.at_ten] /\
      carts (world (snd out))
      = carts (world empty_site) ++ [Cart.Make "user-2" []] /\
      wishlists (snd out)
      = wishlists empty_site ++ [Wishlist.Make "user-2" []] /\
      session = Session.Make "token-1" "user-2" "asha@example.com"
                             "Asha" None /\
      newsletter (snd out) = newsletter empty_site /\
      orders (world (snd out)) = orders (world empty_site) /\
      payment_transactions (world (snd out))
      = payment_transactions (world empty_site)
  end.
Proof.
  apply (@register_takes_an_address_once
           asha_signs_up "user-2" "$2b$s3cret" Sample.at_ten "token-1"
           empty_site).
  constructor.
Defined.

Lemma login_checks_the_hash_stored_at_registration_witness :
  let db' :=
    snd (register asha_signs_up "user-2" "$2b$s3cret" Sample.at_ten
                  "token-1" empty_site) in
  login prefix_checkpw (UserLogin.Make "asha@example.com" "s3cret")
        "token-2" db'
  = (Ok (Session.Make "token-2" "user-2" "asha@example.com" "Asha" None),
     db').
Proof.
  apply (@login_checks_the_hash_stored_at_registration
           prefix_checkpw asha_signs_up "user-2" "$2b$s3cret" Sample.at_ten
           "token-1" empty_site
           (Session.Make "token-1" "user-2" "asha@example.com" "Asha" None)
           "s3cret" "token-2").
  reflexivity.
Defined.


End AccountsWitness.

(* ================================================================== *)
(** ** Integers the store cannot hold *)
(* ================================================================== *)

Section StoreLimits.

Local Open Scope string_scope.
Local Open Scope list_scope.
Local Open Scope Z_scope.

(** The largest quantity the store takes, and the first it refuses. *)
Example eight_bytes_at_most :
  Bson.int64 (2 ^ 63 - 1) = true /\ Bson.int64 (2 ^ 63) = false /\
  Bson.int64 (- 2 ^ 63) = true /\ Bson.int64 (- 2 ^ 63 - 1) = false.
Proof. repeat split. Qed.

(** A checkout of 2^63 bottles: the total is positive and the gateway
    creates the session, then the ledger insert raises; the session is
    left without a ledger row. *)
Example a_quantity_beyond_eight_bytes_orphans_the_session :
  let request :=
    CheckoutRequest.Make [CartItem.Make "prod_victoria_royale" (2 ^ 63)]
                         "https://shop.example" in
  let out :=
    run Sample.gateway
        (create_stripe_checkout request Sample.priya "txn-1" Sample.at_ten)
        Sample.shop in
  fst out = Err OverflowError /\
  payment_transactions (snd out) = [] /\
  List.length (stripe_sessions (snd out)) = 1%nat.
Proof. vm_compute. repeat split. Qed.

(** A review rated 2^63 is refused by the insert: no review is stored and
    no product is rated anew. *)
Example a_rating_beyond_eight_bytes_is_not_stored :
  run Sample.gateway
      (create_review
         (ReviewCreate.Make "prod_victoria_royale" (2 ^ 63) "Big" "Huge.")
         Sample.priya "rev-2" Sample.at_noon)
      Sample.twice_reviewed
  = (Err OverflowError, Sample.twice_reviewed).
Proof. vm_compute. reflexivity. Qed.

(** A first addition of 2^63 bottles by a customer without a cart: the
    insert of the new cart raises and no cart is made. *)
Example a_first_line_beyond_eight_bytes_makes_no_cart :
  let w := with_carts (fun _ => []) Sample.shop in
  run Sample.gateway
      (add_to_cart (CartItem.Make "prod_victoria_royale" (2 ^ 63))
                   Sample.priya)
      w
  = (Err OverflowError, w).
Proof. vm_compute. reflexivity. Qed.

End StoreLimits.
